(** * Bulk import engine of the IT asset manager

    A shallow embedding of [app/services/import_service.py] (with the job
    model of [app/models/job.py] and the routes of
    [app/api/routers/imports.py]) and the properties of the import pipeline
    that are settled on it.

    Conventions of the embedding.
    - Python [str] values are [string]s; the text helpers below act on ASCII
      (case folding and whitespace of code points above 127 are left alone).
    - A Python exception is a value of [exn]; a computation that may raise
      returns a [result].
    - The database session is an explicit [DB] record threaded through the
      service functions; [uuid.uuid4] is a counter of fresh identifiers.
    - Failures of the persistence layer itself (lost connection, constraint
      violations reported by the server) are outside the embedding: every
      [db.execute], [db.flush] and [db.commit] of the model succeeds. *)

From Stdlib Require Import String Ascii List Bool Arith ZArith NArith QArith Lia.
From Stdlib Require Import DecimalString OrderedTypeEx Lqa Permutation.
Import ListNotations.

Local Open Scope string_scope.
Local Open Scope list_scope.

(* ------------------------------------------------------------------ *)
(** ** Exceptions                                                      *)
(* ------------------------------------------------------------------ *)

(** [app/core/exceptions.py], plus the built-in classes the import code can
    meet.  [ValidationException] and [ResourceNotFound] derive from
    [AppException]; all of them derive from [Exception]. *)
Inductive exn_class : Type :=
| AppException
| ResourceNotFound
| ValidationException
| AttributeError.

Record exn : Type := mkExn { exn_cls : exn_class; exn_msg : string }.

(** [str(e)] *)
Definition str_exn (e : exn) : string := exn_msg e.

Definition is_validation (e : exn) : bool :=
  match exn_cls e with ValidationException => true | _ => false end.

Inductive result (A : Type) : Type :=
| Ok (a : A)
| Raise (e : exn).
Arguments Ok {A} a.
Arguments Raise {A} e.

(* ------------------------------------------------------------------ *)
(** ** Python string helpers                                           *)
(* ------------------------------------------------------------------ *)

Module PyStr.

Definition is_upper (c : ascii) : bool :=
  let n := nat_of_ascii c in (65 <=? n)%nat && (n <=? 90)%nat.

Definition is_lower_alnum (c : ascii) : bool :=
  let n := nat_of_ascii c in
  ((97 <=? n)%nat && (n <=? 122)%nat) || ((48 <=? n)%nat && (n <=? 57)%nat).

(** [str.isspace] on ASCII: TAB..CR, FS..US and the space. *)
Definition is_space (c : ascii) : bool :=
  let n := nat_of_ascii c in
  ((9 <=? n)%nat && (n <=? 13)%nat) || ((28 <=? n)%nat && (n <=? 32)%nat).

Definition lower_char (c : ascii) : ascii :=
  if is_upper c then ascii_of_nat (nat_of_ascii c + 32) else c.

(** [s.lower()] *)
Fixpoint lower (s : string) : string :=
  match s with
  | EmptyString => EmptyString
  | String c s' => String (lower_char c) (lower s')
  end.

(** [s.lstrip(chars)] with the stripped set given as a predicate. *)
Fixpoint lstrip_by (p : ascii -> bool) (s : string) : string :=
  match s with
  | EmptyString => EmptyString
  | String c s' => if p c then lstrip_by p s' else s
  end.

Fixpoint rstrip_by (p : ascii -> bool) (s : string) : string :=
  match s with
  | EmptyString => EmptyString
  | String c s' =>
      match rstrip_by p s' with
      | EmptyString => if p c then EmptyString else String c EmptyString
      | t => String c t
      end
  end.

Definition strip_by (p : ascii -> bool) (s : string) : string :=
  rstrip_by p (lstrip_by p s).

(** [s.strip()] *)
Definition strip (s : string) : string := strip_by is_space s.

(** [s.replace(old, new)] for a one-character [old]. *)
Fixpoint replace_char (old : ascii) (new : string) (s : string) : string :=
  match s with
  | EmptyString => EmptyString
  | String c s' =>
      if Ascii.eqb c old then new ++ replace_char old new s'
      else String c (replace_char old new s')
  end.

(** [s.startswith(pre)] *)
Definition startswith (pre s : string) : bool := String.prefix pre s.

(** [sub in s] *)
Fixpoint contains (sub s : string) : bool :=
  String.prefix sub s ||
  match s with
  | EmptyString => false
  | String _ s' => contains sub s'
  end.

(** [s.split(sep)] for a one-character separator. *)
Fixpoint split (sep : ascii) (s : string) : list string :=
  match s with
  | EmptyString => [EmptyString]
  | String c s' =>
      if Ascii.eqb c sep then EmptyString :: split sep s'
      else match split sep s' with
           | [] => [String c EmptyString]
           | w :: ws => String c w :: ws
           end
  end.

(** [sep.join(parts)] *)
Definition join (sep : string) (parts : list string) : string :=
  String.concat sep parts.

(** [re.sub(r"[^a-z0-9]+", "_", s)]: every maximal run of characters
    outside [a-z0-9] becomes one underscore.  [in_run] tells whether the
    previous character already belonged to such a run. *)
Fixpoint sub_non_alnum (in_run : bool) (s : string) : string :=
  match s with
  | EmptyString => EmptyString
  | String c s' =>
      if is_lower_alnum c then String c (sub_non_alnum false s')
      else if in_run then sub_non_alnum true s'
      else String "_" (sub_non_alnum true s')
  end.

(** [re.sub(r"_+", "_", s)] *)
Fixpoint sub_underscores (in_run : bool) (s : string) : string :=
  match s with
  | EmptyString => EmptyString
  | String c s' =>
      if Ascii.eqb c "_" then
        if in_run then sub_underscores true s'
        else String "_" (sub_underscores true s')
      else String c (sub_underscores false s')
  end.

(** [str(n)] for an [int]. *)
Definition str_of_Z (z : Z) : string := NilZero.string_of_int (Z.to_int z).

Definition str_of_nat (n : nat) : string := str_of_Z (Z.of_nat n).

(** Membership in a Python list (or set) of strings. *)
Definition mem (s : string) (l : list string) : bool :=
  existsb (String.eqb s) l.

End PyStr.

(* ------------------------------------------------------------------ *)
(** ** Python dictionaries keyed by strings                            *)
(* ------------------------------------------------------------------ *)

Module Dict.

(** Entries in insertion order, each key once. *)
Definition dict (V : Type) : Type := list (string * V).

(** [d.get(k)] *)
Fixpoint get {V : Type} (d : dict V) (k : string) : option V :=
  match d with
  | [] => None
  | (k', v) :: d' => if String.eqb k' k then Some v else get d' k
  end.

(** [k in d] *)
Definition has {V : Type} (d : dict V) (k : string) : bool :=
  match get d k with Some _ => true | None => false end.

(** [d[k] = v]: the value of a present key is replaced where it stands,
    a new key goes to the end. *)
Fixpoint set {V : Type} (d : dict V) (k : string) (v : V) : dict V :=
  match d with
  | [] => [(k, v)]
  | (k', v') :: d' =>
      if String.eqb k' k then (k', v) :: d' else (k', v') :: set d' k v
  end.

(** [d.keys()] *)
Definition keys {V : Type} (d : dict V) : list string := map fst d.

(** [d.values()] *)
Definition values {V : Type} (d : dict V) : list V := map snd d.

(** A dictionary comprehension [{key(x): val(x) for x in xs}]. *)
Definition comprehension {A V : Type} (key : A -> string) (val : A -> V)
           (xs : list A) : dict V :=
  fold_left (fun d x => set d (key x) (val x)) xs [].

End Dict.

(* ------------------------------------------------------------------ *)
(** ** Tables as pandas delivers them                                  *)
(* ------------------------------------------------------------------ *)

Module Pd.

(** A cell after [df.where(pd.notnull(df), None)]: text or a whole number
    (floating-point and boolean cells are not represented). *)
Inductive value : Type :=
| VNone                    (* a missing cell: NaN, turned into None *)
| VStr (s : string)
| VInt (z : Z).

(** A column label: pandas keeps labels that are numbers as numbers. *)
Inductive label : Type :=
| LStr (s : string)
| LInt (z : Z).

Record DataFrame : Type := mkDF {
  df_columns : list label;
  df_rows : list (list value)
}.

(** One row of [df.to_dict(orient="records")], in column order. *)
Definition record : Type := list (label * value).

Definition to_records (df : DataFrame) : list record :=
  map (fun row => combine (df_columns df) row) (df_rows df).

(** [str(v)] *)
Definition str_value (v : value) : string :=
  match v with
  | VNone => "None"
  | VStr s => s
  | VInt z => PyStr.str_of_Z z
  end.

(** Truth value of a cell: [None], the empty string and zero are false. *)
Definition truthy (v : value) : bool :=
  match v with
  | VNone => false
  | VStr s => negb (String.eqb s "")
  | VInt z => negb (Z.eqb z 0)
  end.

Definition label_eqb (a b : label) : bool :=
  match a, b with
  | LStr s, LStr t => String.eqb s t
  | LInt x, LInt y => Z.eqb x y
  | _, _ => false
  end.

(** [record.get(key)] *)
Fixpoint record_get (r : record) (key : label) : option value :=
  match r with
  | [] => None
  | (k, v) :: r' => if label_eqb k key then Some v else record_get r' key
  end.

Inductive pd_outcome : Type :=
| PdFrame (df : DataFrame)
| PdParserError (msg : string)     (* pd.errors.ParserError *)
| PdError (msg : string).          (* any other exception *)

(** The three pandas readers, each a function of the file's bytes. *)
Record Pandas : Type := mkPandas {
  read_csv : string -> pd_outcome;
  read_excel : string -> pd_outcome;
  read_json : string -> pd_outcome
}.

End Pd.
Import Pd.

(* ------------------------------------------------------------------ *)
(** ** Paths and the file system                                       *)
(* ------------------------------------------------------------------ *)

Module Paths.

(** A resolved [pathlib.Path]: the components below the root. *)
Definition path : Type := list string.

Definition path_eqb (p q : path) : bool :=
  if list_eq_dec String.string_dec p q then true else false.

(** [str(p)] of an absolute POSIX path. *)
Definition str_path (p : path) : string :=
  String "/" (PyStr.join "/" p).

(** One step of the lexical normalisation of [Path.resolve()]: empty and
    ["."] components vanish, [".."] drops the last component (and is a
    no-op at the root).  [acc] is the path so far, innermost first. *)
Definition resolve_step (acc : list string) (c : string) : list string :=
  if String.eqb c "" then acc
  else if String.eqb c "." then acc
  else if String.eqb c ".." then tl acc
  else c :: acc.

(** [Path(file_path).resolve()] in a file system without symbolic links;
    a relative path starts from the working directory [cwd]. *)
Definition resolve (cwd : path) (file_path : string) : path :=
  let start := if PyStr.startswith "/" file_path then [] else rev cwd in
  rev (fold_left resolve_step (PyStr.split "/" file_path) start).

(** [d in p.parents]: [d] is a proper ancestor of [p]. *)
Fixpoint is_parent (d p : path) : bool :=
  match d, p with
  | [], _ :: _ => true
  | x :: d', y :: p' => String.eqb x y && is_parent d' p'
  | _, _ => false
  end.

(** The containment test that lines 61-66 of the source compute and then
    discard: [UPLOAD_DIR in p.parents or p == UPLOAD_DIR]. *)
Definition within (upload_dir p : path) : bool :=
  is_parent upload_dir p || path_eqb p upload_dir.

(** The regular files of the machine, by resolved path, with their bytes. *)
Record FileSystem : Type := mkFS {
  fs_cwd : path;
  fs_files : list (path * string)
}.

Fixpoint fs_lookup (files : list (path * string)) (p : path) : option string :=
  match files with
  | [] => None
  | (q, bytes) :: rest => if path_eqb q p then Some bytes else fs_lookup rest p
  end.

(** [p.is_file()] *)
Definition is_file (fs : FileSystem) (p : path) : bool :=
  match fs_lookup (fs_files fs) p with Some _ => true | None => false end.

(** [os.path.splitext(p)[1]]: the text from the last dot of the last
    component, provided a character other than a dot precedes it there. *)
Fixpoint last_dot_ext (seen_non_dot : bool) (s : string) : option string :=
  match s with
  | EmptyString => None
  | String c s' =>
      if Ascii.eqb c "." then
        match last_dot_ext seen_non_dot s' with
        | Some e => Some e
        | None => if seen_non_dot then Some s else None
        end
      else last_dot_ext true s'
  end.

Definition splitext_ext (file_path : string) : string :=
  match last_dot_ext false (last (PyStr.split "/" file_path) "") with
  | Some e => e
  | None => ""
  end.

Section Reader.

(** [UPLOAD_DIR], already resolved, the pandas readers and the disk. *)
Variable UPLOAD_DIR : path.
Variable pd : Pandas.
Variable fs : FileSystem.

Definition validation {A : Type} (msg : string) : result A :=
  Raise (mkExn ValidationException msg).

(** [_validate_safe_path] *)
Definition _validate_safe_path (file_path : string) : result path :=
  if String.eqb file_path "" then validation "File path is empty"
  else if PyStr.contains "://" file_path then
    validation "Invalid file path: URLs are not allowed"
  else
    let p := resolve (fs_cwd fs) file_path in
    (* [if UPLOAD_DIR not in p.parents and p != UPLOAD_DIR: pass] *)
    let _ := if negb (is_parent UPLOAD_DIR p) && negb (path_eqb p UPLOAD_DIR)
             then tt else tt in
    if negb (PyStr.startswith (str_path UPLOAD_DIR) (str_path p)) then
      validation "Invalid file path: Access denied"
    else if negb (is_file fs p) then
      validation ("File not found: " ++ file_path)
    else Ok p.

(** [_read_file].  The result carries, next to the table, the resolved
    path of the file that pandas opened. *)
Definition _read_file (file_path : string) : result (path * DataFrame) :=
  match _validate_safe_path file_path with
  | Raise e => Raise e
  | Ok p =>
      let ext := PyStr.lower (splitext_ext file_path) in
      let bytes := match fs_lookup (fs_files fs) p with
                   | Some b => b | None => "" end in
      let read (reader : string -> pd_outcome) : result (path * DataFrame) :=
        match reader bytes with
        | PdFrame df => Ok (p, df)
        | PdParserError msg => validation ("Failed to parse file: " ++ msg)
        | PdError msg => validation ("Error reading file: " ++ msg)
        end in
      if String.eqb ext ".csv" then read (read_csv pd)
      else if PyStr.mem ext [".xlsx"; ".xls"] then read (read_excel pd)
      else if String.eqb ext ".json" then read (read_json pd)
      else validation ("Unsupported file format: " ++ ext)
  end.

End Reader.

End Paths.

(* ------------------------------------------------------------------ *)
(** ** The persisted entities and the database session                 *)
(* ------------------------------------------------------------------ *)

Module Models.

(** Primary keys.  [uuid.uuid4] is modelled by the counter [db_next]. *)
Definition uuid : Type := N.

(** [app/models/job.py] *)
Inductive JobType : Type := import_assets | sync_integration.

Inductive JobStatus : Type := pending | running | completed | failed.

(** The [payload] dictionary of a job; a key that is absent is [None]. *)
Record Payload : Type := mkPayload {
  pl_file_path : option string;
  pl_filename : option string;
  pl_uploaded_by : option string;
  pl_size_bytes : option N
}.

(** The dictionary returned by the two executors (the outcome report). *)
Record Report : Type := mkReport {
  rp_success : bool;
  rp_imported : nat;
  rp_errors : list string;
  rp_set_id : option string
}.

Record Job : Type := mkJob {
  job_id : uuid;
  job_type : JobType;
  job_status : JobStatus;
  job_payload : Payload;
  job_result : option Report;
  job_error : option string
}.

Record AssetSet : Type := mkAssetSet {
  set_id : uuid;
  set_name : string;
  set_description : option string;
  set_created_by_id : option uuid
}.

Inductive CustomFieldTarget : Type := target_asset | target_user.

Record CustomFieldDefinition : Type := mkCustomField {
  cf_id : uuid;
  cf_target : CustomFieldTarget;
  cf_key : string;
  cf_label : string;
  cf_asset_set_id : option uuid
}.

Record AssetStatus : Type := mkAssetStatus { st_id : uuid; st_name : string }.

Record AssetType : Type := mkAssetType { ty_id : uuid; ty_name : string }.

(** The grouping reference of a user row: the executor stores either the
    key of a set it created or the raw option value it was given. *)
Inductive set_ref : Type :=
| RefUuid (u : uuid)
| RefRaw (s : string).

(** A value of the [asset_data] dictionary, whose entries become the
    columns of the new [Asset]. *)
Inductive field : Type :=
| FNone
| FStr (s : string)
| FUuid (u : uuid)
| FDate (d : Z)
| FPrice (q : Q)
| FTags (l : list string)
| FExtra (e : list (label * value)).

Record Asset : Type := mkAsset { a_id : uuid; a_fields : Dict.dict field }.

Record User : Type := mkUser {
  u_id : uuid;
  u_email : string;
  u_full_name : option string;
  u_asset_set_id : option set_ref;
  u_extra : list (label * value);
  u_roles : list string
}.

(** A [SystemSetting.value] (a JSON column); JSON floats and booleans are
    not represented. *)
Inductive json : Type :=
| JNum (z : Z)
| JStr (s : string)
| JComposite (nonempty : bool).    (* an array or an object *)

Record DB : Type := mkDB {
  db_jobs : list Job;
  db_asset_sets : list AssetSet;
  db_custom_fields : list CustomFieldDefinition;
  db_statuses : list AssetStatus;
  db_types : list AssetType;
  db_assets : list Asset;
  db_users : list User;
  db_roles : list string;
  db_settings : list (string * json);
  db_next : uuid
}.

(** Conversions of the Python runtime that the services call. *)
Record Runtime : Type := mkRuntime {
  parse_uuid : string -> option uuid;        (* [uuid.UUID(s)], None on ValueError *)
  str_uuid : uuid -> string;                 (* [str(u)] *)
  hex8 : uuid -> string;                     (* [u.hex[:8]] *)
  parse_int : string -> option Z;            (* [int(s)] *)
  parse_float : string -> option Q;          (* [float(s)] *)
  parse_date : string -> option Z            (* [pd.to_datetime(s).date()] *)
}.

(** [u.has_role(name)] *)
Definition has_role (u : User) (name : string) : bool :=
  existsb (fun r => String.eqb r name) (u_roles u).

Definition set_jobs (db : DB) (jobs : list Job) : DB :=
  mkDB jobs (db_asset_sets db) (db_custom_fields db) (db_statuses db)
       (db_types db) (db_assets db) (db_users db) (db_roles db)
       (db_settings db) (db_next db).

Definition set_asset_sets (db : DB) (l : list AssetSet) : DB :=
  mkDB (db_jobs db) l (db_custom_fields db) (db_statuses db)
       (db_types db) (db_assets db) (db_users db) (db_roles db)
       (db_settings db) (db_next db).

Definition set_custom_fields (db : DB) (l : list CustomFieldDefinition) : DB :=
  mkDB (db_jobs db) (db_asset_sets db) l (db_statuses db)
       (db_types db) (db_assets db) (db_users db) (db_roles db)
       (db_settings db) (db_next db).

Definition set_types (db : DB) (l : list AssetType) : DB :=
  mkDB (db_jobs db) (db_asset_sets db) (db_custom_fields db) (db_statuses db)
       l (db_assets db) (db_users db) (db_roles db)
       (db_settings db) (db_next db).

Definition set_assets (db : DB) (l : list Asset) : DB :=
  mkDB (db_jobs db) (db_asset_sets db) (db_custom_fields db) (db_statuses db)
       (db_types db) l (db_users db) (db_roles db)
       (db_settings db) (db_next db).

Definition set_users (db : DB) (l : list User) : DB :=
  mkDB (db_jobs db) (db_asset_sets db) (db_custom_fields db) (db_statuses db)
       (db_types db) (db_assets db) l (db_roles db)
       (db_settings db) (db_next db).

(** A fresh primary key ([default=uuid.uuid4]). *)
Definition fresh (db : DB) : uuid * DB :=
  (db_next db,
   mkDB (db_jobs db) (db_asset_sets db) (db_custom_fields db) (db_statuses db)
        (db_types db) (db_assets db) (db_users db) (db_roles db)
        (db_settings db) (N.succ (db_next db))).

(** [select(Job).where(Job.id == job_id)] then [scalar_one_or_none()] *)
Definition find_job (db : DB) (id : uuid) : option Job :=
  find (fun j => N.eqb (job_id j) id) (db_jobs db).

(** Assigning to attributes of a loaded job and committing. *)
Definition update_job (db : DB) (id : uuid) (f : Job -> Job) : DB :=
  set_jobs db (map (fun j => if N.eqb (job_id j) id then f j else j) (db_jobs db)).

Definition find_setting (db : DB) (key : string) : option json :=
  option_map snd (find (fun kv => String.eqb (fst kv) key) (db_settings db)).

End Models.
Import Models.

(* ------------------------------------------------------------------ *)
(** ** Upload intake: [create_import_job]                              *)
(* ------------------------------------------------------------------ *)

Module Upload.
Import Paths.

Definition ALLOWED_EXTS : list string := [".csv"; ".xlsx"; ".xls"; ".json"].

(** [50 * 1024 * 1024] *)
Definition DEFAULT_MAX_UPLOAD_BYTES : N := 52428800.

(** [1024 * 1024 * 1024 * 10], the cap of an administrator. *)
Definition ADMIN_MAX_UPLOAD_BYTES : N := 10737418240.

(** [chunk_size = 1024 * 1024] *)
Definition chunk_size : N := 1048576.

(** [Path(filename).name]: the last component that is neither empty nor
    a single dot. *)
Definition path_name (filename : string) : string :=
  last (filter (fun c => negb (String.eqb c "") && negb (String.eqb c "."))
               (PyStr.split "/" filename)) "".

(** The text from the last dot of [s] on, if [s] has a dot. *)
Fixpoint from_last_dot (s : string) : option string :=
  match s with
  | EmptyString => None
  | String c s' =>
      match from_last_dot s' with
      | Some e => Some e
      | None => if Ascii.eqb c "." then Some s else None
      end
  end.

(** [Path(filename).suffix] (pathlib up to Python 3.12): with [i] the
    index of the last dot of the name, [name[i:]] when
    [0 < i < len(name) - 1] and the empty string otherwise. *)
Definition suffix (filename : string) : string :=
  match path_name filename with
  | EmptyString => ""
  | String _ rest =>
      match from_last_dot rest with
      | Some e => if (String.length e =? 1)%nat then "" else e
      | None => ""
      end
  end.

(** [_validate_ext] *)
Definition _validate_ext (filename : option string) : result string :=
  let ext := PyStr.lower (suffix (match filename with Some f => f | None => "" end)) in
  if negb (PyStr.mem ext ALLOWED_EXTS) then
    validation ("Unsupported file type: "
                ++ (if String.eqb ext "" then "(none)" else ext)
                ++ ". Allowed: " ++ PyStr.join ", " ALLOWED_EXTS)
  else Ok ext.

(** A [fastapi.UploadFile]: the declared name and the bytes it streams. *)
Record UploadFile : Type := mkUpload {
  up_filename : option string;
  up_content : string
}.

(** The successive non-empty results of [file.read(n)]: slices of [n]
    bytes, the last one possibly shorter.  [room] is what the slice under
    construction, [cur], can still take. *)
Fixpoint chunks_from (n room : N) (cur : string) (s : string) : list string :=
  match s with
  | EmptyString => if String.eqb cur "" then [] else [cur]
  | String c s' =>
      if N.eqb room 0 then cur :: chunks_from n (N.pred n) (String c "") s'
      else chunks_from n (N.pred room) (cur ++ String c "") s'
  end.

Definition read_chunks (n : N) (content : string) : list string :=
  if N.eqb n 0 then [] else chunks_from n n "" content.

Definition len (s : string) : N := N.of_nat (String.length s).

(** The [while True] loop of step 3: [size] is the count so far and
    [written] what the destination file holds.  The loop ends on the
    first empty chunk, that is when the chunks are exhausted. *)
Fixpoint stream_loop (max_bytes : N) (chunks : list string)
         (size : N) (written : string) : string * result N :=
  match chunks with
  | [] => (written, Ok size)
  | chunk :: rest =>
      let size := (size + len chunk)%N in
      if (max_bytes <? size)%N then
        (written, validation "File size exceeds limit")
      else stream_loop max_bytes rest size (written ++ chunk)
  end.

(** The sum of the chunk lengths. *)
Definition total (chunks : list string) : N :=
  fold_right (fun c acc => (len c + acc)%N) 0%N chunks.

Definition fs_write (fs : FileSystem) (p : path) (bytes : string) : FileSystem :=
  mkFS (fs_cwd fs)
       ((p, bytes) :: filter (fun e => negb (path_eqb (fst e) p)) (fs_files fs)).

(** [p.unlink()] *)
Definition fs_unlink (fs : FileSystem) (p : path) : FileSystem :=
  mkFS (fs_cwd fs) (filter (fun e => negb (path_eqb (fst e) p)) (fs_files fs)).

(** Truth value of a setting's JSON value. *)
Definition json_truthy (j : json) : bool :=
  match j with
  | JNum z => negb (Z.eqb z 0)
  | JStr s => negb (String.eqb s "")
  | JComposite nonempty => nonempty
  end.

Section Intake.

Variable UPLOAD_DIR : path.
Variable rt : Runtime.

(** Step 2 of [create_import_job]: the size limit that applies, as a byte
    count.  A negative setting is read as the limit zero, which is how the
    loop of step 3 treats it: the comparison [size > max_bytes] is made
    only after a non-empty chunk, so under a negative limit the empty
    upload passes and every other upload is refused. *)
Definition max_upload_bytes (db : DB) (user : User) : N :=
  if has_role user "admin" then ADMIN_MAX_UPLOAD_BYTES
  else
    match find_setting db "import_max_upload_mb" with
    | Some v =>
        if json_truthy v then
          let mb := match v with
                    | JNum z => Some z
                    | JStr s => parse_int rt s
                    | JComposite _ => None
                    end in
          match mb with
          | Some mb => Z.to_N (mb * 1024 * 1024)
          | None => DEFAULT_MAX_UPLOAD_BYTES
          end
        else DEFAULT_MAX_UPLOAD_BYTES
    | None => DEFAULT_MAX_UPLOAD_BYTES
    end.

(** [UPLOAD_DIR / f"{file_id}{ext}"] *)
Definition dest_path (file_id ext : string) : path :=
  UPLOAD_DIR ++ [(file_id ++ ext)%string].

(** [create_import_job].  [file_id] is the random [uuid.uuid4().hex] of
    step 3.  The result is the disk and the database afterwards, and the
    job or the exception. *)
Definition create_import_job (db : DB) (fs : FileSystem) (file : UploadFile)
           (user : User) (file_id : string) : FileSystem * DB * result Job :=
  match _validate_ext (up_filename file) with
  | Raise e => (fs, db, Raise e)
  | Ok ext =>
      let max_bytes := max_upload_bytes db user in
      let dest := dest_path file_id ext in
      let '(written, streamed) :=
        stream_loop max_bytes (read_chunks chunk_size (up_content file)) 0%N "" in
      let fs1 := fs_write fs dest written in
      match streamed with
      | Raise e =>
          (* [except ValidationException:] cleanup and re-raise *)
          let fs2 := if is_file fs1 dest then fs_unlink fs1 dest else fs1 in
          (fs2, db, Raise e)
      | Ok size =>
          let '(id, db1) := fresh db in
          let job := mkJob id import_assets completed
                       (mkPayload (Some (str_path dest)) (up_filename file)
                                  (Some (str_uuid rt (u_id user))) (Some size))
                       None None in
          (fs1, set_jobs db1 (db_jobs db1 ++ [job]), Ok job)
      end
  end.

End Intake.

End Upload.

(* ------------------------------------------------------------------ *)
(** ** [difflib.get_close_matches]                                     *)
(* ------------------------------------------------------------------ *)

(** The standard library's matcher, for sequences without junk (the
    popularity heuristic of [SequenceMatcher] only affects second sequences
    of 200 elements or more).  Scores are exact fractions; for sequences of
    realistic length the quotients of the floating-point original compare
    the same way. *)
Module Difflib.

Fixpoint common_prefix_len (a b : list ascii) : nat :=
  match a, b with
  | x :: a', y :: b' => if Ascii.eqb x y then S (common_prefix_len a' b') else 0
  | _, _ => 0
  end.

(** Matches of the suffix [ai] of the first sequence, which starts at
    index [i], against every suffix of [b] from index [j] on. *)
Fixpoint scan_b (ai b : list ascii) (i j : nat) (best : nat * nat * nat)
  : nat * nat * nat :=
  match b with
  | [] => best
  | _ :: b' =>
      let k := common_prefix_len ai b in
      let best' := if (snd best <? k)%nat then (i, j, k) else best in
      scan_b ai b' i (S j) best'
  end.

Fixpoint scan_a (a b : list ascii) (i : nat) (best : nat * nat * nat)
  : nat * nat * nat :=
  match a with
  | [] => best
  | _ :: a' => scan_a a' b (S i) (scan_b a b i 0 best)
  end.

(** [find_longest_match]: [(i, j, k)] with [a[i:i+k] == b[j:j+k]], [k]
    maximal, then [i] minimal, then [j] minimal. *)
Definition find_longest_match (a b : list ascii) : nat * nat * nat :=
  scan_a a b 0 (0, 0, 0)%nat.

(** The total size of [get_matching_blocks()]: the longest match, then
    recursively the pieces to its left and to its right. *)
Fixpoint matching (fuel : nat) (a b : list ascii) : nat :=
  match fuel with
  | O => 0
  | S fuel' =>
      let '(i, j, k) := find_longest_match a b in
      if (k =? 0)%nat then 0
      else
        k
        + (if (0 <? i)%nat && (0 <? j)%nat
           then matching fuel' (firstn i a) (firstn j b) else 0)
        + (if (i + k <? List.length a)%nat && (j + k <? List.length b)%nat
           then matching fuel' (skipn (i + k) a) (skipn (j + k) b) else 0)
  end.

(** [SequenceMatcher(None, a, b).ratio()]: [2.0 * matches / length], and
    [1.0] when both sequences are empty. *)
Definition ratio (a b : string) : Q :=
  let la := list_ascii_of_string a in
  let lb := list_ascii_of_string b in
  let total := (List.length la + List.length lb)%nat in
  if (total =? 0)%nat then 1%Q
  else Qmake (Z.of_nat (2 * matching (S (List.length la)) la lb))
             (Pos.of_nat total).

(** Order of the [(score, x)] tuples that [heapq.nlargest] compares. *)
Definition tuple_ltb (p q : Q * string) : bool :=
  match Qcompare (fst p) (fst q) with
  | Lt => true
  | Eq => String.ltb (snd p) (snd q)
  | Gt => false
  end.

(** [max(result)]: the first of the greatest elements. *)
Definition max_tuple (l : list (Q * string)) : option (Q * string) :=
  match l with
  | [] => None
  | x :: rest =>
      Some (fold_left (fun best c => if tuple_ltb best c then c else best) rest x)
  end.

(** [get_close_matches(word, possibilities, n=1, cutoff)]: the
    possibilities scoring at least [cutoff] against [word], of which the
    single largest [(score, x)] is returned. *)
Definition get_close_matches_1 (word : string) (possibilities : list string)
           (cutoff : Q) : list string :=
  let result :=
    flat_map (fun x => let r := ratio x word in
                       if Qle_bool cutoff r then [(r, x)] else [])
             possibilities in
  match max_tuple result with
  | Some (_, x) => [x]
  | None => []
  end.

End Difflib.

(* ------------------------------------------------------------------ *)
(** ** The import analyzer: [analyze_file]                             *)
(* ------------------------------------------------------------------ *)

Module Analyzer.
Import Paths.

(** The [static_fields] set of [analyze_file]. *)
Definition static_fields : list string :=
  ["name"; "status"; "serial_number"; "location"; "tags"; "asset_type_id";
   "purchase_date"; "purchase_price"; "vendor"; "order_number";
   "warranty_end"; "assigned_user_id"].

Definition no_lower {A : Type} : result A :=
  Raise (mkExn AttributeError "'int' object has no attribute 'lower'").

(** [h.lower()] on a column label. *)
Definition label_lower (h : label) : result string :=
  match h with
  | LStr s => Ok (PyStr.lower s)
  | LInt _ => no_lower
  end.

(** [h.lower().strip().replace(" ", "_")] *)
Definition header_key (h : label) : result string :=
  match label_lower h with
  | Ok s => Ok (PyStr.replace_char " " "_" (PyStr.strip s))
  | Raise e => Raise e
  end.

Inductive target_kind : Type := static | custom.

(** An entry [{"header": h, "target": t, "key": key}] of [mapped_fields]. *)
Record MappedField : Type := mkMapped {
  mf_header : label;
  mf_target : target_kind;
  mf_key : string
}.

(** The loop of step 2 over the headers. *)
Fixpoint classify (custom_fields : Dict.dict CustomFieldDefinition)
         (headers : list label) (mapped_fields : list MappedField)
         (new_fields : list label)
  : result (list MappedField * list label) :=
  match headers with
  | [] => Ok (mapped_fields, new_fields)
  | h :: rest =>
      match header_key h with
      | Raise e => Raise e
      | Ok key =>
          if PyStr.mem key static_fields then
            classify custom_fields rest
                     (mapped_fields ++ [mkMapped h static key]) new_fields
          else if Dict.has custom_fields key then
            classify custom_fields rest
                     (mapped_fields ++ [mkMapped h custom key]) new_fields
          else classify custom_fields rest mapped_fields (new_fields ++ [h])
      end
  end.

(** The list comprehension that selects the person-reference columns. *)
Fixpoint potential_user_cols (headers : list label) : result (list label) :=
  match headers with
  | [] => Ok []
  | h :: rest =>
      match label_lower h with
      | Raise e => Raise e
      | Ok l =>
          match potential_user_cols rest with
          | Raise e => Raise e
          | Ok cols =>
              if PyStr.contains "user" l || PyStr.contains "owner" l
                 || PyStr.contains "email" l
              then Ok (h :: cols) else Ok cols
          end
      end
  end.

Definition value_eqb (a b : value) : bool :=
  match a, b with
  | VNone, VNone => true
  | VStr s, VStr t => String.eqb s t
  | VInt x, VInt y => Z.eqb x y
  | _, _ => false
  end.

(** [df[col]]: the cells of the first column labelled [col]. *)
Definition column (df : DataFrame) (col : label) : list value :=
  flat_map (fun r => match record_get r col with Some v => [v] | None => [] end)
           (to_records df).

Definition dropna (vs : list value) : list value :=
  filter (fun v => match v with VNone => false | _ => true end) vs.

(** [.unique()]: the distinct values in order of first appearance. *)
Fixpoint unique_from (seen : list value) (vs : list value) : list value :=
  match vs with
  | [] => []
  | v :: rest =>
      if existsb (value_eqb v) seen then unique_from seen rest
      else v :: unique_from (v :: seen) rest
  end.

Definition unique (vs : list value) : list value := unique_from [] vs.

(** The similarity cutoff [0.6] passed to [difflib]. *)
Definition cutoff : Q := 6 # 10.

(** The decision taken for one value of the person column (the body of
    the loop of step 3): the user id recorded for [val_str], if any. *)
Definition match_user (user_map : Dict.dict uuid) (val_str : string)
  : option uuid :=
  if Dict.has user_map (PyStr.lower val_str) then
    Dict.get user_map (PyStr.lower val_str)
  else
    match Difflib.get_close_matches_1 (PyStr.lower val_str)
                                      (Dict.keys user_map) cutoff with
    | m :: _ => Dict.get user_map m
    | [] => None
    end.

(** The report of [analyze_file] (with [use_ai] left at its default
    [False], the suggestion entries are empty). *)
Record Analysis : Type := mkAnalysis {
  an_headers : list label;
  an_mapped_fields : list MappedField;
  an_new_fields : list label;
  an_user_matches : Dict.dict string;
  an_total_rows : nat
}.

Section Analyze.

Variable UPLOAD_DIR : path.
Variable pd : Pandas.
Variable fs : FileSystem.
Variable rt : Runtime.

(** Step 3: the table of matched users. *)
Definition user_matching (db : DB) (df : DataFrame)
  : result (Dict.dict string) :=
  match potential_user_cols (df_columns df) with
  | Raise e => Raise e
  | Ok [] => Ok []
  | Ok (col :: _) =>
      let user_map :=
        Dict.comprehension (fun u => PyStr.lower (u_email u)) u_id (db_users db) in
      let unique_vals := unique (dropna (column df col)) in
      Ok (fold_left
            (fun user_matches val =>
               let val_str := PyStr.strip (str_value val) in
               match match_user user_map val_str with
               | Some id => Dict.set user_matches val_str (str_uuid rt id)
               | None => user_matches
               end)
            unique_vals [])
  end.

(** [analyze_file(db, file_path)] *)
Definition analyze_file (db : DB) (file_path : string) : result Analysis :=
  match _read_file UPLOAD_DIR pd fs file_path with
  | Raise e => Raise e
  | Ok (_, df) =>
      let headers := df_columns df in
      let custom_fields :=
        Dict.comprehension cf_key (fun f => f)
          (filter (fun f => match cf_asset_set_id f with
                            | None => true | Some _ => false end)
                  (db_custom_fields db)) in
      let body :=
        match classify custom_fields headers [] [] with
        | Raise e => Raise e
        | Ok (mapped_fields, new_fields) =>
            match user_matching db df with
            | Raise e => Raise e
            | Ok user_matches =>
                Ok (mkAnalysis headers mapped_fields new_fields user_matches
                               (List.length (df_rows df)))
            end
        end in
      match body with
      | Ok r => Ok r
      | Raise e =>
          if is_validation e then Raise e
          else Raise (mkExn AppException
                            ("Failed to analyze file: " ++ str_exn e))
      end
  end.

End Analyze.

End Analyzer.

(* ------------------------------------------------------------------ *)
(** ** The import executor: shared pieces                              *)
(* ------------------------------------------------------------------ *)

Module Executor.
Import Paths.

(** The options bag of an execute call; an absent key is [None] (or the
    empty list, or [false]). *)
Record Options : Type := mkOptions {
  opt_mapping : list (string * option string);
  opt_new_set_name : option string;
  opt_asset_set_id : option string;
  opt_new_fields : list string;
  opt_create_missing_fields : bool
}.

(** [_normalize_header] applied to a string. *)
Definition normalize_str (s : string) : string :=
  PyStr.strip_by (Ascii.eqb "_")
    (PyStr.sub_underscores false
       (PyStr.sub_non_alnum false (PyStr.strip (PyStr.lower s)))).

(** [_normalize_header]: [(h or "")] turns a falsy label into the empty
    string; any other label must have [lower]. *)
Definition _normalize_header (h : label) : result string :=
  match h with
  | LStr s => Ok (normalize_str s)
  | LInt z => if Z.eqb z 0 then Ok (normalize_str "") else Analyzer.no_lower
  end.

(** [{_normalize_header(k): v for k, v in field_mapping.items()}] *)
Definition normalize_mapping (m : list (string * option string))
  : Dict.dict (option string) :=
  Dict.comprehension (fun kv => normalize_str (fst kv)) snd m.

(** [field_mapping.get(k_norm)]; a key mapped to null reads as absent. *)
Definition mapping_get (fm : Dict.dict (option string)) (k_norm : string)
  : option string :=
  match Dict.get fm k_norm with
  | Some t => t
  | None => None
  end.

Definition target_is (target : option string) (name : string) : bool :=
  match target with
  | Some t => String.eqb t name
  | None => false
  end.

(** [not target] *)
Definition target_falsy (target : option string) : bool :=
  match target with
  | Some t => String.eqb t ""
  | None => true
  end.

(** [str(v) if v is not None and str(v).strip() != "" else None] *)
Definition cell_text (v : value) : option string :=
  match v with
  | VNone => None
  | _ => if String.eqb (PyStr.strip (str_value v)) "" then None
         else Some (str_value v)
  end.

(** The loop over the rows, common to both executors.  [body i record st]
    runs the [try] block of row [i] on the state [st]; what it changed is
    kept even when it raises.  An exception becomes one entry of
    [errors]; otherwise [imported_count] grows by one. *)
Section RowLoop.

Variable St : Type.
Variable body : nat -> record -> St -> St * result unit.

Definition row_error (i : nat) (e : exn) : string :=
  "Row " ++ PyStr.str_of_nat i ++ ": " ++ str_exn e.

Fixpoint row_loop (i : nat) (records : list record) (st : St)
         (imported_count : nat) (errors : list string)
  : St * nat * list string :=
  match records with
  | [] => (st, imported_count, errors)
  | r :: rest =>
      match body i r st with
      | (st', Ok _) => row_loop (S i) rest st' (S imported_count) errors
      | (st', Raise e) =>
          row_loop (S i) rest st' imported_count (errors ++ [row_error i e])
      end
  end.

End RowLoop.

(** [get_job] *)
Definition get_job (rt : Runtime) (db : DB) (id : uuid) : result Job :=
  match find_job db id with
  | Some job => Ok job
  | None =>
      Raise (mkExn ResourceNotFound
                   ("Job with id " ++ str_uuid rt id ++ " not found"))
  end.

(** The closing [except] clauses of both executors: a validation failure
    passes, anything else is wrapped. *)
Definition wrap_fatal {A : Type} (prefix : string) (r : DB * result A)
  : DB * result A :=
  match r with
  | (db, Ok a) => (db, Ok a)
  | (db, Raise e) =>
      if is_validation e then (db, Raise e)
      else (db, Raise (mkExn AppException (prefix ++ str_exn e)))
  end.

End Executor.

(* ------------------------------------------------------------------ *)
(** ** The asset executor: [execute_import]                            *)
(* ------------------------------------------------------------------ *)

Module AssetImport.
Import Paths Executor.

(** The headers that the name fallback accepts. *)
Definition name_fallbacks : list string :=
  ["name"; "item_name"; "asset_name"; "model"].

(** First loop of a row: the value of the first column that the mapping
    sends to ["name"], or [None]. *)
Fixpoint mapped_name (fm : Dict.dict (option string)) (items : record)
  : result value :=
  match items with
  | [] => Ok VNone
  | (k, v) :: rest =>
      match _normalize_header k with
      | Raise e => Raise e
      | Ok k_norm =>
          if target_is (mapping_get fm k_norm) "name" then Ok v
          else mapped_name fm rest
      end
  end.

(** Second loop: the value of the first column whose normalized header is
    a name fallback; [name_val] is kept when there is none. *)
Fixpoint fallback_name (items : record) (name_val : value) : result value :=
  match items with
  | [] => Ok name_val
  | (k, v) :: rest =>
      match _normalize_header k with
      | Raise e => Raise e
      | Ok k_norm =>
          if PyStr.mem k_norm name_fallbacks then Ok v
          else fallback_name rest name_val
      end
  end.

(** The three steps that determine [asset_data["name"]] for row [i]. *)
Definition resolve_name (fm : Dict.dict (option string)) (i : nat)
           (r : record) : result string :=
  match mapped_name fm r with
  | Raise e => Raise e
  | Ok name_val =>
      match (if truthy name_val then Ok name_val else fallback_name r name_val) with
      | Raise e => Raise e
      | Ok name_val =>
          let name_val :=
            if truthy name_val then name_val
            else
              let placeholder := VStr ("Imported Asset " ++ PyStr.str_of_nat i) in
              match record_get r (LStr "AssetID") with
              | Some v => if truthy v then v else placeholder
              | None => placeholder
              end in
          Ok (str_value name_val)
      end
  end.

(** [ "name" in field_mapping.values() ] *)
Definition name_in_values (fm : Dict.dict (option string)) : bool :=
  existsb (fun t => target_is t "name") (Dict.values fm).

(** The fallback chain applied when the mapping gives no target. *)
Definition default_target (fm : Dict.dict (option string)) (k_norm : string)
  : option string :=
  if PyStr.mem k_norm ["assetid"; "asset_id"; "legacy_id"]
     && negb (name_in_values fm) then None
  else if PyStr.mem k_norm ["serial"; "serial_number"; "servicetag";
                            "service_tag"; "s_n"; "sn"] then Some "serial_number"
  else if PyStr.mem k_norm ["status"; "state"; "current_state";
                            "current_status"] then Some "status"
  else if PyStr.mem k_norm ["location"; "site"; "room"] then Some "location"
  else if PyStr.mem k_norm ["category"; "type"; "model_type"; "asset_type"]
  then Some "asset_type_id"
  else if PyStr.mem k_norm ["cost"; "purchase_price"; "price"; "bought_price"]
  then Some "purchase_price"
  else if PyStr.mem k_norm ["bought_date"; "purchase_date"; "date_bought"]
  then Some "purchase_date"
  else if PyStr.mem k_norm ["supplier"; "vendor"] then Some "vendor"
  else if PyStr.mem k_norm ["po_number"; "order_number"; "po"]
  then Some "order_number"
  else if PyStr.mem k_norm ["warranty_end"; "warranty_date"]
  then Some "warranty_end"
  else if PyStr.mem k_norm ["assigned_user"; "assigned_to"; "owner"; "user"]
  then Some "assigned_user_id"
  else if PyStr.mem k_norm ["tags"; "tag"] then Some "tags"
  else None.

Definition status_synonyms : Dict.dict string :=
  [("deployed", "active"); ("in storage", "in_stock"); ("in-stock", "in_stock");
   ("under repair", "fix"); ("broken", "broken"); ("damaged", "broken");
   ("retired", "retired"); ("lost", "lost"); ("stolen", "lost");
   ("awaiting disposal", "disposal"); ("disposal", "disposal");
   ("reserved", "reserved"); ("ordered", "ordered")].

(** The [status] branch: the id assigned to [asset_data["status_id"]], or
    [None] when no branch of the chain assigns. *)
Definition resolve_status (status_map : Dict.dict uuid) (val_str : string)
  : option uuid :=
  let s_val := PyStr.lower val_str in
  let synonym := match Dict.get status_synonyms s_val with
                 | Some syn => syn | None => "" end in
  if Dict.has status_map s_val then Dict.get status_map s_val
  else if Dict.has status_synonyms s_val && Dict.has status_map synonym then
    Dict.get status_map synonym
  else if Dict.has status_map "active" then Dict.get status_map "active"
  else None.

(** The [tags] branch. *)
Definition split_tags (val_str : string) : list string :=
  let tags_list :=
    if PyStr.contains "," val_str then map PyStr.strip (PyStr.split "," val_str)
    else if PyStr.contains ";" val_str then map PyStr.strip (PyStr.split ";" val_str)
    else [PyStr.strip val_str] in
  filter (fun t => negb (String.eqb t "")) tags_list.

(** [asset_data["extra"][k] = v] *)
Fixpoint extra_set (e : list (label * value)) (k : label) (v : value)
  : list (label * value) :=
  match e with
  | [] => [(k, v)]
  | (k', v') :: e' =>
      if label_eqb k' k then (k', v) :: e' else (k', v') :: extra_set e' k v
  end.

Definition extra_of (asset_data : Dict.dict field) : list (label * value) :=
  match Dict.get asset_data "extra" with
  | Some (FExtra e) => e
  | _ => []
  end.

(** What a row works on: the session, the in-memory [type_map] and the
    [asset_data] under construction. *)
Definition row_state : Type := DB * Dict.dict uuid * Dict.dict field.

Section Row.

Variable rt : Runtime.
Variable fm : Dict.dict (option string).
Variable status_map : Dict.dict uuid.

(** The body of the loop over the columns of a row, from the dispatch
    on [target] on. *)
Definition assign (target : option string) (k : label) (v : value)
           (val_str : string) (st : row_state) : row_state :=
  let '(db, type_map, asset_data) := st in
  if target_is target "name" then st
  else if target_is target "serial_number" then
    (db, type_map, Dict.set asset_data "serial_number" (FStr val_str))
  else if target_is target "location" then
    (db, type_map, Dict.set asset_data "location" (FStr val_str))
  else if target_is target "warranty_end" then
    match parse_date rt val_str with
    | Some d => (db, type_map, Dict.set asset_data "warranty_end" (FDate d))
    | None => st
    end
  else if target_is target "assigned_user_id" then
    match parse_uuid rt val_str with
    | Some u => (db, type_map, Dict.set asset_data "assigned_user_id" (FUuid u))
    | None =>
        match find (fun u => String.eqb (u_email u) val_str) (db_users db) with
        | Some u =>
            (db, type_map, Dict.set asset_data "assigned_user_id" (FUuid (u_id u)))
        | None => st
        end
    end
  else if target_is target "tags" then
    (db, type_map, Dict.set asset_data "tags" (FTags (split_tags val_str)))
  else if target_is target "purchase_price" then
    let cleaned := PyStr.replace_char "," "" (PyStr.replace_char "$" "" val_str) in
    match parse_float rt cleaned with
    | Some q => (db, type_map, Dict.set asset_data "purchase_price" (FPrice q))
    | None => st
    end
  else if target_is target "purchase_date" then
    match parse_date rt val_str with
    | Some d => (db, type_map, Dict.set asset_data "purchase_date" (FDate d))
    | None => st
    end
  else if target_is target "vendor" then
    (db, type_map, Dict.set asset_data "vendor" (FStr val_str))
  else if target_is target "order_number" then
    (db, type_map, Dict.set asset_data "order_number" (FStr val_str))
  else if target_is target "status" then
    match resolve_status status_map val_str with
    | Some id => (db, type_map, Dict.set asset_data "status_id" (FUuid id))
    | None => st
    end
  else if target_is target "asset_type_id" then
    let t_val := PyStr.lower val_str in
    match Dict.get type_map t_val with
    | Some id => (db, type_map, Dict.set asset_data "asset_type_id" (FUuid id))
    | None =>
        (* a new type, flushed at once to obtain its id *)
        let '(id, db1) := fresh db in
        let db2 := set_types db1 (db_types db1 ++ [mkAssetType id val_str]) in
        (db2, Dict.set type_map t_val id,
         Dict.set asset_data "asset_type_id" (FUuid id))
    end
  else
    (db, type_map,
     Dict.set asset_data "extra" (FExtra (extra_set (extra_of asset_data) k v))).

(** One column [(k, v)] of a row. *)
Definition column_step (k : label) (v : value) (st : row_state)
  : row_state * result unit :=
  match _normalize_header k with
  | Raise e => (st, Raise e)
  | Ok k_norm =>
      match cell_text v with
      | None => (st, Ok tt)                                 (* continue *)
      | Some val_str =>
          let target := mapping_get fm k_norm in
          if target_is target "" then (st, Ok tt)          (* explicit ignore *)
          else
            let target :=
              if target_falsy target then default_target fm k_norm
              else target in
            (assign target k v val_str st, Ok tt)
      end
  end.

Fixpoint columns_loop (items : record) (st : row_state)
  : row_state * result unit :=
  match items with
  | [] => (st, Ok tt)
  | (k, v) :: rest =>
      match column_step k v st with
      | (st', Ok _) => columns_loop rest st'
      | (st', Raise e) => (st', Raise e)
      end
  end.

(** The [try] block of row [i]. *)
Definition asset_row (asset_set_id : option uuid) (i : nat) (r : record)
           (st : DB * Dict.dict uuid) : (DB * Dict.dict uuid) * result unit :=
  match resolve_name fm i r with
  | Raise e => (st, Raise e)
  | Ok name =>
      let asset_data : Dict.dict field :=
        [("name", FStr name);
         ("asset_set_id", match asset_set_id with
                          | Some u => FUuid u | None => FNone end);
         ("extra", FExtra [])] in
      match columns_loop r (fst st, snd st, asset_data) with
      | ((db, type_map, _), Raise e) => ((db, type_map), Raise e)
      | ((db, type_map, asset_data), Ok _) =>
          let '(id, db1) := fresh db in
          ((set_assets db1 (db_assets db1 ++ [mkAsset id asset_data]), type_map),
           Ok tt)
      end
  end.

End Row.

Section Execute.

Variable UPLOAD_DIR : path.
Variable pd : Pandas.
Variable fs : FileSystem.
Variable rt : Runtime.

(** [field_name.lower().strip().replace(" ", "_")] *)
Definition field_key (field_name : string) : string :=
  PyStr.replace_char " " "_" (PyStr.strip (PyStr.lower field_name)).

Definition add_custom_field (db : DB) (field_name : string)
           (asset_set_id : option uuid) : DB :=
  let '(id, db1) := fresh db in
  set_custom_fields db1
    (db_custom_fields db1
     ++ [mkCustomField id target_asset (field_key field_name) field_name
                       asset_set_id]).

(** The strategy branches of [execute_import]; the result is the
    [asset_set_id] that the rows receive. *)
Definition strategy_setup (db : DB) (strategy : string) (options : Options)
           (user_id : uuid) : DB * result (option uuid) :=
  if String.eqb strategy "NEW_SET" then
    let '(rnd, db0) := fresh db in
    let set_name := match opt_new_set_name options with
                    | Some n => n
                    | None => ("Imported Set " ++ hex8 rt rnd)%string
                    end in
    let '(id, db1) := fresh db0 in
    let db2 := set_asset_sets db1
                 (db_asset_sets db1 ++ [mkAssetSet id set_name None (Some user_id)]) in
    (fold_left (fun d field_name => add_custom_field d field_name (Some id))
               (opt_new_fields options) db2,
     Ok (Some id))
  else if String.eqb strategy "EXISTING_SET" then
    match opt_asset_set_id options with
    | None => (db, validation "asset_set_id is required for EXISTING_SET strategy")
    | Some asset_set_id_str =>
        if String.eqb asset_set_id_str "" then
          (db, validation "asset_set_id is required for EXISTING_SET strategy")
        else
          match parse_uuid rt asset_set_id_str with
          | None => (db, validation "Invalid asset_set_id format")
          | Some asset_set_id =>
              match find (fun a => N.eqb (set_id a) asset_set_id)
                         (db_asset_sets db) with
              | None =>
                  (db, validation ("Asset set " ++ str_uuid rt asset_set_id
                                   ++ " not found"))
              | Some _ => (db, Ok (Some asset_set_id))
              end
          end
    end
  else if String.eqb strategy "MERGE" then
    if opt_create_missing_fields options then
      (fold_left
         (fun d field_name =>
            if existsb (fun f => String.eqb (cf_key f) (field_key field_name))
                       (db_custom_fields d)
            then d else add_custom_field d field_name None)
         (opt_new_fields options) db,
       Ok None)
    else (db, Ok None)
  else (db, Ok None).

(** The [# Execute Import] part of [execute_import], up to the commit:
    the lookup maps read once from the session, the normalized mapping
    and the loop over the rows. *)
Definition import_rows (db : DB) (options : Options)
           (asset_set_id : option uuid) (records : list record)
  : (DB * Dict.dict uuid) * nat * list string :=
  let status_map :=
    Dict.comprehension (fun s => PyStr.lower (st_name s)) st_id (db_statuses db) in
  let type_map :=
    Dict.comprehension (fun t => PyStr.lower (ty_name t)) ty_id (db_types db) in
  let field_mapping := normalize_mapping (opt_mapping options) in
  row_loop (DB * Dict.dict uuid)
           (asset_row rt field_mapping status_map asset_set_id)
           0 records (db, type_map) 0 [].

(** [execute_import] *)
Definition execute_import (db : DB) (job_id : uuid) (strategy : string)
           (options : Options) (user_id : uuid) : DB * result Report :=
  match get_job rt db job_id with
  | Raise e => (db, Raise e)
  | Ok job =>
      match pl_file_path (job_payload job) with
      | None => (db, validation "Invalid job payload: missing file_path")
      | Some file_path =>
          if String.eqb file_path "" then
            (db, validation "Invalid job payload: missing file_path")
          else
            wrap_fatal "Import process failed: "
              match _read_file UPLOAD_DIR pd fs file_path with
              | Raise e => (db, Raise e)
              | Ok (_, df) =>
                  let records := to_records df in
                  match strategy_setup db strategy options user_id with
                  | (db1, Raise e) => (db1, Raise e)
                  | (db1, Ok asset_set_id) =>
                      let '(st, imported_count, errors) :=
                        import_rows db1 options asset_set_id records in
                      (fst st,
                       Ok (mkReport true imported_count errors
                                    (option_map (str_uuid rt) asset_set_id)))
                  end
              end
      end
  end.

End Execute.

End AssetImport.

(* ------------------------------------------------------------------ *)
(** ** The user executor: [execute_user_import]                        *)
(* ------------------------------------------------------------------ *)

Module UserImport.
Import Paths Executor.

(** The locals that the loop over the columns of a user row fills in. *)
Record user_locals : Type := mkLocals {
  email : option string;
  full_name : option string;
  role_name : string;
  extra_data : list (label * value)
}.

Definition default_target (k_norm : string) : option string :=
  if PyStr.mem k_norm ["email"; "email_address"; "mail"] then Some "email"
  else if PyStr.mem k_norm ["name"; "full_name"; "fullname"] then Some "full_name"
  else if PyStr.mem k_norm ["role"; "role_name"] then Some "role"
  else None.

Section Row.

Variable fm : Dict.dict (option string).

Definition column_step (k : label) (v : value) (l : user_locals)
  : result user_locals :=
  match _normalize_header k with
  | Raise e => Raise e
  | Ok k_norm =>
      let val_str := cell_text v in
      let target := mapping_get fm k_norm in
      let target := if target_falsy target then default_target k_norm
                    else target in
      if target_is target "email" then
        match val_str with
        | Some s => Ok (mkLocals (Some s) (full_name l) (role_name l) (extra_data l))
        | None => Ok l
        end
      else if target_is target "full_name" then
        match val_str with
        | Some s => Ok (mkLocals (email l) (Some s) (role_name l) (extra_data l))
        | None => Ok l
        end
      else if target_is target "role" then
        match val_str with
        | Some s => Ok (mkLocals (email l) (full_name l) s (extra_data l))
        | None => Ok l
        end
      else
        match v with
        | VNone => Ok l
        | _ => Ok (mkLocals (email l) (full_name l) (role_name l)
                            (AssetImport.extra_set (extra_data l) k v))
        end
  end.

Fixpoint columns_loop (items : record) (l : user_locals) : result user_locals :=
  match items with
  | [] => Ok l
  | (k, v) :: rest =>
      match column_step k v l with
      | Ok l' => columns_loop rest l'
      | Raise e => Raise e
      end
  end.

(** [existing_user.extra.update(extra)] *)
Definition extra_update (old new : list (label * value)) : list (label * value) :=
  fold_left (fun e kv => AssetImport.extra_set e (fst kv) (snd kv)) new old.

(** The [try] block of row [i]. *)
Definition user_row (asset_set_id : option set_ref) (i : nat) (r : record)
           (db : DB) : DB * result unit :=
  match columns_loop r (mkLocals None None "user" []) with
  | Raise e => (db, Raise e)
  | Ok l =>
      match email l with
      | None => (db, validation "Email is required")
      | Some em =>
          match find (fun u => String.eqb (u_email u) em) (db_users db) with
          | Some existing_user =>
              let updated :=
                mkUser (u_id existing_user) (u_email existing_user)
                       (match full_name l with
                        | Some n => Some n
                        | None => u_full_name existing_user
                        end)
                       asset_set_id
                       (match u_extra existing_user with
                        | [] => extra_data l
                        | old => extra_update old (extra_data l)
                        end)
                       (u_roles existing_user) in
              (set_users db
                 (map (fun u => if N.eqb (u_id u) (u_id existing_user)
                                then updated else u)
                      (db_users db)),
               Ok tt)
          | None =>
              let roles :=
                if negb (String.eqb (role_name l) "")
                   && PyStr.mem (role_name l) (db_roles db)
                then [role_name l] else [] in
              let '(id, db1) := fresh db in
              (set_users db1
                 (db_users db1
                  ++ [mkUser id em (full_name l) asset_set_id (extra_data l) roles]),
               Ok tt)
          end
      end
  end.

End Row.

Section Execute.

Variable UPLOAD_DIR : path.
Variable pd : Pandas.
Variable fs : FileSystem.
Variable rt : Runtime.

(** The strategy branches of [execute_user_import]. *)
Definition strategy_setup (db : DB) (strategy : string) (options : Options)
           (user_id : uuid) : DB * result (option set_ref) :=
  if String.eqb strategy "NEW_SET" then
    let '(rnd, db0) := fresh db in
    let set_name := match opt_new_set_name options with
                    | Some n => n
                    | None => ("Imported User Group " ++ hex8 rt rnd)%string
                    end in
    let '(id, db1) := fresh db0 in
    (set_asset_sets db1
       (db_asset_sets db1
        ++ [mkAssetSet id set_name (Some "User Group") (Some user_id)]),
     Ok (Some (RefUuid id)))
  else if String.eqb strategy "EXISTING_SET" then
    match opt_asset_set_id options with
    | None => (db, validation "asset_set_id is required for EXISTING_SET strategy")
    | Some asset_set_id =>
        if String.eqb asset_set_id "" then
          (db, validation "asset_set_id is required for EXISTING_SET strategy")
        else (db, Ok (Some (RefRaw asset_set_id)))
    end
  else (db, Ok None).

(** [str(asset_set_id)] *)
Definition str_set_ref (r : set_ref) : string :=
  match r with
  | RefUuid u => str_uuid rt u
  | RefRaw s => s
  end.

(** The row loop of [execute_user_import] with the mapping it prepares. *)
Definition import_rows (db : DB) (options : Options)
           (asset_set_id : option set_ref) (records : list record)
  : DB * nat * list string :=
  let field_mapping := normalize_mapping (opt_mapping options) in
  row_loop DB (user_row field_mapping asset_set_id) 0 records db 0 [].

(** [execute_user_import] *)
Definition execute_user_import (db : DB) (job_id : uuid) (strategy : string)
           (options : Options) (user_id : uuid) : DB * result Report :=
  match get_job rt db job_id with
  | Raise e => (db, Raise e)
  | Ok job =>
      match pl_file_path (job_payload job) with
      | None => (db, validation "Invalid job payload: missing file_path")
      | Some file_path =>
          if String.eqb file_path "" then
            (db, validation "Invalid job payload: missing file_path")
          else
            wrap_fatal "User import process failed: "
              match _read_file UPLOAD_DIR pd fs file_path with
              | Raise e => (db, Raise e)
              | Ok (_, df) =>
                  let records := to_records df in
                  match strategy_setup db strategy options user_id with
                  | (db1, Raise e) => (db1, Raise e)
                  | (db1, Ok asset_set_id) =>
                      let '(db2, imported_count, errors) :=
                        import_rows db1 options asset_set_id records in
                      (db2,
                       Ok (mkReport true imported_count errors
                                    (option_map str_set_ref asset_set_id)))
                  end
              end
      end
  end.

End Execute.

End UserImport.

(* ------------------------------------------------------------------ *)
(** ** The job driver: [execute_import_background_wrapper]             *)
(* ------------------------------------------------------------------ *)

Module Driver.
Import Paths Executor.

Section Wrapper.

Variable UPLOAD_DIR : path.
Variable pd : Pandas.
Variable fs : FileSystem.
Variable rt : Runtime.

Definition set_status (st : JobStatus) (j : Job) : Job :=
  mkJob (job_id j) (job_type j) st (job_payload j) (job_result j) (job_error j).

Definition set_completed (r : Report) (j : Job) : Job :=
  mkJob (job_id j) (job_type j) completed (job_payload j) (Some r) (job_error j).

Definition set_failed (msg : string) (j : Job) : Job :=
  mkJob (job_id j) (job_type j) failed (job_payload j) (job_result j) (Some msg).

(** [if job: ...; await db.commit()] on the job re-read from the session. *)
Definition touch_job (db : DB) (id : uuid) (f : Job -> Job) : DB :=
  match find_job db id with
  | Some _ => update_job db id f
  | None => db
  end.

(** The [# Execute logic] step of the wrapper: the executor that [type]
    selects. *)
Definition execute_logic (db : DB) (job_id : uuid) (strategy : string)
           (options : Options) (user_id : uuid) (type : string)
  : DB * result Report :=
  if String.eqb type "user" then
    UserImport.execute_user_import UPLOAD_DIR pd fs rt db job_id strategy
                                   options user_id
  else
    AssetImport.execute_import UPLOAD_DIR pd fs rt db job_id strategy
                               options user_id.

(** [execute_import_background_wrapper]: it returns nothing and lets no
    exception out; its effect is the session it leaves behind. *)
Definition execute_import_background_wrapper (db : DB) (job_id : uuid)
           (strategy : string) (options : Options) (user_id : uuid)
           (type : string) : DB :=
  let db1 := touch_job db job_id (set_status running) in
  let '(db2, result) :=
    execute_logic db1 job_id strategy options user_id type in
  match result with
  | Ok report => touch_job db2 job_id (set_completed report)
  | Raise e => touch_job db2 job_id (set_failed (str_exn e))
  end.

End Wrapper.

End Driver.

(* ------------------------------------------------------------------ *)
(** ** The user analyzer and the preview                               *)
(* ------------------------------------------------------------------ *)

Module UserAnalyzer.
Import Paths.

(** The [standard_fields] set of [analyze_user_file]. *)
Definition standard_fields : list string :=
  ["email"; "full_name"; "role"; "password"; "is_active"].

(** An entry [{"header": h, "target": "standard", "key": key}]. *)
Record MappedField : Type := mkMapped {
  mf_header : label;
  mf_key : string
}.

(** The loop of [analyze_user_file] over the headers. *)
Fixpoint classify (headers : list label) (mapped_fields : list MappedField)
         (new_fields : list label) : result (list MappedField * list label) :=
  match headers with
  | [] => Ok (mapped_fields, new_fields)
  | h :: rest =>
      match Analyzer.header_key h with
      | Raise e => Raise e
      | Ok key =>
          if PyStr.mem key standard_fields then
            classify rest (mapped_fields ++ [mkMapped h key]) new_fields
          else if String.eqb key "name" then
            classify rest (mapped_fields ++ [mkMapped h "full_name"]) new_fields
          else classify rest mapped_fields (new_fields ++ [h])
      end
  end.

Record Analysis : Type := mkAnalysis {
  an_headers : list label;
  an_mapped_fields : list MappedField;
  an_new_fields : list label;
  an_total_rows : nat
}.

Section Analyze.

Variable UPLOAD_DIR : path.
Variable pd : Pandas.
Variable fs : FileSystem.

(** [analyze_user_file(db, file_path)]; the session is not consulted. *)
Definition analyze_user_file (file_path : string) : result Analysis :=
  match _read_file UPLOAD_DIR pd fs file_path with
  | Raise e => Raise e
  | Ok (_, df) =>
      let headers := df_columns df in
      match classify headers [] [] with
      | Ok (mapped_fields, new_fields) =>
          Ok (mkAnalysis headers mapped_fields new_fields
                         (List.length (df_rows df)))
      | Raise e =>
          if is_validation e then Raise e
          else Raise (mkExn AppException
                            ("Failed to analyze user file: " ++ str_exn e))
      end
  end.

(** What [parse_file_preview] returns: the preview dictionary or the
    dictionary [{"error": message}]; it raises nothing. *)
Inductive preview : Type :=
| Preview (headers : list label) (rows : list record) (total_rows : nat)
| PreviewError (message : string).

(** [parse_file_preview(file_path)]: the headers and the first five rows. *)
Definition parse_file_preview (file_path : string) : preview :=
  match _read_file UPLOAD_DIR pd fs file_path with
  | Raise e => PreviewError (str_exn e)
  | Ok (_, df) =>
      Preview (df_columns df) (firstn 5 (to_records df)) (List.length (df_rows df))
  end.

End Analyze.

End UserAnalyzer.

(* ------------------------------------------------------------------ *)
(** ** The routes of [app/api/routers/imports.py]                      *)
(* ------------------------------------------------------------------ *)

Module Router.

(** [int(setting.value)], [None] when it raises. *)
Definition int_of_json (rt : Runtime) (v : json) : option Z :=
  match v with
  | JNum z => Some z
  | JStr s => parse_int rt s
  | JComposite _ => None
  end.

(** The answer of [get_import_config]: the extensions and the limit in
    megabytes, [None] standing for no limit. *)
Record ImportConfig : Type := mkConfig {
  allowed_extensions : list string;
  max_upload_mb : option Z
}.

(** [get_import_config] *)
Definition get_import_config (rt : Runtime) (db : DB) (current_user : User)
  : ImportConfig :=
  let max_mb :=
    if has_role current_user "admin" then None
    else
      match find_setting db "import_max_upload_mb" with
      | Some v =>
          if Upload.json_truthy v then
            match int_of_json rt v with
            | Some mb => Some mb
            | None => Some 50%Z
            end
          else Some 50%Z
      | None => Some 50%Z
      end in
  mkConfig [".csv"; ".xlsx"; ".xls"; ".json"] max_mb.

(** What the analyze route answers: the report of the analyzer that
    [type] selects. *)
Inductive analysis : Type :=
| AssetAnalysis (a : Analyzer.Analysis)
| UserAnalysis (a : UserAnalyzer.Analysis).

(** [analyze_import], with [use_ai] left at its default.  A payload
    without [file_path] hands [None] to the analyzer, which the validator
    refuses like the empty path. *)
Definition analyze_import (UPLOAD_DIR : Paths.path) (pd : Pandas)
           (fs : Paths.FileSystem) (rt : Runtime) (db : DB) (job_id : uuid)
           (type : string) : result analysis :=
  match Executor.get_job rt db job_id with
  | Raise e => Raise e
  | Ok job =>
      let file_path := match pl_file_path (job_payload job) with
                       | Some f => f
                       | None => ""
                       end in
      if String.eqb type "user" then
        match UserAnalyzer.analyze_user_file UPLOAD_DIR pd fs file_path with
        | Ok a => Ok (UserAnalysis a)
        | Raise e => Raise e
        end
      else
        match Analyzer.analyze_file UPLOAD_DIR pd fs rt db file_path with
        | Ok a => Ok (AssetAnalysis a)
        | Raise e => Raise e
        end
  end.

End Router.

(* ------------------------------------------------------------------ *)
(** ** A concrete installation for the worked examples                 *)
(* ------------------------------------------------------------------ *)

Module Scenario.
Import Paths Executor.

Definition digit_of (c : ascii) : option N :=
  let n := N_of_ascii c in
  if (48 <=? n)%N && (n <=? 57)%N then Some (n - 48)%N else None.

Fixpoint parse_digits (s : string) (acc : N) : option N :=
  match s with
  | EmptyString => Some acc
  | String c s' =>
      match digit_of c with
      | Some d => parse_digits s' (10 * acc + d)%N
      | None => None
      end
  end.

(** Keys are written in decimal in the examples. *)
Definition parse_dec (s : string) : option N :=
  match s with
  | EmptyString => None
  | _ => parse_digits s 0%N
  end.

Definition str_N (n : N) : string := NilZero.string_of_uint (N.to_uint n).

Definition rt : Runtime :=
  mkRuntime parse_dec str_N str_N
            (fun s => option_map Z.of_N (parse_dec s))
            (fun s => option_map (fun n => inject_Z (Z.of_N n)) (parse_dec s))
            (fun _ => None).

Definition UPLOAD_DIR : path := ["srv"; "uploads"].

(** A reader that finds the table [df] in every CSV file. *)
Definition csv_reader (df : DataFrame) : Pandas :=
  mkPandas (fun _ => PdFrame df)
           (fun _ => PdError "not a workbook")
           (fun _ => PdError "not a JSON document").

(** A disk with one uploaded file and one file next to the upload
    directory. *)
Definition disk : FileSystem :=
  mkFS ["srv"]
       [(["srv"; "uploads"; "rows.csv"], "uploaded bytes");
        (["srv"; "uploads_private"; "payroll.csv"], "private bytes")].

Definition uploaded_job : Job :=
  mkJob 1%N import_assets completed
        (mkPayload (Some "/srv/uploads/rows.csv") (Some "rows.csv") (Some "7")
                   (Some 14%N))
        None None.

Definition it_user : User := mkUser 7%N "it@corp.io" None None [] ["it"].

(** One uploaded job, the statuses Active and Deployed, the type Laptop. *)
Definition db0 : DB :=
  mkDB [uploaded_job] [] []
       [mkAssetStatus 20%N "Active"; mkAssetStatus 21%N "Deployed"]
       [mkAssetType 30%N "Laptop"] [] [it_user] ["admin"; "it"; "user"] []
       100%N.

Definition no_options : Options := mkOptions [] None None [] false.

(** The table found in the file next to the upload directory. *)
Definition payroll_table : DataFrame :=
  mkDF [LStr "Employee"; LStr "Salary"] [[VStr "Ann"; VInt 5000]].

(** Two colleagues whose addresses differ in one character. *)
Definition bob1 : User := mkUser 1%N "Bob1@x.io" None None [] ["user"].

Definition bob2 : User := mkUser 2%N "bob2@x.io" None None [] ["user"].

Definition db_bobs : DB :=
  mkDB [uploaded_job] [] [] [] [] [] [bob1; bob2] ["admin"; "it"; "user"] []
       100%N.

Definition owners_table : DataFrame :=
  mkDF [LStr "Name"; LStr "Owner"]
       [[VStr "Laptop-1"; VStr " Bob@x.io "]; [VStr "Laptop-2"; VNone]].

Definition four_headers : DataFrame :=
  mkDF [LStr "Name"; LStr "Serial Tag"; LStr "State"; LStr "Cost"]
       [[VStr "Laptop-1"; VStr "SN-1"; VStr "Deployed"; VInt 900]].

(** The lookup map that [execute_import] builds from the statuses of
    [db0]. *)
Definition status_map0 : Dict.dict uuid :=
  Dict.comprehension (fun s => PyStr.lower (st_name s)) st_id (db_statuses db0).

Definition named_table : DataFrame :=
  mkDF [LStr "Name"; LStr "Serial"] [[VStr "Laptop-1"; VStr "SN-1"]].

Definition model_table : DataFrame :=
  mkDF [LStr "Model"; LStr "Serial"] [[VStr "XPS 15"; VStr "SN-2"]].

(** The mapping that marks the column Name as ignored. *)
Definition ignore_name : Options :=
  mkOptions [("Name", Some "")] None None [] false.

(** A mapping that sends the column Cost to the word ignore. *)
Definition cost_to_ignore_word : Options :=
  mkOptions [("Cost", Some "ignore")] None None [] false.

Definition model_is_location : Options :=
  mkOptions [("Model", Some "location")] None None [] false.

Definition people_table : DataFrame :=
  mkDF [LStr "Email"; LStr "Name"]
       [[VStr "ann@corp.io"; VStr "Ann"]; [VNone; VStr "Bo"];
        [VStr "cy@corp.io"; VNone]].



(** Three assets of two unknown types, spelled in two ways, and one of a
    known type. *)
Definition typed_table : DataFrame :=
  mkDF [LStr "Name"; LStr "Category"]
       [[VStr "Scr-1"; VStr "Monitor"]; [VStr "Scr-2"; VStr "MONITOR"];
        [VStr "Lap-1"; VStr "laptop"]; [VStr "Dock-1"; VStr "Dock"]].

(** The NEW_SET import of the typed table, and its report. *)
Definition typed_run : DB * result Report :=
  AssetImport.execute_import UPLOAD_DIR (csv_reader typed_table) disk rt db0 1%N
                             "NEW_SET" no_options 7%N.

Definition typed_report : Report := mkReport true 4 [] (Some "101").

(** MERGE options that ask twice for the field Rack Unit. *)
Definition rack_fields : Options :=
  mkOptions [] None None ["Rack Unit"; "rack unit"] true.

Definition merge_run : DB * result Report :=
  AssetImport.execute_import UPLOAD_DIR (csv_reader named_table) disk rt db0 1%N
                             "MERGE" rack_fields 7%N.

(** The GLOBAL import of the people table. *)
Definition people_run : DB * result Report :=
  UserImport.execute_user_import UPLOAD_DIR (csv_reader people_table) disk rt db0
                                 1%N "GLOBAL" no_options 7%N.

(** What the upload of [upload] under the random name f00d leaves: the
    job, the disk and the database. *)
Definition stored_job : Job :=
  mkJob 100%N import_assets completed
        (mkPayload (Some "/srv/uploads/f00d.csv") (Some "inventory.csv") (Some "7")
                   (Some 11%N))
        None None.

Definition stored_disk : FileSystem :=
  mkFS ["srv"]
       [(["srv"; "uploads"; "f00d.csv"], "Name,Serial");
        (["srv"; "uploads"; "rows.csv"], "uploaded bytes");
        (["srv"; "uploads_private"; "payroll.csv"], "private bytes")].

Definition stored_db : DB :=
  mkDB [uploaded_job; stored_job] [] []
       [mkAssetStatus 20%N "Active"; mkAssetStatus 21%N "Deployed"]
       [mkAssetType 30%N "Laptop"] [] [it_user] ["admin"; "it"; "user"] []
       101%N.

(** The analysis of the owners table among the two colleagues. *)
Definition owners_report : Analyzer.Analysis :=
  Analyzer.mkAnalysis [LStr "Name"; LStr "Owner"]
                      [Analyzer.mkMapped (LStr "Name") Analyzer.static "name"]
                      [LStr "Owner"] [("Bob@x.io", "2")] 2.

Definition upload : Upload.UploadFile :=
  Upload.mkUpload (Some "inventory.csv") "Name,Serial".

End Scenario.

(* ------------------------------------------------------------------ *)
(** ** Specifications                                                  *)
(* ------------------------------------------------------------------ *)


(** No global custom field is keyed [k]. *)
Definition no_global_field (db : DB) (k : string) : Prop :=
  forall f, In f (db_custom_fields db) -> cf_asset_set_id f = None -> cf_key f <> k.

(** The status resolution in the order the specification words it: the
    lowercased value is first passed through the synonym table, the
    outcome is looked up among the status names, and a value that resolves
    to no status takes the status named active, if there is one. *)
Definition status_as_worded (status_map : Dict.dict uuid) (val_str : string)
  : option uuid :=
  let s_val := PyStr.lower val_str in
  let key := match Dict.get AssetImport.status_synonyms s_val with
             | Some syn => syn
             | None => s_val
             end in
  match Dict.get status_map key with
  | Some id => Some id
  | None => Dict.get status_map "active"
  end.

(** The outcome of each [try] block of a run of the row loop, in row
    order, the state being threaded as the loop threads it. *)
Fixpoint outcomes {St : Type} (body : nat -> record -> St -> St * result unit)
         (i : nat) (records : list record) (st : St) : list (result unit) :=
  match records with
  | [] => []
  | r :: rest =>
      let '(st', o) := body i r st in
      o :: outcomes body (S i) rest st'
  end.

(** The rows that succeeded. *)
Fixpoint count_ok (os : list (result unit)) : nat :=
  match os with
  | [] => 0
  | Ok _ :: rest => S (count_ok rest)
  | Raise _ :: rest => count_ok rest
  end.

(** One entry ["Row {index}: {message}"] per row that raised, [i] being
    the index of the first row. *)
Fixpoint error_entries (i : nat) (os : list (result unit)) : list string :=
  match os with
  | [] => []
  | Ok _ :: rest => error_entries (S i) rest
  | Raise e :: rest => Executor.row_error i e :: error_entries (S i) rest
  end.

(** The type value that a column contributes to a row: the text of a
    non-blank cell whose target, by the explicit mapping or by the
    fallback, is asset_type_id. *)
Definition type_value_of (fm : Dict.dict (option string)) (kv : label * value)
  : list string :=
  match Executor._normalize_header (fst kv), Executor.cell_text (snd kv) with
  | Ok k_norm, Some val_str =>
      let target := Executor.mapping_get fm k_norm in
      if Executor.target_is target "" then []
      else
        let target := if Executor.target_falsy target
                      then AssetImport.default_target fm k_norm else target in
        if Executor.target_is target "asset_type_id" then [val_str] else []
  | _, _ => []
  end.

(** The type values of a row and of a batch, in processing order. *)
Definition row_type_values (fm : Dict.dict (option string)) (r : record)
  : list string :=
  flat_map (type_value_of fm) r.

Definition batch_type_values (fm : Dict.dict (option string))
           (records : list record) : list string :=
  flat_map (row_type_values fm) records.

(** Every label of the batch can be normalized. *)
Definition label_ok (kv : label * value) : bool :=
  match Executor._normalize_header (fst kv) with
  | Ok _ => true
  | Raise _ => false
  end.

Definition labels_ok (records : list record) : bool :=
  forallb (forallb label_ok) records.

(** The values, among [vals], for which a type has to be created when the
    lowercased names in [known] are the types at hand: the first
    occurrence of each value that is unknown up to case. *)
Fixpoint new_type_names (known : list string) (vals : list string) : list string :=
  match vals with
  | [] => []
  | v :: rest =>
      if PyStr.mem (PyStr.lower v) known then new_type_names known rest
      else v :: new_type_names (PyStr.lower v :: known) rest
  end.

(** The lowercased names at hand once [vals] were processed. *)
Fixpoint known_after (known : list string) (vals : list string) : list string :=
  match vals with
  | [] => known
  | v :: rest =>
      if PyStr.mem (PyStr.lower v) known then known_after known rest
      else known_after (PyStr.lower v :: known) rest
  end.

(** The in-memory type map [tm] holds exactly the lowercased names
    [known], each with the id of a stored type of that name. *)
Definition type_map_agrees (db : DB) (tm : Dict.dict uuid) (known : list string)
  : Prop :=
  (forall k, Dict.has tm k = PyStr.mem k known)
  /\ (forall k id, Dict.get tm k = Some id ->
                   exists t, In t (db_types db) /\ ty_id t = id
                             /\ PyStr.lower (ty_name t) = k).

(** A block is either empty or lies within the first sequence, whose
    length is at most [L]. *)
Definition block_within (L : nat) (blk : nat * nat * nat) : Prop :=
  snd blk = 0%nat \/ (fst (fst blk) + snd blk <= L)%nat.

(** [l'] is [l] followed by further entries. *)
Definition extends {A : Type} (l l' : list A) : Prop :=
  exists more, l' = l ++ more.

(** What a run of the asset executor may do to the session: add asset
    sets, field definitions, types and assets, and draw fresh keys. *)
Record asset_import_frame (db db' : DB) : Prop := mkAssetFrame {
  af_jobs : db_jobs db' = db_jobs db;
  af_users : db_users db' = db_users db;
  af_statuses : db_statuses db' = db_statuses db;
  af_roles : db_roles db' = db_roles db;
  af_settings : db_settings db' = db_settings db;
  af_asset_sets : extends (db_asset_sets db) (db_asset_sets db');
  af_custom_fields : extends (db_custom_fields db) (db_custom_fields db');
  af_types : extends (db_types db) (db_types db');
  af_assets : extends (db_assets db) (db_assets db')
}.

(** What the rows of an asset file may do to the session: add types and
    assets, and draw fresh keys. *)
Record rows_frame (db db' : DB) : Prop := mkRowsFrame {
  rf_jobs : db_jobs db' = db_jobs db;
  rf_users : db_users db' = db_users db;
  rf_statuses : db_statuses db' = db_statuses db;
  rf_roles : db_roles db' = db_roles db;
  rf_settings : db_settings db' = db_settings db;
  rf_asset_sets : db_asset_sets db' = db_asset_sets db;
  rf_custom_fields : db_custom_fields db' = db_custom_fields db;
  rf_types : extends (db_types db) (db_types db');
  rf_assets : extends (db_assets db) (db_assets db')
}.

(** What a run of the user executor may do to the session: add one asset
    set, add users and rewrite users in place, and draw fresh keys. *)
Record user_import_frame (db db' : DB) : Prop := mkUserFrame {
  uf_jobs : db_jobs db' = db_jobs db;
  uf_assets : db_assets db' = db_assets db;
  uf_types : db_types db' = db_types db;
  uf_statuses : db_statuses db' = db_statuses db;
  uf_custom_fields : db_custom_fields db' = db_custom_fields db;
  uf_roles : db_roles db' = db_roles db;
  uf_settings : db_settings db' = db_settings db;
  uf_asset_sets : extends (db_asset_sets db) (db_asset_sets db');
  uf_user_ids : extends (map u_id (db_users db)) (map u_id (db_users db'))
}.

(** The users are keyed: their keys are pairwise distinct and were drawn
    from the counter of fresh keys. *)
Definition users_keyed (db : DB) : Prop :=
  NoDup (map u_id (db_users db))
  /\ Forall (fun id => (id < db_next db)%N) (map u_id (db_users db)).

(** What identifies an account: its key, its address and its roles. *)
Definition account (u : User) : uuid * string * list string :=
  (u_id u, u_email u, u_roles u).

(** The accounts are keyed and no two of them share an address. *)
Definition accounts_distinct (db : DB) : Prop :=
  users_keyed db /\ NoDup (map u_email (db_users db)).

(** The column [asset_set_id] of an asset filed under [sid]. *)
Definition set_field (sid : option uuid) : field :=
  match sid with
  | Some u => FUuid u
  | None => FNone
  end.

(** The columns of an asset carry a name, and it is not empty. *)
Definition named (d : Dict.dict field) : Prop :=
  exists n, Dict.get d "name" = Some (FStr n) /\ n <> "".

(** The columns file the asset under [sid]. *)
Definition filed (sid : option uuid) (d : Dict.dict field) : Prop :=
  Dict.get d "asset_set_id" = Some (set_field sid).

(** A status or a type that the columns name is a stored one. *)
Definition refers (db : DB) (d : Dict.dict field) : Prop :=
  (forall f, Dict.get d "status_id" = Some f ->
             exists id, f = FUuid id /\ In id (map st_id (db_statuses db)))
  /\ (forall f, Dict.get d "asset_type_id" = Some f ->
                exists id, f = FUuid id /\ In id (map ty_id (db_types db))).

Definition data_ok (db : DB) (sid : option uuid) (d : Dict.dict field) : Prop :=
  named d /\ filed sid d /\ refers db d.

(** Every value of the lookup map [m] is one of [ids]. *)
Definition map_refers (ids : list uuid) (m : Dict.dict uuid) : Prop :=
  forall k id, Dict.get m k = Some id -> In id ids.

(** What holds of the state of a row while its columns are processed. *)
Definition row_inv (sid : option uuid) (status_map : Dict.dict uuid)
           (st : AssetImport.row_state) : Prop :=
  map_refers (map st_id (db_statuses (fst (fst st)))) status_map
  /\ map_refers (map ty_id (db_types (fst (fst st)))) (snd (fst st))
  /\ data_ok (fst (fst st)) sid (snd st).

(** What holds of the state of the row loop of the asset executor once
    [n] rows were imported, [base] being the assets stored before. *)
Definition batch_inv (db1 : DB) (sid : option uuid) (status_map : Dict.dict uuid)
           (st : DB * Dict.dict uuid) (n : nat) : Prop :=
  asset_import_frame db1 (fst st)
  /\ map_refers (map st_id (db_statuses (fst st))) status_map
  /\ map_refers (map ty_id (db_types (fst st))) (snd st)
  /\ exists new,
      db_assets (fst st) = db_assets db1 ++ new
      /\ List.length new = n
      /\ Forall (fun a => data_ok (fst st) sid (a_fields a)) new.

(** A field definition without its key of storage. *)
Definition definition_of (f : CustomFieldDefinition)
  : CustomFieldTarget * string * string * option uuid :=
  (cf_target f, cf_key f, cf_label f, cf_asset_set_id f).

(** The definition that the executor registers for the column
    [field_name] within [scope]. *)
Definition requested (scope : option uuid) (field_name : string)
  : CustomFieldTarget * string * string * option uuid :=
  (target_asset, AssetImport.field_key field_name, field_name, scope).

(** The keys under which field definitions are stored. *)
Definition field_keys (db : DB) : list string := map cf_key (db_custom_fields db).

(** No character of [s] is [c]. *)
Fixpoint without (c : ascii) (s : string) : bool :=
  match s with
  | EmptyString => true
  | String a s' => negb (Ascii.eqb a c) && without c s'
  end.

(** A component of a resolved path: not empty, neither "." nor "..", and
    free of the separator. *)
Definition component (c : string) : bool :=
  negb (String.eqb c "") && negb (String.eqb c ".")
  && negb (String.eqb c "..") && without "/" c.

(** No separator of [s] follows another one; [after_sep] tells whether
    the character before [s] was a separator. *)
Fixpoint separated (after_sep : bool) (s : string) : bool :=
  match s with
  | EmptyString => true
  | String a s' =>
      if Ascii.eqb a "/" then negb after_sep && separated true s'
      else separated false s'
  end.

(** The pandas reader that [_read_file] selects for a lowercased
    extension that it supports. *)
Definition reader_of (pd : Pandas) (ext : string) : string -> pd_outcome :=
  if String.eqb ext ".csv" then read_csv pd
  else if PyStr.mem ext [".xlsx"; ".xls"] then read_excel pd
  else read_json pd.

(** The address that the columns of a user row yield, when they can be
    read and one of them holds an address. *)
Definition row_email (fm : Dict.dict (option string)) (r : record) : option string :=
  match UserImport.columns_loop fm r (UserImport.mkLocals None None "user" []) with
  | Ok l => UserImport.email l
  | Raise _ => None
  end.

(** A user of the address [em], grouped under [sid], is stored. *)
Definition person_stored (db : DB) (sid : option set_ref) (em : string) : Prop :=
  exists u, In u (db_users db) /\ u_email u = em /\ u_asset_set_id u = sid.

(** Lowercase letters, digits and underscores, with no underscore next
    to another one; [after_us] tells whether the character before [s]
    was an underscore. *)
Fixpoint loose (after_us : bool) (s : string) : bool :=
  match s with
  | EmptyString => true
  | String c s' =>
      if Ascii.eqb c "_" then negb after_us && loose true s'
      else PyStr.is_lower_alnum c && loose false s'
  end.

(** The same, and [s] does not end on an underscore either. *)
Fixpoint groups (after_us : bool) (s : string) : bool :=
  match s with
  | EmptyString => negb after_us
  | String c s' =>
      if Ascii.eqb c "_" then negb after_us && groups true s'
      else PyStr.is_lower_alnum c && groups false s'
  end.

(** The shape of a normalized header: empty, or groups of lowercase
    letters and digits joined by single underscores. *)
Definition normalized (s : string) : bool :=
  String.eqb s "" || groups true s.

(** The column label is text. *)
Definition is_text (h : label) : bool :=
  match h with
  | LStr _ => true
  | LInt _ => false
  end.

(** The headers and the row count that a report of the analyze route
    states. *)
Definition analysis_headers (a : Router.analysis) : list label :=
  match a with
  | Router.AssetAnalysis r => Analyzer.an_headers r
  | Router.UserAnalysis r => UserAnalyzer.an_headers r
  end.

Definition analysis_total_rows (a : Router.analysis) : nat :=
  match a with
  | Router.AssetAnalysis r => Analyzer.an_total_rows r
  | Router.UserAnalysis r => UserAnalyzer.an_total_rows r
  end.

(* ------------------------------------------------------------------ *)
(** ** Sanity checks of the helpers                                    *)
(* ------------------------------------------------------------------ *)

Example lower_ex : PyStr.lower "Serial Tag" = "serial tag".
Proof. reflexivity. Qed.

Example strip_ex : PyStr.strip "  a b  " = "a b".
Proof. reflexivity. Qed.

Example split_ex : PyStr.split "/" "/a//b/" = [""; "a"; ""; "b"; ""].
Proof. reflexivity. Qed.

Example str_of_nat_ex : PyStr.str_of_nat 12 = "12" /\ PyStr.str_of_nat 0 = "0".
Proof. split; reflexivity. Qed.

Example resolve_ex :
  Paths.resolve ["app"] "uploads/../uploads/./a.csv" = ["app"; "uploads"; "a.csv"].
Proof. reflexivity. Qed.

Example splitext_ex :
  Paths.splitext_ext "/x.d/a.tar.GZ" = ".GZ" /\ Paths.splitext_ext "/x.d/.csv" = ""
  /\ Paths.splitext_ext "a." = ".".
Proof. repeat split; reflexivity. Qed.

Example suffix_ex :
  Upload.suffix "dir/Assets.2024.CSV" = ".CSV" /\ Upload.suffix ".csv" = ""
  /\ Upload.suffix "a." = "" /\ Upload.suffix "x/archive.tar.gz" = ".gz".
Proof. repeat split; reflexivity. Qed.

Example read_chunks_ex :
  Upload.read_chunks 3 "abcdefgh" = ["abc"; "def"; "gh"]
  /\ Upload.read_chunks 3 "abcdef" = ["abc"; "def"] /\ Upload.read_chunks 3 "" = [].
Proof. repeat split; reflexivity. Qed.

Example ratio_ex1 : Difflib.ratio "abcd" "bcde" = (6 # 8)%Q.
Proof. reflexivity. Qed.

Example ratio_ex2 :
  Difflib.ratio "bob1@x.io" "bob@x.io" = (16 # 17)%Q
  /\ Difflib.ratio "bob2@x.io" "bob@x.io" = (16 # 17)%Q.
Proof. split; reflexivity. Qed.

Example normalize_ex :
  Executor.normalize_str "  Serial -- Tag (#) " = "serial_tag"
  /\ Executor.normalize_str "S/N" = "s_n" /\ Executor.normalize_str "__" = "".
Proof. repeat split; reflexivity. Qed.

(* ------------------------------------------------------------------ *)
(** ** General lemmas                                                  *)
(* ------------------------------------------------------------------ *)

Lemma path_eqb_eq (p q : Paths.path) : Paths.path_eqb p q = true <-> p = q.
Proof.
  unfold Paths.path_eqb.
  destruct (list_eq_dec string_dec p q); split; congruence.
Qed.

Lemma path_eqb_refl (p : Paths.path) : Paths.path_eqb p p = true.
Proof. apply path_eqb_eq; reflexivity. Qed.

Lemma path_eqb_sym (p q : Paths.path) : Paths.path_eqb p q = Paths.path_eqb q p.
Proof.
  destruct (Paths.path_eqb p q) eqn:E, (Paths.path_eqb q p) eqn:F; auto.
  - apply path_eqb_eq in E; subst. rewrite path_eqb_refl in F; discriminate.
  - apply path_eqb_eq in F; subst. rewrite path_eqb_refl in E; discriminate.
Qed.

(** Looking a path up after every entry of [d] was dropped. *)
Lemma fs_lookup_filter (files : list (Paths.path * string)) (d p : Paths.path) :
  Paths.fs_lookup
    (filter (fun e => negb (Paths.path_eqb (fst e) d)) files) p
  = if Paths.path_eqb p d then None else Paths.fs_lookup files p.
Proof.
  induction files as [|[q b] files IH]; simpl.
  - destruct (Paths.path_eqb p d); reflexivity.
  - destruct (Paths.path_eqb q d) eqn:Eqd; simpl.
    + rewrite IH. destruct (Paths.path_eqb p d) eqn:Epd; [reflexivity|].
      destruct (Paths.path_eqb q p) eqn:Eqp; [|reflexivity].
      apply path_eqb_eq in Eqp; subst. congruence.
    + destruct (Paths.path_eqb q p) eqn:Eqp.
      * apply path_eqb_eq in Eqp; subst. rewrite Eqd. reflexivity.
      * exact IH.
Qed.

Lemma fs_lookup_filter_other (files : list (Paths.path * string))
      (d p : Paths.path) :
  Paths.path_eqb p d = false ->
  Paths.fs_lookup
    (filter (fun e => negb (Paths.path_eqb (fst e) d)) files) p
  = Paths.fs_lookup files p.
Proof. intros H. rewrite fs_lookup_filter, H. reflexivity. Qed.

Section UploadLemmas.
Import Upload.

Lemma len_app (a b : string) : len (a ++ b) = (len a + len b)%N.
Proof.
  unfold len. rewrite <- Nat2N.inj_add. f_equal.
  induction a; simpl; auto.
Qed.

Lemma append_nil_r (s : string) : (s ++ "")%string = s.
Proof. induction s; simpl; congruence. Qed.

Lemma append_assoc (a b c : string) :
  ((a ++ b) ++ c)%string = (a ++ (b ++ c))%string.
Proof. induction a; simpl; congruence. Qed.

Lemma chunks_from_concat (n room : N) (s cur : string) :
  String.concat "" (chunks_from n room cur s) = (cur ++ s)%string.
Proof.
  revert room cur. induction s as [|c s IH]; intros room cur; simpl.
  - rewrite append_nil_r. destruct cur; reflexivity.
  - destruct (N.eqb room 0).
    + change (String.concat "" (cur :: chunks_from n (N.pred n) (String c "") s))
        with (match chunks_from n (N.pred n) (String c "") s with
              | [] => cur
              | _ => cur ++ "" ++ String.concat "" (chunks_from n (N.pred n) (String c "") s)
              end)%string.
      specialize (IH (N.pred n) (String c "")).
      destruct (chunks_from n (N.pred n) (String c "") s).
      * simpl in IH. discriminate.
      * rewrite IH. reflexivity.
    + rewrite IH, append_assoc. reflexivity.
Qed.

Lemma total_concat (chunks : list string) :
  total chunks = len (String.concat "" chunks).
Proof.
  induction chunks as [|c [|d rest] IH].
  - reflexivity.
  - change (len c + 0 = len c)%N. apply N.add_0_r.
  - change (total (c :: d :: rest)) with (len c + total (d :: rest))%N.
    rewrite IH.
    change (String.concat "" (c :: d :: rest))
      with (c ++ "" ++ String.concat "" (d :: rest))%string.
    rewrite len_app. reflexivity.
Qed.

(** Reading with a positive chunk size loses nothing. *)
Lemma read_chunks_concat (n : N) (content : string) :
  n <> 0%N -> String.concat "" (read_chunks n content) = content.
Proof.
  intros Hn. unfold read_chunks.
  destruct (N.eqb_spec n 0); [contradiction|].
  apply chunks_from_concat.
Qed.

Lemma stream_loop_accepts (max_bytes : N) (chunks : list string)
      (size : N) (written : string) :
  (size + total chunks <= max_bytes)%N ->
  stream_loop max_bytes chunks size written
  = ((written ++ String.concat "" chunks)%string, Ok (size + total chunks)%N).
Proof.
  revert size written.
  induction chunks as [|c chunks IH]; intros size written H.
  - simpl. rewrite append_nil_r, N.add_0_r. reflexivity.
  - change (total (c :: chunks)) with (len c + total chunks)%N in *.
    cbn [stream_loop].
    destruct (N.ltb_spec max_bytes (size + len c)); [lia|].
    rewrite IH by lia. f_equal.
    + rewrite append_assoc. f_equal.
      destruct chunks; simpl; [now rewrite append_nil_r | reflexivity].
    + f_equal. lia.
Qed.

Lemma stream_loop_rejects (max_bytes : N) (chunks : list string)
      (size : N) (written : string) :
  (max_bytes < size + total chunks)%N ->
  (size <= max_bytes)%N ->
  exists w, stream_loop max_bytes chunks size written
            = (w, Paths.validation "File size exceeds limit").
Proof.
  revert size written.
  induction chunks as [|c chunks IH]; intros size written H Hs.
  - simpl in H. lia.
  - change (total (c :: chunks)) with (len c + total chunks)%N in *.
    cbn [stream_loop].
    destruct (N.ltb_spec max_bytes (size + len c)).
    + eexists; reflexivity.
    + apply IH; lia.
Qed.

End UploadLemmas.

(* ------------------------------------------------------------------ *)
(** ** Upload intake                                                   *)
(* ------------------------------------------------------------------ *)

Lemma read_chunks_total (content : string) :
  Upload.total (Upload.read_chunks Upload.chunk_size content) = Upload.len content.
Proof.
  rewrite total_concat, read_chunks_concat; [reflexivity|].
  unfold Upload.chunk_size; discriminate.
Qed.

(** C9. [create_import_job] returns a job exactly when the lowercased
    suffix of the declared filename is one of .csv, .xlsx, .xls, .json and
    the number of streamed bytes does not exceed the limit that applies to
    the uploader (the cap of an administrator, else the configured
    setting, else the default).  On success the job is the one new row of the job table,
    its payload holds the stored path, the original filename, the
    uploader's id and the byte count, and the destination file holds the
    uploaded bytes.  On failure the exception is a validation failure, the
    database is unchanged, the destination file does not exist and every
    other file is as before. *)
Theorem upload_intake_contract
        (UPLOAD_DIR : Paths.path) (rt : Runtime) (db : DB) (fs : Paths.FileSystem)
        (file : Upload.UploadFile) (user : User) (file_id : string) :
  let ext := PyStr.lower (Upload.suffix (match Upload.up_filename file with
                                         | Some f => f | None => "" end)) in
  let dest := Upload.dest_path UPLOAD_DIR file_id ext in
  let size := Upload.len (Upload.up_content file) in
  let limit := Upload.max_upload_bytes rt db user in
  match Upload.create_import_job UPLOAD_DIR rt db fs file user file_id with
  | (fs', db', Ok job) =>
      PyStr.mem ext Upload.ALLOWED_EXTS = true
      /\ (size <= limit)%N
      /\ db_jobs db' = db_jobs db ++ [job]
      /\ job_payload job
         = mkPayload (Some (Paths.str_path dest)) (Upload.up_filename file)
                     (Some (str_uuid rt (u_id user))) (Some size)
      /\ Paths.fs_lookup (Paths.fs_files fs') dest = Some (Upload.up_content file)
  | (fs', db', Raise e) =>
      is_validation e = true
      /\ (PyStr.mem ext Upload.ALLOWED_EXTS = false \/ (limit < size)%N)
      /\ db' = db
      /\ forall p,
           Paths.fs_lookup (Paths.fs_files fs') p
           = if PyStr.mem ext Upload.ALLOWED_EXTS && Paths.path_eqb p dest
             then None else Paths.fs_lookup (Paths.fs_files fs) p
  end.
Proof.
  intros ext dest size limit.
  unfold Upload.create_import_job, Upload._validate_ext.
  fold ext. destruct (PyStr.mem ext Upload.ALLOWED_EXTS) eqn:Hext; cbn [negb].
  - fold limit dest.
    destruct (N.le_gt_cases size limit) as [Hle | Hgt].
    + rewrite stream_loop_accepts by (rewrite read_chunks_total; exact Hle).
      rewrite read_chunks_total.
      rewrite read_chunks_concat by (unfold Upload.chunk_size; discriminate).
      cbn [Models.fresh fst snd append].
      repeat split; try assumption; try reflexivity.
      cbn [Upload.fs_write Paths.fs_files Paths.fs_lookup].
      rewrite path_eqb_refl. reflexivity.
    + destruct (stream_loop_rejects limit
                  (Upload.read_chunks Upload.chunk_size (Upload.up_content file))
                  0%N "") as [w Hw].
      * rewrite read_chunks_total. exact Hgt.
      * apply N.le_0_l.
      * rewrite Hw. unfold Paths.validation.
        assert (Hfile : Paths.is_file (Upload.fs_write fs dest w) dest = true).
        { unfold Paths.is_file, Upload.fs_write. cbn [Paths.fs_files Paths.fs_lookup].
          rewrite path_eqb_refl. reflexivity. }
        rewrite Hfile.
        repeat split; auto.
        intros p. cbn [andb].
        unfold Upload.fs_unlink, Upload.fs_write.
        cbn [Paths.fs_files filter fst negb].
        rewrite path_eqb_refl. cbn [negb].
        rewrite fs_lookup_filter.
        destruct (Paths.path_eqb p dest) eqn:Ep; [reflexivity|].
        apply fs_lookup_filter_other. exact Ep.
  - unfold Paths.validation. repeat split; auto.
Qed.

(** Whatever [create_import_job] returns carries the status [completed]. *)
Lemma create_import_job_status
      (UPLOAD_DIR : Paths.path) (rt : Runtime) (db db' : DB)
      (fs fs' : Paths.FileSystem) (file : Upload.UploadFile) (user : User)
      (file_id : string) (job : Job) :
  Upload.create_import_job UPLOAD_DIR rt db fs file user file_id = (fs', db', Ok job) ->
  job_status job = completed.
Proof.
  unfold Upload.create_import_job.
  destruct (Upload._validate_ext (Upload.up_filename file)); [|discriminate].
  destruct (Upload.stream_loop _ _ _ _) as [w [size|e]]; cbn; intros H.
  - injection H as _ _ <-. reflexivity.
  - discriminate.
Qed.

(** C4. On a well-formed upload (an allowed extension, eleven bytes)
    [create_import_job] persists the job with status [completed], not
    [pending]. *)
Theorem upload_job_is_created_completed :
  exists fs' db' job,
    Upload.create_import_job Scenario.UPLOAD_DIR Scenario.rt Scenario.db0
                             Scenario.disk Scenario.upload Scenario.it_user "f00d"
    = (fs', db', Ok job)
    /\ In job (db_jobs db')
    /\ job_status job = completed
    /\ job_status job <> pending.
Proof.
  do 3 eexists. split; [vm_compute; reflexivity|].
  split; [right; left; reflexivity|].
  split; [reflexivity | discriminate].
Qed.

(* ------------------------------------------------------------------ *)
(** ** The file reader                                                 *)
(* ------------------------------------------------------------------ *)

(** What [_validate_safe_path] guarantees about a path it accepts. *)
Lemma validate_safe_path_ok
      (UPLOAD_DIR : Paths.path) (fs : Paths.FileSystem) (file_path : string)
      (p : Paths.path) :
  Paths._validate_safe_path UPLOAD_DIR fs file_path = Ok p ->
  PyStr.contains "://" file_path = false
  /\ p = Paths.resolve (Paths.fs_cwd fs) file_path
  /\ PyStr.startswith (Paths.str_path UPLOAD_DIR) (Paths.str_path p) = true
  /\ Paths.is_file fs p = true.
Proof.
  unfold Paths._validate_safe_path, Paths.validation. cbv zeta.
  destruct (String.eqb file_path ""); [discriminate|].
  destruct (PyStr.contains "://" file_path); [discriminate|].
  destruct (PyStr.startswith _ _) eqn:Hpre; cbn [negb]; [|discriminate].
  destruct (Paths.is_file fs _) eqn:Hfile; cbn [negb]; [|discriminate].
  intros H; injection H as <-. repeat split; assumption.
Qed.

(** C2. With the upload directory /srv/uploads, the reader accepts the
    path /srv/uploads_private/payroll.csv, which has no URL scheme marker
    and resolves outside the upload directory, and returns the table of
    that file. *)
Theorem read_file_opens_path_outside_upload_dir :
  let file_path := "/srv/uploads_private/payroll.csv" in
  let opened := ["srv"; "uploads_private"; "payroll.csv"] in
  PyStr.contains "://" file_path = false
  /\ Paths.resolve (Paths.fs_cwd Scenario.disk) file_path = opened
  /\ Paths.within Scenario.UPLOAD_DIR opened = false
  /\ Paths._read_file Scenario.UPLOAD_DIR
                      (Scenario.csv_reader Scenario.payroll_table)
                      Scenario.disk file_path
     = Ok (opened, Scenario.payroll_table).
Proof. repeat split; vm_compute; reflexivity. Qed.

(* ------------------------------------------------------------------ *)
(** ** Dictionaries and the order of candidates                        *)
(* ------------------------------------------------------------------ *)

Lemma dict_has_true {V : Type} (d : Dict.dict V) (k : string) :
  Dict.has d k = true -> exists v, Dict.get d k = Some v.
Proof.
  unfold Dict.has. destruct (Dict.get d k) as [v|]; [eauto | discriminate].
Qed.











(* ------------------------------------------------------------------ *)
(** ** Person matching in the analyzer                                 *)
(* ------------------------------------------------------------------ *)





(* ------------------------------------------------------------------ *)
(** ** Header classification in the analyzer                           *)
(* ------------------------------------------------------------------ *)

Lemma dict_get_set_same {V : Type} (d : Dict.dict V) (k : string) (v : V) :
  Dict.get (Dict.set d k v) k = Some v.
Proof.
  induction d as [|[k' v'] d IH]; simpl.
  - rewrite String.eqb_refl. reflexivity.
  - destruct (String.eqb k' k) eqn:E; simpl; rewrite E; auto.
Qed.

Lemma dict_get_set_other {V : Type} (d : Dict.dict V) (k k' : string) (v : V) :
  String.eqb k' k = false ->
  Dict.get (Dict.set d k' v) k = Dict.get d k.
Proof.
  intros Hne. induction d as [|[k0 v0] d IH]; simpl.
  - rewrite Hne. reflexivity.
  - destruct (String.eqb k0 k') eqn:E; simpl.
    + apply String.eqb_eq in E. subst. rewrite Hne. reflexivity.
    + destruct (String.eqb k0 k); auto.
Qed.

Lemma dict_has_set {V : Type} (d : Dict.dict V) (k k' : string) (v : V) :
  Dict.has (Dict.set d k' v) k = String.eqb k' k || Dict.has d k.
Proof.
  unfold Dict.has. destruct (String.eqb k' k) eqn:E.
  - apply String.eqb_eq in E. subst. rewrite dict_get_set_same. reflexivity.
  - rewrite dict_get_set_other by exact E. reflexivity.
Qed.

Lemma dict_has_fold_set {A V : Type} (key : A -> string) (val : A -> V)
      (xs : list A) (d : Dict.dict V) (k : string) :
  Dict.has (fold_left (fun d x => Dict.set d (key x) (val x)) xs d) k
  = Dict.has d k || existsb (fun x => String.eqb (key x) k) xs.
Proof.
  revert d. induction xs as [|x xs IH]; intros d; simpl.
  - rewrite orb_false_r. reflexivity.
  - rewrite IH, dict_has_set.
    destruct (String.eqb (key x) k), (Dict.has d k); reflexivity.
Qed.

Lemma dict_has_comprehension {A V : Type} (key : A -> string) (val : A -> V)
      (xs : list A) (k : string) :
  Dict.has (Dict.comprehension key val xs) k
  = existsb (fun x => String.eqb (key x) k) xs.
Proof. unfold Dict.comprehension. rewrite dict_has_fold_set. reflexivity. Qed.

Lemma no_global_field_has (db : DB) (k : string) :
  no_global_field db k ->
  Dict.has
    (Dict.comprehension cf_key (fun f => f)
       (filter (fun f => match cf_asset_set_id f with
                         | None => true | Some _ => false end)
               (db_custom_fields db))) k = false.
Proof.
  intros H. rewrite dict_has_comprehension.
  apply not_true_is_false. intros Hex.
  apply existsb_exists in Hex. destruct Hex as [f [Hin Heq]].
  apply filter_In in Hin. destruct Hin as [Hin Hglob].
  apply String.eqb_eq in Heq.
  apply (H f Hin); [|exact Heq].
  destruct (cf_asset_set_id f); [discriminate | reflexivity].
Qed.

(** C8. For a file with the headers Name, Serial Tag, State and
    Cost, when no global custom field is keyed serial_tag, state or cost,
    the analysis classifies Name as the static field name and reports
    Serial Tag, State and Cost as new fields: the analysis has no synonym
    tier.  The fallback of the executor, with no explicit mapping, sends
    State to status and Cost to purchase_price and has no entry for
    Serial Tag. *)
Theorem analysis_of_the_four_headers
        (UPLOAD_DIR : Paths.path) (pd : Pandas) (fs : Paths.FileSystem)
        (rt : Runtime) (db : DB) (file_path : string) (p : Paths.path)
        (rows : list (list value)) :
  Paths._read_file UPLOAD_DIR pd fs file_path
  = Ok (p, mkDF [LStr "Name"; LStr "Serial Tag"; LStr "State"; LStr "Cost"] rows) ->
  no_global_field db "serial_tag" ->
  no_global_field db "state" ->
  no_global_field db "cost" ->
  (exists report,
      Analyzer.analyze_file UPLOAD_DIR pd fs rt db file_path = Ok report
      /\ Analyzer.an_mapped_fields report
         = [Analyzer.mkMapped (LStr "Name") Analyzer.static "name"]
      /\ Analyzer.an_new_fields report
         = [LStr "Serial Tag"; LStr "State"; LStr "Cost"])
  /\ AssetImport.default_target [] (Executor.normalize_str "Serial Tag") = None
  /\ AssetImport.default_target [] (Executor.normalize_str "State") = Some "status"
  /\ AssetImport.default_target [] (Executor.normalize_str "Cost")
     = Some "purchase_price".
Proof.
  intros Hread H1 H2 H3.
  split; [|repeat split; reflexivity].
  unfold Analyzer.analyze_file. rewrite Hread.
  cbn [df_columns Analyzer.classify].
  change (Analyzer.header_key (LStr "Name")) with (Ok (A := string) "name").
  change (Analyzer.header_key (LStr "Serial Tag")) with (Ok (A := string) "serial_tag").
  change (Analyzer.header_key (LStr "State")) with (Ok (A := string) "state").
  change (Analyzer.header_key (LStr "Cost")) with (Ok (A := string) "cost").
  change (PyStr.mem "name" Analyzer.static_fields) with true.
  change (PyStr.mem "serial_tag" Analyzer.static_fields) with false.
  change (PyStr.mem "state" Analyzer.static_fields) with false.
  change (PyStr.mem "cost" Analyzer.static_fields) with false.
  cbv iota.
  rewrite (no_global_field_has db "serial_tag" H1).
  rewrite (no_global_field_has db "state" H2).
  rewrite (no_global_field_has db "cost" H3).
  cbn [app].
  change (Analyzer.user_matching rt db
            (mkDF [LStr "Name"; LStr "Serial Tag"; LStr "State"; LStr "Cost"] rows))
    with (Ok (A := Dict.dict string) []).
  eexists. split; [reflexivity|]. split; reflexivity.
Qed.

(** C8 (witness): the theorem applied to the uploaded file of the worked
    installation. *)
Lemma analysis_of_the_four_headers_witness :
  exists report,
    Analyzer.analyze_file Scenario.UPLOAD_DIR (Scenario.csv_reader Scenario.four_headers)
                          Scenario.disk Scenario.rt Scenario.db0
                          "/srv/uploads/rows.csv" = Ok report
    /\ Analyzer.an_mapped_fields report
       = [Analyzer.mkMapped (LStr "Name") Analyzer.static "name"]
    /\ Analyzer.an_new_fields report
       = [LStr "Serial Tag"; LStr "State"; LStr "Cost"].
Proof.
  refine (proj1 (analysis_of_the_four_headers
                   Scenario.UPLOAD_DIR (Scenario.csv_reader Scenario.four_headers)
                   Scenario.disk Scenario.rt Scenario.db0 "/srv/uploads/rows.csv"
                   ["srv"; "uploads"; "rows.csv"] _ _ _ _ _)).
  - vm_compute. reflexivity.
  - intros f [].
  - intros f [].
  - intros f [].
Defined.

(** C8 (counterexample). On the four headers, with no custom field
    registered, the analysis leaves Serial Tag and State among the new
    fields: neither is classified as serial_number or status. *)
Lemma analysis_has_no_synonym_tier :
  exists report,
    Analyzer.analyze_file Scenario.UPLOAD_DIR (Scenario.csv_reader Scenario.four_headers)
                          Scenario.disk Scenario.rt Scenario.db0
                          "/srv/uploads/rows.csv" = Ok report
    /\ In (LStr "Serial Tag") (Analyzer.an_new_fields report)
    /\ In (LStr "State") (Analyzer.an_new_fields report)
    /\ ~ In (Analyzer.mkMapped (LStr "Serial Tag") Analyzer.static "serial_number")
            (Analyzer.an_mapped_fields report)
    /\ ~ In (Analyzer.mkMapped (LStr "State") Analyzer.static "status")
            (Analyzer.an_mapped_fields report).
Proof.
  eexists. split; [vm_compute; reflexivity|].
  cbn. repeat split.
  - auto.
  - auto.
  - intros [H | []]. discriminate.
  - intros [H | []]. discriminate.
Qed.

(* ------------------------------------------------------------------ *)
(** ** Status values                                                   *)
(* ------------------------------------------------------------------ *)

Lemma dict_get_has {V : Type} (d : Dict.dict V) (k : string) :
  Dict.has d k = match Dict.get d k with Some _ => true | None => false end.
Proof. reflexivity. Qed.

Lemma if_has_get {V : Type} (d : Dict.dict V) (k : string) :
  (if Dict.has d k then Dict.get d k else None) = Dict.get d k.
Proof. unfold Dict.has. destruct (Dict.get d k); reflexivity. Qed.

(** A status name of its own wins over the synonym table. *)
Lemma resolve_status_direct (status_map : Dict.dict uuid) (val_str : string)
      (id : uuid) :
  Dict.get status_map (PyStr.lower val_str) = Some id ->
  AssetImport.resolve_status status_map val_str = Some id.
Proof.
  intros H. unfold AssetImport.resolve_status. cbv zeta.
  unfold Dict.has at 1. rewrite H. reflexivity.
Qed.

(** Otherwise the chain is the worded one. *)
Lemma resolve_status_indirect (status_map : Dict.dict uuid) (val_str : string) :
  Dict.get status_map (PyStr.lower val_str) = None ->
  AssetImport.resolve_status status_map val_str
  = status_as_worded status_map val_str.
Proof.
  intros H. unfold AssetImport.resolve_status, status_as_worded. cbv zeta.
  unfold Dict.has at 1. rewrite H.
  unfold Dict.has at 1.
  destruct (Dict.get AssetImport.status_synonyms (PyStr.lower val_str)) as [syn|].
  - cbn [andb]. unfold Dict.has at 1.
    destruct (Dict.get status_map syn); [reflexivity|].
    apply if_has_get.
  - cbn [andb]. rewrite H. apply if_has_get.
Qed.

(** C6. For a column with a string label and a non-blank cell
    whose target is status (by the explicit mapping, or by the fallback
    when the mapping has no entry), the column raises no error and the
    row's status is decided as follows: the lowercased value is first
    looked up as it stands among the status names; only when it is not a
    status name is it passed through the synonym table and looked up again;
    a value that still resolves to nothing takes the status named active
    when there is one, and otherwise the row's status is left as it was. *)
Theorem status_column_resolution
        (rt : Runtime) (fm : Dict.dict (option string)) (status_map : Dict.dict uuid)
        (h : string) (v : value) (val_str : string)
        (db : DB) (type_map : Dict.dict uuid) (asset_data : Dict.dict field) :
  Executor.cell_text v = Some val_str ->
  Executor.mapping_get fm (Executor.normalize_str h) = Some "status"
  \/ (Executor.mapping_get fm (Executor.normalize_str h) = None
      /\ AssetImport.default_target fm (Executor.normalize_str h) = Some "status") ->
  let resolved := AssetImport.resolve_status status_map val_str in
  AssetImport.column_step rt fm status_map (LStr h) v (db, type_map, asset_data)
  = ((db, type_map,
      match resolved with
      | Some id => Dict.set asset_data "status_id" (FUuid id)
      | None => asset_data
      end), Ok tt)
  /\ (forall id, Dict.get status_map (PyStr.lower val_str) = Some id ->
                 resolved = Some id)
  /\ (Dict.get status_map (PyStr.lower val_str) = None ->
      resolved = status_as_worded status_map val_str).
Proof.
  intros Hcell Htarget resolved.
  split; [|split; [apply resolve_status_direct | apply resolve_status_indirect]].
  unfold AssetImport.column_step. cbn [Executor._normalize_header].
  rewrite Hcell.
  assert (Hassign :
            AssetImport.assign rt status_map (Some "status") (LStr h) v val_str
                               (db, type_map, asset_data)
            = (db, type_map,
               match resolved with
               | Some id => Dict.set asset_data "status_id" (FUuid id)
               | None => asset_data
               end)).
  { unfold AssetImport.assign. cbn. fold resolved.
    destruct resolved; reflexivity. }
  destruct Htarget as [Hm | [Hm Hd]]; rewrite Hm.
  - cbn [Executor.target_is Executor.target_falsy String.eqb Ascii.eqb Bool.eqb].
    cbv iota. rewrite Hassign. reflexivity.
  - cbn [Executor.target_is Executor.target_falsy]. rewrite Hd, Hassign. reflexivity.
Qed.

(** C6 (witness): the value Retired under the header State, with the
    statuses Active and Deployed: the synonym of retired is not a status
    name and the status named active is taken. *)
Lemma status_column_resolution_witness :
  AssetImport.column_step Scenario.rt [] Scenario.status_map0 (LStr "State")
                          (VStr "Retired") (Scenario.db0, [], [])
  = ((Scenario.db0, [], [("status_id", FUuid 20%N)]), Ok tt).
Proof.
  refine (proj1 (status_column_resolution
                   Scenario.rt [] Scenario.status_map0 "State" (VStr "Retired")
                   "Retired" Scenario.db0 [] [] _ _)).
  - reflexivity.
  - right. split; reflexivity.
Defined.

(** C6 (counterexample). With the statuses Active and Deployed, the value
    Deployed is given the status Deployed; passing it through the synonym
    table before the lookup would give the status Active.  The asset that
    [execute_import] creates from the row carries the status Deployed. *)
Lemma own_status_name_wins_over_synonym :
  Dict.get AssetImport.status_synonyms "deployed" = Some "active"
  /\ Scenario.status_map0 = [("active", 20%N); ("deployed", 21%N)]
  /\ status_as_worded Scenario.status_map0 "Deployed" = Some 20%N
  /\ AssetImport.resolve_status Scenario.status_map0 "Deployed" = Some 21%N
  /\ exists db' report asset,
      AssetImport.execute_import Scenario.UPLOAD_DIR
        (Scenario.csv_reader Scenario.four_headers) Scenario.disk Scenario.rt
        Scenario.db0 1%N "MERGE" Scenario.no_options 7%N = (db', Ok report)
      /\ rp_errors report = []
      /\ db_assets db' = [asset]
      /\ Dict.get (a_fields asset) "status_id" = Some (FUuid 21%N).
Proof.
  repeat split; try reflexivity.
  do 3 eexists. split; [vm_compute; reflexivity|].
  repeat split; reflexivity.
Qed.

(* ------------------------------------------------------------------ *)
(** ** Explicit mapping entries and the ignore sentinel                *)
(* ------------------------------------------------------------------ *)

(** A column whose mapping entry is the empty string leaves the state of
    the column loop as it is. *)
Lemma column_step_ignored
      (rt : Runtime) (fm : Dict.dict (option string)) (status_map : Dict.dict uuid)
      (h : string) (v : value) (st : AssetImport.row_state) :
  Executor.mapping_get fm (Executor.normalize_str h) = Some "" ->
  AssetImport.column_step rt fm status_map (LStr h) v st = (st, Ok tt).
Proof.
  intros Hm. unfold AssetImport.column_step. cbn [Executor._normalize_header].
  destruct (Executor.cell_text v); [|reflexivity].
  rewrite Hm. reflexivity.
Qed.

(** A column with any other explicit entry is dispatched on that entry:
    the fallback chain is not consulted. *)
Lemma column_step_explicit
      (rt : Runtime) (fm : Dict.dict (option string)) (status_map : Dict.dict uuid)
      (h : string) (v : value) (val_str t : string) (st : AssetImport.row_state) :
  Executor.cell_text v = Some val_str ->
  Executor.mapping_get fm (Executor.normalize_str h) = Some t ->
  String.eqb t "" = false ->
  AssetImport.column_step rt fm status_map (LStr h) v st
  = (AssetImport.assign rt status_map (Some t) (LStr h) v val_str st, Ok tt).
Proof.
  intros Hcell Hm Ht. unfold AssetImport.column_step.
  cbn [Executor._normalize_header]. rewrite Hcell, Hm.
  cbn [Executor.target_is Executor.target_falsy]. rewrite Ht. reflexivity.
Qed.

(** C3. In the loop over the columns of an asset row, a column
    whose normalized header has an explicit entry in the field mapping is
    handled by that entry and not by a synonym default: when the entry is
    the empty string, which is the ignore sentinel of the executor, the
    loop over the row gives the same result as over the row without that
    column, so the loop writes the column's value neither to a static
    field nor to the extra-attributes bag; when the entry is any other
    target and the cell is not blank, the column is dispatched on that
    target.  (How the name of the asset is chosen is not part of this
    statement.) *)
Theorem explicit_mapping_in_the_column_loop
        (rt : Runtime) (fm : Dict.dict (option string)) (status_map : Dict.dict uuid)
        (h : string) (v : value) (t : string) :
  Executor.mapping_get fm (Executor.normalize_str h) = Some t ->
  (String.eqb t "" = true ->
   forall (before after : record) (st : AssetImport.row_state),
     AssetImport.columns_loop rt fm status_map (before ++ (LStr h, v) :: after) st
     = AssetImport.columns_loop rt fm status_map (before ++ after) st)
  /\ (String.eqb t "" = false ->
      forall (val_str : string) (st : AssetImport.row_state),
        Executor.cell_text v = Some val_str ->
        AssetImport.column_step rt fm status_map (LStr h) v st
        = (AssetImport.assign rt status_map (Some t) (LStr h) v val_str st, Ok tt)).
Proof.
  intros Hm. split.
  - intros Ht. apply String.eqb_eq in Ht. subst t.
    intros before after. induction before as [|[k0 v0] before IH]; intros st.
    + cbn [app AssetImport.columns_loop].
      rewrite (column_step_ignored rt fm status_map h v st Hm). reflexivity.
    + cbn [app AssetImport.columns_loop].
      destruct (AssetImport.column_step rt fm status_map k0 v0 st) as [st' [u|e]];
        [apply IH | reflexivity].
  - intros Ht val_str st Hcell. apply column_step_explicit; assumption.
Qed.

(** C3 (witness): the column Name mapped to the empty string, in front of
    the column Serial. *)
Lemma explicit_mapping_in_the_column_loop_witness :
  AssetImport.columns_loop
    Scenario.rt
    (Executor.normalize_mapping (Executor.opt_mapping Scenario.ignore_name))
    Scenario.status_map0
    ([] ++ (LStr "Name", VStr "Laptop-1") :: [(LStr "Serial", VStr "SN-1")])
    (Scenario.db0, [], [])
  = AssetImport.columns_loop
      Scenario.rt
      (Executor.normalize_mapping (Executor.opt_mapping Scenario.ignore_name))
      Scenario.status_map0 ([] ++ [(LStr "Serial", VStr "SN-1")])
      (Scenario.db0, [], []).
Proof.
  exact (proj1 (explicit_mapping_in_the_column_loop
                  Scenario.rt
                  (Executor.normalize_mapping (Executor.opt_mapping Scenario.ignore_name))
                  Scenario.status_map0 "Name" (VStr "Laptop-1") "" eq_refl)
               eq_refl [] [(LStr "Serial", VStr "SN-1")] (Scenario.db0, [], [])).
Defined.

(** C3 (counterexample). The word ignore is no sentinel: a column mapped
    to it is stored in the extra-attributes bag.  And the column Name
    mapped to the empty string, the sentinel that the executor does know,
    still gives the asset its name, a static field. *)
Lemma mapped_columns_still_imported :
  (exists db' report asset,
      AssetImport.execute_import Scenario.UPLOAD_DIR
        (Scenario.csv_reader Scenario.four_headers) Scenario.disk Scenario.rt
        Scenario.db0 1%N "MERGE" Scenario.cost_to_ignore_word 7%N = (db', Ok report)
      /\ db_assets db' = [asset]
      /\ record_get (AssetImport.extra_of (a_fields asset)) (LStr "Cost")
         = Some (VInt 900))
  /\ (exists db' report asset,
         AssetImport.execute_import Scenario.UPLOAD_DIR
           (Scenario.csv_reader Scenario.named_table) Scenario.disk Scenario.rt
           Scenario.db0 1%N "MERGE" Scenario.ignore_name 7%N = (db', Ok report)
         /\ Executor.mapping_get (Executor.normalize_mapping
                                    (Executor.opt_mapping Scenario.ignore_name))
                                 (Executor.normalize_str "Name") = Some ""
         /\ db_assets db' = [asset]
         /\ Dict.get (a_fields asset) "name" = Some (FStr "Laptop-1")).
Proof.
  split.
  - do 3 eexists. split; [vm_compute; reflexivity|].
    split; reflexivity.
  - do 3 eexists. split; [vm_compute; reflexivity|].
    repeat split; reflexivity.
Qed.

(** The name fallback looks at the headers only: with the column Model
    explicitly mapped to location, its value becomes the location and, by
    the fallback, also the name. *)
Lemma name_fallback_disregards_the_mapping :
  exists db' report asset,
    AssetImport.execute_import Scenario.UPLOAD_DIR
      (Scenario.csv_reader Scenario.model_table) Scenario.disk Scenario.rt
      Scenario.db0 1%N "MERGE" Scenario.model_is_location 7%N = (db', Ok report)
    /\ db_assets db' = [asset]
    /\ Dict.get (a_fields asset) "location" = Some (FStr "XPS 15")
    /\ Dict.get (a_fields asset) "name" = Some (FStr "XPS 15").
Proof.
  do 3 eexists. split; [vm_compute; reflexivity|].
  repeat split; reflexivity.
Qed.

(* ------------------------------------------------------------------ *)
(** ** The EXISTING_SET strategy                                       *)
(* ------------------------------------------------------------------ *)

(** The asset executor checks the reference before any row: it either
    finds the set or raises a validation failure, and adds nothing. *)
Lemma asset_existing_set_is_validated
      (rt : Runtime) (db : DB) (options : Executor.Options) (user_id : uuid) :
  match AssetImport.strategy_setup rt db "EXISTING_SET" options user_id with
  | (db', Ok r) =>
      db' = db
      /\ exists s id a,
          Executor.opt_asset_set_id options = Some s
          /\ parse_uuid rt s = Some id /\ r = Some id
          /\ In a (db_asset_sets db) /\ set_id a = id
  | (db', Raise e) => db' = db /\ is_validation e = true
  end.
Proof.
  unfold AssetImport.strategy_setup. cbn [String.eqb Ascii.eqb Bool.eqb].
  cbv iota.
  destruct (Executor.opt_asset_set_id options) as [s|]; [|split; reflexivity].
  destruct (String.eqb s ""); [split; reflexivity|].
  destruct (parse_uuid rt s) as [id|] eqn:Hp; [|split; reflexivity].
  destruct (find _ (db_asset_sets db)) as [a|] eqn:Hf; [|split; reflexivity].
  split; [reflexivity|].
  apply find_some in Hf. destruct Hf as [Hin Heq].
  apply N.eqb_eq in Heq.
  exists s, id, a. auto.
Qed.


(* ------------------------------------------------------------------ *)
(** ** Row accounting                                                  *)
(* ------------------------------------------------------------------ *)

Section RowAccounting.

Variable St : Type.
Variable body : nat -> record -> St -> St * result unit.

Lemma outcomes_length (i : nat) (records : list record) (st : St) :
  List.length (outcomes body i records st) = List.length records.
Proof.
  revert i st. induction records as [|r rest IH]; intros i st; simpl.
  - reflexivity.
  - destruct (body i r st) as [st' o]. simpl. rewrite IH. reflexivity.
Qed.

Lemma count_ok_errors (i : nat) (os : list (result unit)) :
  (count_ok os + List.length (error_entries i os) = List.length os)%nat.
Proof.
  revert i. induction os as [|[u|e] os IH]; intros i; simpl.
  - reflexivity.
  - rewrite IH. reflexivity.
  - rewrite <- (IH (S i)). lia.
Qed.

(** The counters that the loop returns are the tally of the outcomes. *)
Lemma row_loop_tally (i : nat) (records : list record) (st : St)
      (imported_count : nat) (errors : list string) :
  let os := outcomes body i records st in
  snd (fst (Executor.row_loop St body i records st imported_count errors))
  = (imported_count + count_ok os)%nat
  /\ snd (Executor.row_loop St body i records st imported_count errors)
     = errors ++ error_entries i os.
Proof.
  revert i st imported_count errors.
  induction records as [|r rest IH]; intros i st imported_count errors; simpl.
  - rewrite Nat.add_0_r, app_nil_r. auto.
  - destruct (body i r st) as [st' [u|e]]; simpl.
    + destruct (IH (S i) st' (S imported_count) errors) as [H1 H2].
      rewrite H1, H2. split; [lia | reflexivity].
    + destruct (IH (S i) st' imported_count
                   (errors ++ [Executor.row_error i e])) as [H1 H2].
      rewrite H1, H2. rewrite <- app_assoc. auto.
Qed.

End RowAccounting.

Lemma wrap_fatal_ok {A : Type} (prefix : string) (r : DB * result A)
      (db' : DB) (a : A) :
  Executor.wrap_fatal prefix r = (db', Ok a) -> r = (db', Ok a).
Proof.
  destruct r as [db [x|e]]; simpl; [auto|].
  destruct (is_validation e); discriminate.
Qed.

Lemma get_job_ok (rt : Runtime) (db : DB) (id : uuid) (job : Job) :
  Executor.get_job rt db id = Ok job -> find_job db id = Some job.
Proof.
  unfold Executor.get_job. destruct (find_job db id); [congruence | discriminate].
Qed.

(** A report of the asset executor is the tally of its row loop. *)
Lemma execute_import_report
      (UPLOAD_DIR : Paths.path) (pd : Pandas) (fs : Paths.FileSystem)
      (rt : Runtime) (db db' : DB) (job_id : uuid) (strategy : string)
      (options : Executor.Options) (user_id : uuid) (report : Report) :
  AssetImport.execute_import UPLOAD_DIR pd fs rt db job_id strategy options user_id
  = (db', Ok report) ->
  exists job file_path p df db1 asset_set_id,
    find_job db job_id = Some job
    /\ pl_file_path (job_payload job) = Some file_path
    /\ Paths._read_file UPLOAD_DIR pd fs file_path = Ok (p, df)
    /\ AssetImport.strategy_setup rt db strategy options user_id
       = (db1, Ok asset_set_id)
    /\ rp_imported report
       = snd (fst (AssetImport.import_rows rt db1 options asset_set_id (to_records df)))
    /\ rp_errors report
       = snd (AssetImport.import_rows rt db1 options asset_set_id (to_records df))
    /\ db' = fst (fst (fst (AssetImport.import_rows rt db1 options asset_set_id
                                                     (to_records df)))).
Proof.
  unfold AssetImport.execute_import.
  destruct (Executor.get_job rt db job_id) as [job|e] eqn:Hjob; [|discriminate].
  apply get_job_ok in Hjob.
  destruct (pl_file_path (job_payload job)) as [file_path|] eqn:Hpath;
    [|discriminate].
  destruct (String.eqb file_path ""); [discriminate|].
  intros H. apply wrap_fatal_ok in H.
  destruct (Paths._read_file UPLOAD_DIR pd fs file_path) as [[p df]|e] eqn:Hread;
    [|discriminate].
  destruct (AssetImport.strategy_setup rt db strategy options user_id)
    as [db1 [asset_set_id|e]] eqn:Hsetup; [|discriminate].
  destruct (AssetImport.import_rows rt db1 options asset_set_id (to_records df))
    as [[st imported_count] errors] eqn:Hrows.
  injection H as <- <-.
  exists job, file_path, p, df, db1, asset_set_id.
  rewrite Hrows. repeat split; auto.
Qed.

(** A report of the user executor is the tally of its row loop. *)
Lemma execute_user_import_report
      (UPLOAD_DIR : Paths.path) (pd : Pandas) (fs : Paths.FileSystem)
      (rt : Runtime) (db db' : DB) (job_id : uuid) (strategy : string)
      (options : Executor.Options) (user_id : uuid) (report : Report) :
  UserImport.execute_user_import UPLOAD_DIR pd fs rt db job_id strategy options
                                 user_id = (db', Ok report) ->
  exists job file_path p df db1 asset_set_id,
    find_job db job_id = Some job
    /\ pl_file_path (job_payload job) = Some file_path
    /\ Paths._read_file UPLOAD_DIR pd fs file_path = Ok (p, df)
    /\ UserImport.strategy_setup rt db strategy options user_id
       = (db1, Ok asset_set_id)
    /\ rp_imported report
       = snd (fst (UserImport.import_rows db1 options asset_set_id (to_records df)))
    /\ rp_errors report
       = snd (UserImport.import_rows db1 options asset_set_id (to_records df))
    /\ db' = fst (fst (UserImport.import_rows db1 options asset_set_id
                                              (to_records df))).
Proof.
  unfold UserImport.execute_user_import.
  destruct (Executor.get_job rt db job_id) as [job|e] eqn:Hjob; [|discriminate].
  apply get_job_ok in Hjob.
  destruct (pl_file_path (job_payload job)) as [file_path|] eqn:Hpath;
    [|discriminate].
  destruct (String.eqb file_path ""); [discriminate|].
  intros H. apply wrap_fatal_ok in H.
  destruct (Paths._read_file UPLOAD_DIR pd fs file_path) as [[p df]|e] eqn:Hread;
    [|discriminate].
  destruct (UserImport.strategy_setup rt db strategy options user_id)
    as [db1 [asset_set_id|e]] eqn:Hsetup; [|discriminate].
  destruct (UserImport.import_rows db1 options asset_set_id (to_records df))
    as [[st imported_count] errors] eqn:Hrows.
  injection H as <- <-.
  exists job, file_path, p, df, db1, asset_set_id.
  rewrite Hrows. repeat split; auto.
Qed.

Lemma to_records_length (df : DataFrame) :
  List.length (to_records df) = List.length (df_rows df).
Proof. unfold to_records. apply length_map. Qed.

(** C1. Whenever the asset executor or the user executor returns its
    report, the rows of the file it read have one outcome each, in row
    order: a success, counted in [imported], or an exception, recorded as
    the entry "Row {index}: {message}" of [errors] with the index of that
    row; the rows after a failed row are processed all the same, and
    imported + len(errors) is the number of rows. *)
Theorem every_row_is_accounted_for
        (UPLOAD_DIR : Paths.path) (pd : Pandas) (fs : Paths.FileSystem)
        (rt : Runtime) (db db' : DB) (job_id : uuid) (strategy : string)
        (options : Executor.Options) (user_id : uuid) (type : string)
        (report : Report) :
  Driver.execute_logic UPLOAD_DIR pd fs rt db job_id strategy options user_id type
  = (db', Ok report) ->
  exists job file_path p df os,
    find_job db job_id = Some job
    /\ pl_file_path (job_payload job) = Some file_path
    /\ Paths._read_file UPLOAD_DIR pd fs file_path = Ok (p, df)
    /\ List.length os = List.length (df_rows df)
    /\ rp_imported report = count_ok os
    /\ rp_errors report = error_entries 0 os
    /\ (rp_imported report + List.length (rp_errors report)
        = List.length (df_rows df))%nat.
Proof.
  unfold Driver.execute_logic. destruct (String.eqb type "user"); intros H.
  - apply execute_user_import_report in H.
    destruct H as (job & file_path & p & df & db1 & sid & Hj & Hp & Hr & _ & Hi & He & _).
    unfold UserImport.import_rows in Hi, He.
    set (body := UserImport.user_row _ sid) in *.
    destruct (row_loop_tally DB body 0 (to_records df) db1 0 []) as [T1 T2].
    exists job, file_path, p, df, (outcomes body 0 (to_records df) db1).
    rewrite Hi, He, T1, T2. cbn [app Nat.add].
    repeat split; auto.
    + rewrite outcomes_length. apply to_records_length.
    + rewrite count_ok_errors, outcomes_length. apply to_records_length.
  - apply execute_import_report in H.
    destruct H as (job & file_path & p & df & db1 & sid & Hj & Hp & Hr & _ & Hi & He & _).
    unfold AssetImport.import_rows in Hi, He.
    set (body := AssetImport.asset_row rt _ _ sid) in *.
    set (st0 := (db1, Dict.comprehension _ ty_id (db_types db1))) in *.
    destruct (row_loop_tally _ body 0 (to_records df) st0 0 []) as [T1 T2].
    exists job, file_path, p, df, (outcomes body 0 (to_records df) st0).
    rewrite Hi, He, T1, T2. cbn [app Nat.add].
    repeat split; auto.
    + rewrite outcomes_length. apply to_records_length.
    + rewrite count_ok_errors, outcomes_length. apply to_records_length.
Qed.

(** C1 (witness): a user import of three rows, the second without an
    email. *)
Lemma every_row_is_accounted_for_witness :
  exists job file_path p df os,
    find_job Scenario.db0 1%N = Some job
    /\ pl_file_path (job_payload job) = Some file_path
    /\ Paths._read_file Scenario.UPLOAD_DIR
                        (Scenario.csv_reader Scenario.people_table)
                        Scenario.disk file_path = Ok (p, df)
    /\ List.length os = List.length (df_rows df)
    /\ 2%nat = count_ok os
    /\ ["Row 1: Email is required"] = error_entries 0 os
    /\ (2 + 1 = List.length (df_rows df))%nat.
Proof.
  exact (every_row_is_accounted_for
           Scenario.UPLOAD_DIR (Scenario.csv_reader Scenario.people_table)
           Scenario.disk Scenario.rt Scenario.db0 _ 1%N "GLOBAL"
           Scenario.no_options 7%N "user"
           (mkReport true 2 ["Row 1: Email is required"] None)
           ltac:(vm_compute; reflexivity)).
Defined.

(* ------------------------------------------------------------------ *)
(** ** Asset types created during a batch                              *)
(* ------------------------------------------------------------------ *)

(** The dispatch on the target asset_type_id: a known value reuses the id
    of the map, an unknown one creates the type and records it at once. *)
Lemma assign_asset_type
      (rt : Runtime) (status_map : Dict.dict uuid) (k : label) (v : value)
      (val_str : string) (db : DB) (tm : Dict.dict uuid) (ad : Dict.dict field) :
  AssetImport.assign rt status_map (Some "asset_type_id") k v val_str (db, tm, ad)
  = match Dict.get tm (PyStr.lower val_str) with
    | Some id => (db, tm, Dict.set ad "asset_type_id" (FUuid id))
    | None =>
        (set_types (snd (fresh db))
                   (db_types db ++ [mkAssetType (db_next db) val_str]),
         Dict.set tm (PyStr.lower val_str) (db_next db),
         Dict.set ad "asset_type_id" (FUuid (db_next db)))
    end.
Proof.
  unfold AssetImport.assign. cbn.
  destruct (Dict.get tm (PyStr.lower val_str)); reflexivity.
Qed.

Lemma target_is_eq (target : option string) (name : string) :
  Executor.target_is target name = true -> target = Some name.
Proof.
  destruct target as [t|]; simpl; [|discriminate].
  intros H. apply String.eqb_eq in H. congruence.
Qed.

(** Every other target leaves the session and the type map alone. *)
Lemma assign_other_target
      (rt : Runtime) (status_map : Dict.dict uuid) (target : option string)
      (k : label) (v : value) (val_str : string) (db : DB)
      (tm : Dict.dict uuid) (ad : Dict.dict field) :
  Executor.target_is target "asset_type_id" = false ->
  fst (AssetImport.assign rt status_map target k v val_str (db, tm, ad)) = (db, tm).
Proof.
  intros H. unfold AssetImport.assign. rewrite H.
  repeat match goal with
         | |- context [if ?b then _ else _] => destruct b
         | |- context [match ?x with Some _ => _ | None => _ end] => destruct x
         end; reflexivity.
Qed.

Lemma new_type_names_app (known a b : list string) :
  new_type_names known (a ++ b)
  = new_type_names known a ++ new_type_names (known_after known a) b.
Proof.
  revert known. induction a as [|v a IH]; intros known; simpl.
  - reflexivity.
  - destruct (PyStr.mem (PyStr.lower v) known); simpl; rewrite IH; reflexivity.
Qed.

Lemma known_after_app (known a b : list string) :
  known_after known (a ++ b) = known_after (known_after known a) b.
Proof.
  revert known. induction a as [|v a IH]; intros known; simpl.
  - reflexivity.
  - destruct (PyStr.mem (PyStr.lower v) known); apply IH.
Qed.

Lemma type_map_agrees_mono (db db' : DB) (tm : Dict.dict uuid) (known : list string) :
  (forall t, In t (db_types db) -> In t (db_types db')) ->
  type_map_agrees db tm known -> type_map_agrees db' tm known.
Proof.
  intros Hsub [H1 H2]. split; [exact H1|].
  intros k id Hget. destruct (H2 k id Hget) as [t [Hin Ht]].
  exists t. split; [apply Hsub; exact Hin | exact Ht].
Qed.

Lemma type_map_agrees_add (db db' : DB) (tm : Dict.dict uuid) (known : list string)
      (id : uuid) (name : string) :
  db_types db' = db_types db ++ [mkAssetType id name] ->
  type_map_agrees db tm known ->
  type_map_agrees db' (Dict.set tm (PyStr.lower name) id)
                  (PyStr.lower name :: known).
Proof.
  intros Htypes [H1 H2]. split.
  - intros k. rewrite dict_has_set, H1. unfold PyStr.mem. cbn [existsb].
    rewrite (String.eqb_sym k). reflexivity.
  - intros k id0 Hget. rewrite Htypes.
    destruct (String.eqb (PyStr.lower name) k) eqn:E.
    + apply String.eqb_eq in E. subst k.
      rewrite dict_get_set_same in Hget. injection Hget as <-.
      exists (mkAssetType id name). split; [|split; reflexivity].
      apply in_or_app. right. left. reflexivity.
    + rewrite dict_get_set_other in Hget by exact E.
      destruct (H2 k id0 Hget) as [t [Hin Ht]].
      exists t. split; [apply in_or_app; left; exact Hin | exact Ht].
Qed.

(** One column of a row whose label can be normalized: no exception, and
    a type is created exactly when the column contributes a type value
    that is unknown up to case. *)
Lemma column_step_types
      (rt : Runtime) (fm : Dict.dict (option string)) (status_map : Dict.dict uuid)
      (kv : label * value) (db : DB) (tm : Dict.dict uuid) (ad : Dict.dict field)
      (known : list string) :
  label_ok kv = true ->
  type_map_agrees db tm known ->
  exists db' tm' ad' news,
    AssetImport.column_step rt fm status_map (fst kv) (snd kv) (db, tm, ad)
    = ((db', tm', ad'), Ok tt)
    /\ db_types db' = db_types db ++ news
    /\ map ty_name news = new_type_names known (type_value_of fm kv)
    /\ type_map_agrees db' tm' (known_after known (type_value_of fm kv))
    /\ db_assets db' = db_assets db.
Proof.
  intros Hlabel Hagree.
  unfold label_ok in Hlabel. unfold AssetImport.column_step, type_value_of.
  destruct (Executor._normalize_header (fst kv)) as [k_norm|e]; [|discriminate].
  assert (Hstay : exists db' tm' ad' news,
             ((db, tm, ad), Ok tt) = ((db', tm', ad'), Ok (A := unit) tt)
             /\ db_types db' = db_types db ++ news
             /\ map ty_name news = new_type_names known []
             /\ type_map_agrees db' tm' (known_after known [])
             /\ db_assets db' = db_assets db).
  { exists db, tm, ad, []. rewrite app_nil_r. repeat split; auto; apply Hagree. }
  destruct (Executor.cell_text (snd kv)) as [val_str|]; [|exact Hstay].
  cbv zeta.
  destruct (Executor.target_is (Executor.mapping_get fm k_norm) "");
    [exact Hstay|].
  set (target := if Executor.target_falsy (Executor.mapping_get fm k_norm)
                 then AssetImport.default_target fm k_norm
                 else Executor.mapping_get fm k_norm).
  destruct (Executor.target_is target "asset_type_id") eqn:Htype.
  - apply target_is_eq in Htype. rewrite Htype, assign_asset_type.
    cbn [new_type_names known_after].
    destruct Hagree as [H1 H2].
    pose proof (H1 (PyStr.lower val_str)) as Hhas. unfold Dict.has in Hhas.
    destruct (Dict.get tm (PyStr.lower val_str)) as [id|] eqn:Hget.
    + rewrite <- Hhas.
      exists db, tm, (Dict.set ad "asset_type_id" (FUuid id)), [].
      rewrite app_nil_r. repeat split; auto.
    + rewrite <- Hhas.
      eexists _, _, _, [mkAssetType (db_next db) val_str].
      split; [reflexivity|]. split; [reflexivity|]. split; [reflexivity|].
      split; [|reflexivity].
      apply type_map_agrees_add with db; [reflexivity | split; assumption].
  - pose proof (assign_other_target rt status_map target (fst kv) (snd kv)
                                    val_str db tm ad Htype) as Hfst.
    destruct (AssetImport.assign rt status_map target (fst kv) (snd kv) val_str
                                 (db, tm, ad)) as [[db' tm'] ad'].
    cbn [fst] in Hfst. injection Hfst as -> ->.
    exists db, tm, ad', []. rewrite app_nil_r. repeat split; auto; apply Hagree.
Qed.

Lemma columns_loop_types
      (rt : Runtime) (fm : Dict.dict (option string)) (status_map : Dict.dict uuid)
      (items : record) (db : DB) (tm : Dict.dict uuid) (ad : Dict.dict field)
      (known : list string) :
  forallb label_ok items = true ->
  type_map_agrees db tm known ->
  exists db' tm' ad' news,
    AssetImport.columns_loop rt fm status_map items (db, tm, ad)
    = ((db', tm', ad'), Ok tt)
    /\ db_types db' = db_types db ++ news
    /\ map ty_name news = new_type_names known (row_type_values fm items)
    /\ type_map_agrees db' tm' (known_after known (row_type_values fm items))
    /\ db_assets db' = db_assets db.
Proof.
  revert db tm ad known.
  induction items as [|[k v] items IH]; intros db tm ad known Hlabels Hagree.
  - exists db, tm, ad, []. rewrite app_nil_r. repeat split; auto; apply Hagree.
  - cbn [forallb] in Hlabels. apply andb_prop in Hlabels.
    destruct Hlabels as [Hl Hls].
    destruct (column_step_types rt fm status_map (k, v) db tm ad known Hl Hagree)
      as (db1 & tm1 & ad1 & news1 & Hstep & Ht1 & Hn1 & Ha1 & Hs1).
    destruct (IH db1 tm1 ad1 _ Hls Ha1)
      as (db2 & tm2 & ad2 & news2 & Hloop & Ht2 & Hn2 & Ha2 & Hs2).
    exists db2, tm2, ad2, (news1 ++ news2).
    cbn [AssetImport.columns_loop]. cbn [fst snd] in Hstep. rewrite Hstep, Hloop.
    unfold row_type_values in *. cbn [flat_map].
    rewrite new_type_names_app, known_after_app, map_app, Hn1, Hn2, Ht2, Ht1, app_assoc.
    split; [reflexivity|]. split; [reflexivity|]. split; [reflexivity|].
    split; [exact Ha2 | congruence].
Qed.

Lemma mapped_name_ok (fm : Dict.dict (option string)) (items : record) :
  forallb label_ok items = true ->
  exists name_val, AssetImport.mapped_name fm items = Ok name_val.
Proof.
  induction items as [|[k v] items IH]; intros H; cbn [AssetImport.mapped_name].
  - eauto.
  - cbn [forallb] in H. apply andb_prop in H. destruct H as [Hl Hls].
    unfold label_ok in Hl. cbn [fst] in Hl.
    destruct (Executor._normalize_header k) as [k_norm|]; [|discriminate].
    destruct (Executor.target_is (Executor.mapping_get fm k_norm) "name"); eauto.
Qed.

Lemma fallback_name_ok (items : record) (name_val : value) :
  forallb label_ok items = true ->
  exists name_val', AssetImport.fallback_name items name_val = Ok name_val'.
Proof.
  induction items as [|[k v] items IH]; intros H; cbn [AssetImport.fallback_name].
  - eauto.
  - cbn [forallb] in H. apply andb_prop in H. destruct H as [Hl Hls].
    unfold label_ok in Hl. cbn [fst] in Hl.
    destruct (Executor._normalize_header k) as [k_norm|]; [|discriminate].
    destruct (PyStr.mem k_norm AssetImport.name_fallbacks); eauto.
Qed.

Lemma resolve_name_ok (fm : Dict.dict (option string)) (i : nat) (r : record) :
  forallb label_ok r = true ->
  exists name, AssetImport.resolve_name fm i r = Ok name.
Proof.
  intros H. unfold AssetImport.resolve_name.
  destruct (mapped_name_ok fm r H) as [nv ->].
  destruct (truthy nv).
  - eauto.
  - destruct (fallback_name_ok r nv H) as [nv' ->]. eauto.
Qed.

(** A row whose labels can be normalized imports: one asset is added, and
    the types its columns needed are created. *)
Lemma asset_row_types
      (rt : Runtime) (fm : Dict.dict (option string)) (status_map : Dict.dict uuid)
      (asset_set_id : option uuid) (i : nat) (r : record)
      (db : DB) (tm : Dict.dict uuid) (known : list string) :
  forallb label_ok r = true ->
  type_map_agrees db tm known ->
  exists db' tm' news asset,
    AssetImport.asset_row rt fm status_map asset_set_id i r (db, tm)
    = ((db', tm'), Ok tt)
    /\ db_types db' = db_types db ++ news
    /\ map ty_name news = new_type_names known (row_type_values fm r)
    /\ type_map_agrees db' tm' (known_after known (row_type_values fm r))
    /\ db_assets db' = db_assets db ++ [asset].
Proof.
  intros Hlabels Hagree. unfold AssetImport.asset_row.
  destruct (resolve_name_ok fm i r Hlabels) as [name ->].
  cbn [fst snd].
  match goal with
  | |- context [AssetImport.columns_loop rt fm status_map r (db, tm, ?ad0)] =>
      destruct (columns_loop_types rt fm status_map r db tm ad0 known Hlabels Hagree)
        as (db1 & tm1 & ad1 & news & Hloop & Ht & Hn & Ha & Hs)
  end.
  rewrite Hloop. cbn [fresh].
  eexists _, tm1, news, _. split; [reflexivity|].
  cbn [set_assets db_types db_assets].
  split; [exact Ht|]. split; [exact Hn|]. split.
  - apply type_map_agrees_mono with db1; [auto | exact Ha].
  - rewrite Hs. reflexivity.
Qed.

Lemma row_loop_types
      (rt : Runtime) (fm : Dict.dict (option string)) (status_map : Dict.dict uuid)
      (asset_set_id : option uuid) (records : list record) (i : nat)
      (db : DB) (tm : Dict.dict uuid) (known : list string)
      (imported_count : nat) (errors : list string) :
  labels_ok records = true ->
  type_map_agrees db tm known ->
  exists db' tm' news assets,
    Executor.row_loop (DB * Dict.dict uuid)
                      (AssetImport.asset_row rt fm status_map asset_set_id)
                      i records (db, tm) imported_count errors
    = ((db', tm'), (imported_count + List.length records)%nat, errors)
    /\ db_types db' = db_types db ++ news
    /\ map ty_name news = new_type_names known (batch_type_values fm records)
    /\ type_map_agrees db' tm' (known_after known (batch_type_values fm records))
    /\ db_assets db' = db_assets db ++ assets
    /\ List.length assets = List.length records.
Proof.
  revert i db tm known imported_count.
  induction records as [|r rest IH]; intros i db tm known imported_count Hl Hagree.
  - exists db, tm, [], []. cbn. rewrite Nat.add_0_r, !app_nil_r.
    repeat split; auto; apply Hagree.
  - unfold labels_ok in Hl. cbn [forallb] in Hl. apply andb_prop in Hl.
    destruct Hl as [Hr Hrest].
    destruct (asset_row_types rt fm status_map asset_set_id i r db tm known Hr Hagree)
      as (db1 & tm1 & news1 & asset & Hrow & Ht1 & Hn1 & Ha1 & Hs1).
    destruct (IH (S i) db1 tm1 _ (S imported_count) Hrest Ha1)
      as (db2 & tm2 & news2 & assets & Hloop & Ht2 & Hn2 & Ha2 & Hs2 & Hlen).
    exists db2, tm2, (news1 ++ news2), (asset :: assets).
    cbn [Executor.row_loop]. rewrite Hrow, Hloop.
    unfold batch_type_values in *. cbn [flat_map].
    rewrite new_type_names_app, known_after_app, map_app, Hn1, Hn2, Ht2, Ht1,
      Hs2, Hs1, <- !app_assoc.
    cbn [List.length app]. rewrite Hlen.
    split; [f_equal; f_equal; lia|].
    split; [reflexivity|]. split; [reflexivity|]. split; [exact Ha2|].
    split; reflexivity.
Qed.

Lemma mem_In (s : string) (l : list string) : PyStr.mem s l = true <-> In s l.
Proof.
  unfold PyStr.mem. rewrite existsb_exists. split.
  - intros [x [Hin Heq]]. apply String.eqb_eq in Heq. subst. exact Hin.
  - intros H. exists s. split; [exact H | apply String.eqb_refl].
Qed.

Lemma mem_map {A : Type} (key : A -> string) (xs : list A) (k : string) :
  PyStr.mem k (map key xs) = existsb (fun x => String.eqb (key x) k) xs.
Proof.
  unfold PyStr.mem. induction xs as [|x xs IH]; simpl.
  - reflexivity.
  - rewrite IH, (String.eqb_sym k). reflexivity.
Qed.

Lemma dict_get_fold_set {A V : Type} (key : A -> string) (val : A -> V)
      (xs : list A) (d : Dict.dict V) (k : string) (v : V) :
  Dict.get (fold_left (fun d x => Dict.set d (key x) (val x)) xs d) k = Some v ->
  (exists x, In x xs /\ key x = k /\ val x = v) \/ Dict.get d k = Some v.
Proof.
  revert d. induction xs as [|x xs IH]; intros d; simpl.
  - auto.
  - intros H. destruct (IH _ H) as [[y [Hin Hy]] | Hd].
    + left. exists y. auto.
    + destruct (String.eqb (key x) k) eqn:E.
      * apply String.eqb_eq in E. subst k.
        rewrite dict_get_set_same in Hd. injection Hd as <-.
        left. exists x. auto.
      * rewrite dict_get_set_other in Hd by exact E. auto.
Qed.

(** The map that [execute_import] reads from the session agrees with the
    stored types. *)
Lemma initial_type_map_agrees (db : DB) :
  type_map_agrees db
    (Dict.comprehension (fun t => PyStr.lower (ty_name t)) ty_id (db_types db))
    (map (fun t => PyStr.lower (ty_name t)) (db_types db)).
Proof.
  split.
  - intros k. rewrite dict_has_comprehension, mem_map. reflexivity.
  - intros k id H. unfold Dict.comprehension in H.
    apply dict_get_fold_set in H. destruct H as [[t [Hin [Hk Hid]]] | H].
    + exists t. auto.
    + discriminate.
Qed.

Lemma new_type_names_spec (vals known : list string) :
  NoDup (map PyStr.lower (new_type_names known vals))
  /\ forall n, In n (new_type_names known vals) ->
               In n vals /\ ~ In (PyStr.lower n) known.
Proof.
  revert known. induction vals as [|v vals IH]; intros known; simpl.
  - split; [constructor | intros n []].
  - destruct (PyStr.mem (PyStr.lower v) known) eqn:E.
    + destruct (IH known) as [H1 H2]. split; [exact H1|].
      intros n Hn. destruct (H2 n Hn). auto.
    + destruct (IH (PyStr.lower v :: known)) as [H1 H2]. split.
      * simpl. constructor; [|exact H1].
        intros Hin. apply in_map_iff in Hin. destruct Hin as [n [Heq Hn]].
        destruct (H2 n Hn) as [_ Hnot]. apply Hnot. left. symmetry. exact Heq.
      * intros n [<- | Hn].
        -- split; [left; reflexivity|].
           intros Hin. apply mem_In in Hin. congruence.
        -- destruct (H2 n Hn) as [Hv Hnot]. split; [right; exact Hv|].
           intros Hin. apply Hnot. right. exact Hin.
Qed.

Lemma known_after_keeps (vals known : list string) (k : string) :
  In k known -> In k (known_after known vals).
Proof.
  revert known. induction vals as [|v vals IH]; intros known H; simpl.
  - exact H.
  - destruct (PyStr.mem (PyStr.lower v) known); apply IH; [|right]; exact H.
Qed.

Lemma known_after_covers (vals known : list string) (v : string) :
  In v vals -> In (PyStr.lower v) (known_after known vals).
Proof.
  revert known. induction vals as [|x vals IH]; intros known; simpl.
  - intros [].
  - intros [-> | H].
    + destruct (PyStr.mem (PyStr.lower v) known) eqn:E.
      * apply known_after_keeps. apply mem_In. exact E.
      * apply known_after_keeps. left. reflexivity.
    + destruct (PyStr.mem (PyStr.lower x) known); apply IH; exact H.
Qed.

(** C7. In a batch whose column labels can all be normalized, every row
    imports, with no error, and the asset types added by the batch are
    exactly one per type value that matches no stored type up to case:
    their lowercased names are pairwise distinct, each is the name of a
    type value of the batch that no stored type matched, and at the end
    every type value of the batch has, under its lowercased name, an entry
    of the in-memory type map that carries the id of a stored type of that
    name, so that a later row with the same value reuses it. *)
Theorem unknown_types_are_created_once
        (rt : Runtime) (db : DB) (options : Executor.Options)
        (asset_set_id : option uuid) (records : list record) :
  labels_ok records = true ->
  let fm := Executor.normalize_mapping (Executor.opt_mapping options) in
  let vals := batch_type_values fm records in
  let known := map (fun t => PyStr.lower (ty_name t)) (db_types db) in
  exists db' type_map' news,
    AssetImport.import_rows rt db options asset_set_id records
    = ((db', type_map'), List.length records, [])
    /\ db_types db' = db_types db ++ news
    /\ NoDup (map (fun t => PyStr.lower (ty_name t)) news)
    /\ (forall t, In t news ->
                  In (ty_name t) vals /\ ~ In (PyStr.lower (ty_name t)) known)
    /\ (forall v, In v vals ->
                  exists t, In t (db_types db')
                            /\ PyStr.lower (ty_name t) = PyStr.lower v
                            /\ Dict.get type_map' (PyStr.lower v) = Some (ty_id t))
    /\ List.length (db_assets db')
       = (List.length (db_assets db) + List.length records)%nat.
Proof.
  intros Hlabels fm vals known.
  unfold AssetImport.import_rows. fold fm.
  destruct (row_loop_types rt fm
              (Dict.comprehension (fun s => PyStr.lower (st_name s)) st_id
                                  (db_statuses db))
              asset_set_id records 0 db _ known 0 [] Hlabels
              (initial_type_map_agrees db))
    as (db' & tm' & news & assets & Hloop & Ht & Hn & Ha & Hs & Hlen).
  fold vals in Hn, Ha.
  exists db', tm', news. rewrite Hloop. cbn [Nat.add].
  destruct (new_type_names_spec vals known) as [Hnodup Hnew].
  split; [reflexivity|]. split; [exact Ht|]. split; [|split; [|split]].
  - rewrite <- Hn in Hnodup. rewrite map_map in Hnodup. exact Hnodup.
  - intros t Hin. apply Hnew. rewrite <- Hn. apply in_map. exact Hin.
  - intros v Hv. destruct Ha as [H1 H2].
    pose proof (known_after_covers vals known v Hv) as Hk.
    apply mem_In in Hk. rewrite <- H1 in Hk.
    destruct (dict_has_true _ _ Hk) as [id Hid].
    destruct (H2 _ _ Hid) as [t [Hin [Hidt Hname]]].
    exists t. subst id. auto.
  - rewrite Hs, length_app, Hlen. reflexivity.
Qed.

(** C7 (witness): four rows with the type values Monitor, MONITOR, laptop
    and Dock, the type Laptop being stored. *)
Lemma unknown_types_are_created_once_witness :
  exists db' type_map' news,
    AssetImport.import_rows Scenario.rt Scenario.db0 Scenario.no_options None
                            (to_records Scenario.typed_table)
    = ((db', type_map'), 4%nat, [])
    /\ db_types db' = db_types Scenario.db0 ++ news
    /\ List.length news = 2%nat.
Proof.
  destruct (unknown_types_are_created_once
              Scenario.rt Scenario.db0 Scenario.no_options None
              (to_records Scenario.typed_table) eq_refl)
    as (db' & tm' & news & Hrows & Htypes & _).
  exists db', tm', news. split; [exact Hrows|]. split; [exact Htypes|].
  assert (Hc : AssetImport.import_rows Scenario.rt Scenario.db0 Scenario.no_options
                 None (to_records Scenario.typed_table)
               = ((db', tm'), 4%nat, [])) by exact Hrows.
  vm_compute in Hc. injection Hc as Hdb _. subst db'.
  cbn [db_types] in Htypes.
  change (db_types Scenario.db0) with [mkAssetType 30%N "Laptop"] in Htypes.
  injection Htypes as <-. reflexivity.
Defined.

(* ------------------------------------------------------------------ *)
(** ** The job lifecycle under the driver                              *)
(* ------------------------------------------------------------------ *)

Lemma row_loop_invariant (St : Type) (body : nat -> record -> St -> St * result unit)
      (P : St -> Prop) :
  (forall i r st, P st -> P (fst (body i r st))) ->
  forall records i st imported_count errors,
    P st ->
    P (fst (fst (Executor.row_loop St body i records st imported_count errors))).
Proof.
  intros Hbody records.
  induction records as [|r rest IH]; intros i st imported_count errors Hst; simpl.
  - exact Hst.
  - pose proof (Hbody i r st Hst) as Hnext.
    destruct (body i r st) as [st' [u|e]]; apply IH; exact Hnext.
Qed.

Lemma assign_jobs
      (rt : Runtime) (status_map : Dict.dict uuid) (target : option string)
      (k : label) (v : value) (val_str : string) (db : DB)
      (tm : Dict.dict uuid) (ad : Dict.dict field) :
  db_jobs (fst (fst (AssetImport.assign rt status_map target k v val_str (db, tm, ad))))
  = db_jobs db.
Proof.
  destruct (Executor.target_is target "asset_type_id") eqn:E.
  - apply target_is_eq in E. rewrite E, assign_asset_type.
    destruct (Dict.get tm (PyStr.lower val_str)); reflexivity.
  - rewrite (assign_other_target rt status_map target k v val_str db tm ad E).
    reflexivity.
Qed.

Lemma column_step_jobs
      (rt : Runtime) (fm : Dict.dict (option string)) (status_map : Dict.dict uuid)
      (k : label) (v : value) (st : AssetImport.row_state) :
  db_jobs (fst (fst (fst (AssetImport.column_step rt fm status_map k v st))))
  = db_jobs (fst (fst st)).
Proof.
  unfold AssetImport.column_step.
  destruct (Executor._normalize_header k) as [k_norm|]; [|reflexivity].
  destruct (Executor.cell_text v) as [val_str|]; [|reflexivity].
  destruct (Executor.target_is _ ""); [reflexivity|].
  destruct st as [[db tm] ad]. cbn [fst]. apply assign_jobs.
Qed.

Lemma columns_loop_jobs
      (rt : Runtime) (fm : Dict.dict (option string)) (status_map : Dict.dict uuid)
      (items : record) (st : AssetImport.row_state) :
  db_jobs (fst (fst (fst (AssetImport.columns_loop rt fm status_map items st))))
  = db_jobs (fst (fst st)).
Proof.
  revert st. induction items as [|[k v] items IH]; intros st; simpl.
  - reflexivity.
  - pose proof (column_step_jobs rt fm status_map k v st) as Hstep.
    destruct (AssetImport.column_step rt fm status_map k v st) as [st' [u|e]].
    + rewrite IH. exact Hstep.
    + exact Hstep.
Qed.

Lemma asset_row_jobs
      (rt : Runtime) (fm : Dict.dict (option string)) (status_map : Dict.dict uuid)
      (asset_set_id : option uuid) (i : nat) (r : record)
      (st : DB * Dict.dict uuid) :
  db_jobs (fst (fst (AssetImport.asset_row rt fm status_map asset_set_id i r st)))
  = db_jobs (fst st).
Proof.
  unfold AssetImport.asset_row.
  destruct (AssetImport.resolve_name fm i r); [|reflexivity].
  match goal with
  | |- context [AssetImport.columns_loop rt fm status_map r ?st0] =>
      pose proof (columns_loop_jobs rt fm status_map r st0) as Hloop;
      destruct (AssetImport.columns_loop rt fm status_map r st0)
        as [[[db tm] ad] [u|e]]
  end; exact Hloop.
Qed.

Lemma user_row_jobs
      (fm : Dict.dict (option string)) (asset_set_id : option set_ref)
      (i : nat) (r : record) (db : DB) :
  db_jobs (fst (UserImport.user_row fm asset_set_id i r db)) = db_jobs db.
Proof.
  unfold UserImport.user_row.
  destruct (UserImport.columns_loop fm r _) as [l|]; [|reflexivity].
  destruct (UserImport.email l); [|reflexivity].
  destruct (find _ (db_users db)); reflexivity.
Qed.

Lemma fold_left_jobs {A : Type} (f : DB -> A -> DB) (xs : list A) (db : DB) :
  (forall d x, db_jobs (f d x) = db_jobs d) ->
  db_jobs (fold_left f xs db) = db_jobs db.
Proof.
  intros Hf. revert db. induction xs as [|x xs IH]; intros db; simpl.
  - reflexivity.
  - rewrite IH. apply Hf.
Qed.

Lemma asset_strategy_jobs
      (rt : Runtime) (db : DB) (strategy : string) (options : Executor.Options)
      (user_id : uuid) :
  db_jobs (fst (AssetImport.strategy_setup rt db strategy options user_id))
  = db_jobs db.
Proof.
  unfold AssetImport.strategy_setup.
  destruct (String.eqb strategy "NEW_SET").
  - cbn [fresh fst]. rewrite fold_left_jobs; [reflexivity|].
    intros d x. reflexivity.
  - destruct (String.eqb strategy "EXISTING_SET").
    + destruct (Executor.opt_asset_set_id options) as [s|]; [|reflexivity].
      destruct (String.eqb s ""); [reflexivity|].
      destruct (parse_uuid rt s); [|reflexivity].
      destruct (find _ (db_asset_sets db)); reflexivity.
    + destruct (String.eqb strategy "MERGE"); [|reflexivity].
      destruct (Executor.opt_create_missing_fields options); [|reflexivity].
      cbn [fst]. rewrite fold_left_jobs; [reflexivity|].
      intros d x. destruct (existsb _ (db_custom_fields d)); reflexivity.
Qed.

Lemma user_strategy_jobs
      (rt : Runtime) (db : DB) (strategy : string) (options : Executor.Options)
      (user_id : uuid) :
  db_jobs (fst (UserImport.strategy_setup rt db strategy options user_id))
  = db_jobs db.
Proof.
  unfold UserImport.strategy_setup.
  destruct (String.eqb strategy "NEW_SET"); [reflexivity|].
  destruct (String.eqb strategy "EXISTING_SET"); [|reflexivity].
  destruct (Executor.opt_asset_set_id options) as [s|]; [|reflexivity].
  destruct (String.eqb s ""); reflexivity.
Qed.

Lemma wrap_fatal_fst {A : Type} (prefix : string) (r : DB * result A) :
  fst (Executor.wrap_fatal prefix r) = fst r.
Proof.
  destruct r as [db [a|e]]; simpl; [reflexivity|].
  destruct (is_validation e); reflexivity.
Qed.

(** Neither executor touches the job table. *)
Lemma execute_logic_jobs
      (UPLOAD_DIR : Paths.path) (pd : Pandas) (fs : Paths.FileSystem)
      (rt : Runtime) (db : DB) (job_id : uuid) (strategy : string)
      (options : Executor.Options) (user_id : uuid) (type : string) :
  db_jobs (fst (Driver.execute_logic UPLOAD_DIR pd fs rt db job_id strategy
                                     options user_id type))
  = db_jobs db.
Proof.
  unfold Driver.execute_logic. destruct (String.eqb type "user").
  - unfold UserImport.execute_user_import.
    destruct (Executor.get_job rt db job_id) as [job|]; [|reflexivity].
    destruct (pl_file_path (job_payload job)) as [file_path|]; [|reflexivity].
    destruct (String.eqb file_path ""); [reflexivity|].
    rewrite wrap_fatal_fst.
    destruct (Paths._read_file UPLOAD_DIR pd fs file_path) as [[p df]|];
      [|reflexivity].
    pose proof (user_strategy_jobs rt db strategy options user_id) as Hs.
    destruct (UserImport.strategy_setup rt db strategy options user_id)
      as [db1 [sid|e]]; [|exact Hs].
    unfold UserImport.import_rows.
    pose proof (row_loop_invariant DB
                  (UserImport.user_row
                     (Executor.normalize_mapping (Executor.opt_mapping options)) sid)
                  (fun d => db_jobs d = db_jobs db)) as Hinv.
    specialize (Hinv (fun i r st H => eq_trans (user_row_jobs _ _ i r st) H)
                     (to_records df) 0%nat db1 0%nat [] Hs).
    destruct (Executor.row_loop _ _ _ _ _ _ _) as [[db2 imp] errs].
    exact Hinv.
  - unfold AssetImport.execute_import.
    destruct (Executor.get_job rt db job_id) as [job|]; [|reflexivity].
    destruct (pl_file_path (job_payload job)) as [file_path|]; [|reflexivity].
    destruct (String.eqb file_path ""); [reflexivity|].
    rewrite wrap_fatal_fst.
    destruct (Paths._read_file UPLOAD_DIR pd fs file_path) as [[p df]|];
      [|reflexivity].
    pose proof (asset_strategy_jobs rt db strategy options user_id) as Hs.
    destruct (AssetImport.strategy_setup rt db strategy options user_id)
      as [db1 [sid|e]]; [|exact Hs].
    unfold AssetImport.import_rows.
    match goal with
    | |- context [Executor.row_loop ?St ?body 0 ?recs ?st0 0 []] =>
        pose proof (row_loop_invariant St body
                      (fun st => db_jobs (fst st) = db_jobs db)
                      (fun i r st H => eq_trans (asset_row_jobs _ _ _ _ i r st) H)
                      recs 0%nat st0 0%nat [] Hs) as Hinv;
        destruct (Executor.row_loop St body 0 recs st0 0 []) as [[st imp] errs]
    end.
    exact Hinv.
Qed.

Lemma find_job_update (db : DB) (id : uuid) (f : Job -> Job) (job : Job) :
  (forall j, job_id (f j) = job_id j) ->
  find_job db id = Some job ->
  find_job (update_job db id f) id = Some (f job).
Proof.
  intros Hid. unfold find_job, update_job. cbn [db_jobs set_jobs].
  induction (db_jobs db) as [|j jobs IH]; simpl; [discriminate|].
  destruct (N.eqb (job_id j) id) eqn:E.
  - intros H. injection H as <-. simpl. rewrite Hid, E. reflexivity.
  - simpl. rewrite E. exact IH.
Qed.

(** The transitions that the driver makes for a job it finds: running,
    then completed with the report of the executor, or failed with the
    message of the exception.  The driver itself returns normally in every
    case: it is a total function of the session. *)
Lemma job_driver_transitions
      (UPLOAD_DIR : Paths.path) (pd : Pandas) (fs : Paths.FileSystem)
      (rt : Runtime) (db : DB) (job_id : uuid) (strategy : string)
      (options : Executor.Options) (user_id : uuid) (type : string) (job : Job) :
  find_job db job_id = Some job ->
  let db1 := Driver.touch_job db job_id (Driver.set_status running) in
  let db' := Driver.execute_import_background_wrapper
               UPLOAD_DIR pd fs rt db job_id strategy options user_id type in
  (exists j, find_job db1 job_id = Some j /\ job_status j = running)
  /\ match snd (Driver.execute_logic UPLOAD_DIR pd fs rt db1 job_id strategy
                                     options user_id type) with
     | Ok report =>
         exists j, find_job db' job_id = Some j
                   /\ job_status j = completed /\ job_result j = Some report
     | Raise e =>
         exists j, find_job db' job_id = Some j
                   /\ job_status j = failed /\ job_error j = Some (str_exn e)
     end.
Proof.
  intros Hjob db1 db'.
  assert (H1 : find_job db1 job_id = Some (Driver.set_status running job)).
  { unfold db1, Driver.touch_job. rewrite Hjob.
    apply find_job_update; [reflexivity | exact Hjob]. }
  split; [eexists; split; [exact H1 | reflexivity]|].
  unfold db', Driver.execute_import_background_wrapper. fold db1.
  pose proof (execute_logic_jobs UPLOAD_DIR pd fs rt db1 job_id strategy options
                                 user_id type) as Hjobs.
  destruct (Driver.execute_logic UPLOAD_DIR pd fs rt db1 job_id strategy options
                                 user_id type) as [db2 [report|e]];
    cbn [fst snd] in *.
  - assert (H2 : find_job db2 job_id = Some (Driver.set_status running job))
      by (unfold find_job in *; rewrite Hjobs; exact H1).
    unfold Driver.touch_job. rewrite H2.
    eexists. split; [apply find_job_update; [reflexivity | exact H2]|].
    split; reflexivity.
  - assert (H2 : find_job db2 job_id = Some (Driver.set_status running job))
      by (unfold find_job in *; rewrite Hjobs; exact H1).
    unfold Driver.touch_job. rewrite H2.
    eexists. split; [apply find_job_update; [reflexivity | exact H2]|].
    split; reflexivity.
Qed.

(* ------------------------------------------------------------------ *)
(** ** The matcher terminates within its fuel                          *)
(* ------------------------------------------------------------------ *)

Lemma common_prefix_len_le (a b : list ascii) :
  (Difflib.common_prefix_len a b <= List.length a)%nat.
Proof.
  revert b. induction a as [|x a IH]; intros [|y b]; simpl; try lia.
  destruct (Ascii.eqb x y); [|lia]. specialize (IH b). lia.
Qed.

Lemma scan_b_within (ai b : list ascii) (i j L : nat) (best : nat * nat * nat) :
  (i + List.length ai <= L)%nat ->
  block_within L best ->
  block_within L (Difflib.scan_b ai b i j best).
Proof.
  intros Hi. revert j best. induction b as [|y b IH]; intros j best Hbest.
  - exact Hbest.
  - cbn [Difflib.scan_b]. apply IH.
    destruct (snd best <? Difflib.common_prefix_len ai (y :: b))%nat; [|exact Hbest].
    right. cbn [fst snd].
    pose proof (common_prefix_len_le ai (y :: b)). lia.
Qed.

Lemma scan_a_within (a b : list ascii) (i L : nat) (best : nat * nat * nat) :
  (i + List.length a <= L)%nat ->
  block_within L best ->
  block_within L (Difflib.scan_a a b i best).
Proof.
  revert i best. induction a as [|x a IH]; intros i best Hi Hbest.
  - exact Hbest.
  - cbn [Difflib.scan_a]. apply IH.
    + cbn [List.length] in Hi. lia.
    + apply scan_b_within; assumption.
Qed.

Lemma find_longest_match_within (a b : list ascii) :
  block_within (List.length a) (Difflib.find_longest_match a b).
Proof.
  unfold Difflib.find_longest_match. apply scan_a_within.
  - lia.
  - left. reflexivity.
Qed.

(** Any fuel above the length of the first sequence gives the same count:
    the recursion of [matching] never runs out of the fuel that [ratio]
    supplies. *)
Lemma matching_fuel (f1 f2 : nat) (a b : list ascii) :
  (List.length a < f1)%nat -> (List.length a < f2)%nat ->
  Difflib.matching f1 a b = Difflib.matching f2 a b.
Proof.
  revert f2 a b. induction f1 as [|f1 IH]; intros f2 a b H1 H2; [lia|].
  destruct f2 as [|f2]; [lia|].
  cbn [Difflib.matching].
  pose proof (find_longest_match_within a b) as Hw.
  destruct (Difflib.find_longest_match a b) as [[i j] k].
  destruct (Nat.eqb_spec k 0); [reflexivity|].
  destruct Hw as [Hw | Hw]; cbn [fst snd] in Hw; [contradiction|].
  f_equal; [f_equal|].
  - destruct ((0 <? i)%nat && (0 <? j)%nat); [|reflexivity].
    apply IH; rewrite length_firstn; lia.
  - destruct ((i + k <? List.length a)%nat && (j + k <? List.length b)%nat);
      [|reflexivity].
    apply IH; rewrite length_skipn; lia.
Qed.

(* ------------------------------------------------------------------ *)
(** ** The limit that the configuration route reports                  *)
(* ------------------------------------------------------------------ *)

(** X1. The configuration route and the upload agree: the extensions it
    lists are the ones [_validate_ext] accepts, it reports no limit
    exactly for an administrator, whose uploads are capped at 10 GB, and
    for anyone else the megabytes it reports, times 1024 * 1024, are the
    byte limit of [create_import_job]. *)
Theorem config_route_reports_the_enforced_limit
        (rt : Runtime) (db : DB) (user : User) :
  let cfg := Router.get_import_config rt db user in
  Router.allowed_extensions cfg = Upload.ALLOWED_EXTS
  /\ match Router.max_upload_mb cfg with
     | None =>
         has_role user "admin" = true
         /\ Upload.max_upload_bytes rt db user = Upload.ADMIN_MAX_UPLOAD_BYTES
     | Some mb =>
         has_role user "admin" = false
         /\ Upload.max_upload_bytes rt db user = Z.to_N (mb * 1024 * 1024)
     end.
Proof.
  unfold Router.get_import_config, Upload.max_upload_bytes, Router.int_of_json.
  cbn [Router.allowed_extensions Router.max_upload_mb].
  split; [reflexivity|].
  destruct (has_role user "admin"); [split; reflexivity|].
  destruct (find_setting db "import_max_upload_mb") as [v|]; [|split; reflexivity].
  destruct (Upload.json_truthy v); [|split; reflexivity].
  destruct v as [z|str|b].
  - split; reflexivity.
  - destruct (parse_int rt str); split; reflexivity.
  - split; reflexivity.
Qed.

(* ------------------------------------------------------------------ *)
(** ** Classification of the headers by the two analyzers              *)
(* ------------------------------------------------------------------ *)

Lemma classify_partition
      (custom_fields : Dict.dict CustomFieldDefinition) (headers : list label)
      (mapped : list Analyzer.MappedField * list label)
      (m0 : list Analyzer.MappedField) (n0 : list label) :
  Analyzer.classify custom_fields headers m0 n0 = Ok mapped ->
  exists ms ns,
    mapped = (m0 ++ ms, n0 ++ ns)
    /\ Permutation (map Analyzer.mf_header ms ++ ns) headers
    /\ (forall m, In m ms ->
                  Analyzer.header_key (Analyzer.mf_header m) = Ok (Analyzer.mf_key m)
                  /\ match Analyzer.mf_target m with
                     | Analyzer.static =>
                         PyStr.mem (Analyzer.mf_key m) Analyzer.static_fields = true
                     | Analyzer.custom =>
                         PyStr.mem (Analyzer.mf_key m) Analyzer.static_fields = false
                         /\ Dict.has custom_fields (Analyzer.mf_key m) = true
                     end)
    /\ (forall h, In h ns ->
                  exists key, Analyzer.header_key h = Ok key
                              /\ PyStr.mem key Analyzer.static_fields = false
                              /\ Dict.has custom_fields key = false).
Proof.
  revert m0 n0.
  induction headers as [|h rest IH]; intros m0 n0; cbn [Analyzer.classify].
  - intros H. injection H as <-. exists [], []. rewrite !app_nil_r.
    split; [reflexivity|]. split; [constructor|]. split; intros ? [].
  - destruct (Analyzer.header_key h) as [key|e] eqn:Hkey; [|discriminate].
    destruct (PyStr.mem key Analyzer.static_fields) eqn:Hs;
      [|destruct (Dict.has custom_fields key) eqn:Hc]; intros H;
      destruct (IH _ _ H) as (ms & ns & -> & Hperm & Hm & Hn).
    + exists (Analyzer.mkMapped h Analyzer.static key :: ms), ns.
      rewrite <- app_assoc. split; [reflexivity|].
      split; [cbn; constructor; exact Hperm|].
      split; [|exact Hn].
      intros m [<- | Hin]; [cbn; auto | apply Hm; exact Hin].
    + exists (Analyzer.mkMapped h Analyzer.custom key :: ms), ns.
      rewrite <- app_assoc. split; [reflexivity|].
      split; [cbn; constructor; exact Hperm|].
      split; [|exact Hn].
      intros m [<- | Hin]; [cbn; auto | apply Hm; exact Hin].
    + exists ms, (h :: ns).
      rewrite <- app_assoc. split; [reflexivity|].
      split; [apply Permutation_sym, Permutation_cons_app, Permutation_sym, Hperm|].
      split; [exact Hm|].
      intros h' [<- | Hin]; [exists key; auto | apply Hn; exact Hin].
Qed.


Lemma analyze_file_ok
      (UPLOAD_DIR : Paths.path) (pd : Pandas) (fs : Paths.FileSystem)
      (rt : Runtime) (db : DB) (file_path : string) (report : Analyzer.Analysis) :
  Analyzer.analyze_file UPLOAD_DIR pd fs rt db file_path = Ok report ->
  exists p df matches,
    Paths._read_file UPLOAD_DIR pd fs file_path = Ok (p, df)
    /\ Analyzer.classify
         (Dict.comprehension cf_key (fun f => f)
            (filter (fun f => match cf_asset_set_id f with
                              | None => true | Some _ => false end)
                    (db_custom_fields db)))
         (df_columns df) [] []
       = Ok (Analyzer.an_mapped_fields report, Analyzer.an_new_fields report)
    /\ Analyzer.user_matching rt db df = Ok matches
    /\ report = Analyzer.mkAnalysis (df_columns df)
                                    (Analyzer.an_mapped_fields report)
                                    (Analyzer.an_new_fields report)
                                    matches (List.length (df_rows df)).
Proof.
  unfold Analyzer.analyze_file.
  destruct (Paths._read_file UPLOAD_DIR pd fs file_path) as [[p df]|e];
    [|discriminate].
  destruct (Analyzer.classify _ (df_columns df) [] []) as [[mapped new]|e] eqn:Hc.
  - destruct (Analyzer.user_matching rt db df) as [matches|e] eqn:Hu.
    + intros H. injection H as <-. exists p, df, matches.
      repeat split; auto.
    + destruct (is_validation e); discriminate.
  - destruct (is_validation e); discriminate.
Qed.

(** X2. In a report of [analyze_file] every header of the file is listed
    exactly once, among the mapped fields or among the new fields.  A
    field mapped as static has its key (the header lowercased, trimmed,
    spaces turned into underscores) in the static field set; a field
    mapped as custom has a key outside that set which is the key of a
    global custom field definition; and the key of a new field is neither
    static nor the key of a global custom field definition. *)
Theorem analysis_lists_every_header_once
        (UPLOAD_DIR : Paths.path) (pd : Pandas) (fs : Paths.FileSystem)
        (rt : Runtime) (db : DB) (file_path : string) (report : Analyzer.Analysis) :
  Analyzer.analyze_file UPLOAD_DIR pd fs rt db file_path = Ok report ->
  Permutation (map Analyzer.mf_header (Analyzer.an_mapped_fields report)
               ++ Analyzer.an_new_fields report)
              (Analyzer.an_headers report)
  /\ (forall m, In m (Analyzer.an_mapped_fields report) ->
        Analyzer.header_key (Analyzer.mf_header m) = Ok (Analyzer.mf_key m)
        /\ match Analyzer.mf_target m with
           | Analyzer.static =>
               PyStr.mem (Analyzer.mf_key m) Analyzer.static_fields = true
           | Analyzer.custom =>
               PyStr.mem (Analyzer.mf_key m) Analyzer.static_fields = false
               /\ exists f, In f (db_custom_fields db)
                            /\ cf_asset_set_id f = None
                            /\ cf_key f = Analyzer.mf_key m
           end)
  /\ (forall h, In h (Analyzer.an_new_fields report) ->
        exists key, Analyzer.header_key h = Ok key
                    /\ PyStr.mem key Analyzer.static_fields = false
                    /\ no_global_field db key).
Proof.
  intros H. apply analyze_file_ok in H.
  destruct H as (p & df & matches & _ & Hc & _ & Hr).
  apply classify_partition in Hc.
  destruct Hc as (ms & ns & Heq & Hperm & Hm & Hn).
  cbn [app] in Heq. injection Heq as Hms Hns.
  rewrite Hr. cbn [Analyzer.an_headers]. rewrite Hms, Hns.
  split; [exact Hperm|]. split.
  - intros m Hin. destruct (Hm m Hin) as [Hk Ht]. split; [exact Hk|].
    destruct (Analyzer.mf_target m); [exact Ht|].
    destruct Ht as [Hs Hhas]. split; [exact Hs|].
    rewrite dict_has_comprehension in Hhas.
    apply existsb_exists in Hhas. destruct Hhas as [f [Hf Heq]].
    apply filter_In in Hf. destruct Hf as [Hf Hglob].
    apply String.eqb_eq in Heq.
    exists f. repeat split; auto.
    destruct (cf_asset_set_id f); [discriminate | reflexivity].
  - intros h Hin. destruct (Hn h Hin) as (key & Hk & Hs & Hhas).
    exists key. repeat split; auto.
    intros f Hf Hglob Heq.
    rewrite dict_has_comprehension in Hhas.
    assert (Hex : existsb (fun x => String.eqb (cf_key x) key)
                          (filter (fun f => match cf_asset_set_id f with
                                            | None => true | Some _ => false end)
                                  (db_custom_fields db)) = true).
    { apply existsb_exists. exists f. split.
      - apply filter_In. split; [exact Hf|]. rewrite Hglob. reflexivity.
      - apply String.eqb_eq. exact Heq. }
    congruence.
Qed.

(** X2 (witness): the file with the headers Name, Serial Tag, State and
    Cost. *)
Lemma analysis_lists_every_header_once_witness :
  Permutation
    (map Analyzer.mf_header [Analyzer.mkMapped (LStr "Name") Analyzer.static "name"]
     ++ [LStr "Serial Tag"; LStr "State"; LStr "Cost"])
    [LStr "Name"; LStr "Serial Tag"; LStr "State"; LStr "Cost"].
Proof.
  exact (proj1 (analysis_lists_every_header_once
                  Scenario.UPLOAD_DIR (Scenario.csv_reader Scenario.four_headers)
                  Scenario.disk Scenario.rt Scenario.db0 "/srv/uploads/rows.csv"
                  (Analyzer.mkAnalysis
                     [LStr "Name"; LStr "Serial Tag"; LStr "State"; LStr "Cost"]
                     [Analyzer.mkMapped (LStr "Name") Analyzer.static "name"]
                     [LStr "Serial Tag"; LStr "State"; LStr "Cost"] [] 1)
                  eq_refl)).
Defined.



(* ------------------------------------------------------------------ *)
(** ** Failures of the reader and of the executors before the rows     *)
(* ------------------------------------------------------------------ *)

Lemma validate_safe_path_raises
      (UPLOAD_DIR : Paths.path) (fs : Paths.FileSystem) (file_path : string)
      (e : exn) :
  Paths._validate_safe_path UPLOAD_DIR fs file_path = Raise e ->
  is_validation e = true.
Proof.
  unfold Paths._validate_safe_path, Paths.validation. cbv zeta.
  destruct (String.eqb file_path ""); [intros H; injection H as <-; reflexivity|].
  destruct (PyStr.contains "://" file_path);
    [intros H; injection H as <-; reflexivity|].
  destruct (negb (PyStr.startswith _ _));
    [intros H; injection H as <-; reflexivity|].
  destruct (negb (Paths.is_file fs _));
    [intros H; injection H as <-; reflexivity | discriminate].
Qed.

Lemma prefix_append (a t : string) : PyStr.startswith a (a ++ t) = true.
Proof.
  unfold PyStr.startswith. induction a as [|c a IH]; simpl.
  - destruct t; reflexivity.
  - destruct (ascii_dec c c); [exact IH | contradiction].
Qed.

Lemma read_file_raises
      (UPLOAD_DIR : Paths.path) (pd : Pandas) (fs : Paths.FileSystem)
      (file_path : string) (e : exn) :
  Paths._read_file UPLOAD_DIR pd fs file_path = Raise e ->
  exn_cls e = ValidationException.
Proof.
  unfold Paths._read_file.
  destruct (Paths._validate_safe_path UPLOAD_DIR fs file_path) as [p|e1] eqn:Hv.
  - cbv zeta. unfold Paths.validation.
    repeat match goal with
           | |- context [if ?b then _ else _] => destruct b
           | |- context [match ?r ?x with PdFrame _ => _ | _ => _ end] =>
               destruct (r x)
           end; intros H; try discriminate; injection H as <-; reflexivity.
  - intros H. injection H as <-.
    apply validate_safe_path_raises in Hv. unfold is_validation in Hv.
    destruct (exn_cls e1); try discriminate; reflexivity.
Qed.

(** X4. Whatever goes wrong in [_read_file] (an empty path, a URL, a path
    refused or not found, an unsupported extension, a parser error or any
    other error of pandas) reaches the caller as a ValidationException;
    and [analyze_file] raises a ValidationException or an AppException
    whose message starts with "Failed to analyze file: ". *)
Theorem reader_failures_are_validation_failures
        (UPLOAD_DIR : Paths.path) (pd : Pandas) (fs : Paths.FileSystem)
        (rt : Runtime) (db : DB) (file_path : string) (e : exn) :
  (Paths._read_file UPLOAD_DIR pd fs file_path = Raise e ->
   exn_cls e = ValidationException)
  /\ (Analyzer.analyze_file UPLOAD_DIR pd fs rt db file_path = Raise e ->
      exn_cls e = ValidationException
      \/ (exn_cls e = AppException
          /\ PyStr.startswith "Failed to analyze file: " (exn_msg e) = true)).
Proof.
  split; [apply read_file_raises|].
  unfold Analyzer.analyze_file.
  destruct (Paths._read_file UPLOAD_DIR pd fs file_path) as [[p df]|e1] eqn:Hr.
  - cbv zeta.
    match goal with
    | |- (match ?body with Ok _ => _ | Raise _ => _ end) = _ -> _ =>
        destruct body as [r|e1]
    end; [discriminate|].
    unfold is_validation.
    destruct (exn_cls e1) eqn:Hcls; intros H; injection H as <-;
      [right | right | left; exact Hcls | right];
      (split; [reflexivity
              | exact (prefix_append "Failed to analyze file: " (str_exn e1))]).
  - intros H. injection H as <-. left. eapply read_file_raises. exact Hr.
Qed.

(** X4 (witness): a path in the upload directory that names no file. *)
Lemma reader_failures_are_validation_failures_witness :
  exn_cls (mkExn ValidationException "File not found: /srv/uploads/none.txt")
  = ValidationException.
Proof.
  exact (proj1 (reader_failures_are_validation_failures
                  Scenario.UPLOAD_DIR (Scenario.csv_reader Scenario.named_table)
                  Scenario.disk Scenario.rt Scenario.db0
                  "/srv/uploads/none.txt"
                  (mkExn ValidationException "File not found: /srv/uploads/none.txt"))
               eq_refl).
Defined.

(** X5. For a job id that is not stored, either executor raises
    ResourceNotFound with the message "Job with id {id} not found" and
    leaves the session as it was, and the background wrapper leaves the
    session as it was. *)
Theorem unknown_job_changes_nothing
        (UPLOAD_DIR : Paths.path) (pd : Pandas) (fs : Paths.FileSystem)
        (rt : Runtime) (db : DB) (job_id : uuid) (strategy : string)
        (options : Executor.Options) (user_id : uuid) (type : string) :
  find_job db job_id = None ->
  Driver.execute_logic UPLOAD_DIR pd fs rt db job_id strategy options user_id type
  = (db, Raise (mkExn ResourceNotFound
                      ("Job with id " ++ str_uuid rt job_id ++ " not found")))
  /\ Driver.execute_import_background_wrapper UPLOAD_DIR pd fs rt db job_id
                                              strategy options user_id type
     = db.
Proof.
  intros Hjob.
  assert (H : Driver.execute_logic UPLOAD_DIR pd fs rt db job_id strategy options
                                   user_id type
              = (db, Raise (mkExn ResourceNotFound
                                  ("Job with id " ++ str_uuid rt job_id
                                   ++ " not found")))).
  { unfold Driver.execute_logic, UserImport.execute_user_import,
      AssetImport.execute_import, Executor.get_job.
    rewrite Hjob. destruct (String.eqb type "user"); reflexivity. }
  split; [exact H|].
  unfold Driver.execute_import_background_wrapper, Driver.touch_job.
  rewrite Hjob, H. cbn. rewrite Hjob. reflexivity.
Qed.

(** X5 (witness): the job id 99 in a session that holds only job 1. *)
Lemma unknown_job_changes_nothing_witness :
  Driver.execute_import_background_wrapper
    Scenario.UPLOAD_DIR (Scenario.csv_reader Scenario.named_table) Scenario.disk
    Scenario.rt Scenario.db0 99%N "MERGE" Scenario.no_options 7%N "asset"
  = Scenario.db0.
Proof.
  exact (proj2 (unknown_job_changes_nothing
                  Scenario.UPLOAD_DIR (Scenario.csv_reader Scenario.named_table)
                  Scenario.disk Scenario.rt Scenario.db0 99%N "MERGE"
                  Scenario.no_options 7%N "asset" eq_refl)).
Defined.

(** X6. When the payload of the job has no file path, or the file cannot
    be read, either executor raises a ValidationException before any
    strategy is applied: the session is left as it was, so that not even a
    NEW_SET run has created its set. *)
Theorem unreadable_file_changes_nothing
        (UPLOAD_DIR : Paths.path) (pd : Pandas) (fs : Paths.FileSystem)
        (rt : Runtime) (db : DB) (job_id : uuid) (strategy : string)
        (options : Executor.Options) (user_id : uuid) (type : string)
        (job : Job) :
  find_job db job_id = Some job ->
  match pl_file_path (job_payload job) with
  | None => True
  | Some file_path =>
      file_path = ""
      \/ exists e, Paths._read_file UPLOAD_DIR pd fs file_path = Raise e
  end ->
  exists e,
    Driver.execute_logic UPLOAD_DIR pd fs rt db job_id strategy options user_id type
    = (db, Raise e)
    /\ exn_cls e = ValidationException.
Proof.
  intros Hjob Hfail.
  unfold Driver.execute_logic, UserImport.execute_user_import,
    AssetImport.execute_import, Executor.get_job.
  rewrite Hjob.
  destruct (pl_file_path (job_payload job)) as [file_path|].
  - destruct (String.eqb file_path "") eqn:Hempty.
    + eexists. destruct (String.eqb type "user"); split; reflexivity.
    + destruct Hfail as [-> | [e He]]; [discriminate|].
      rewrite He.
      pose proof (read_file_raises UPLOAD_DIR pd fs file_path e He) as Hcls.
      exists e. unfold Executor.wrap_fatal, is_validation. rewrite Hcls.
      destruct (String.eqb type "user"); split; auto.
  - eexists. destruct (String.eqb type "user"); split; reflexivity.
Qed.

(** X6 (witness): a NEW_SET run for the stored job on a disk where the
    uploaded file is gone. *)
Lemma unreadable_file_changes_nothing_witness :
  exists e,
    Driver.execute_logic Scenario.UPLOAD_DIR (Scenario.csv_reader Scenario.named_table)
                         (Paths.mkFS ["srv"] []) Scenario.rt Scenario.db0 1%N
                         "NEW_SET" Scenario.no_options 7%N "asset"
    = (Scenario.db0, Raise e)
    /\ exn_cls e = ValidationException.
Proof.
  exact (unreadable_file_changes_nothing
           Scenario.UPLOAD_DIR (Scenario.csv_reader Scenario.named_table)
           (Paths.mkFS ["srv"] []) Scenario.rt Scenario.db0 1%N "NEW_SET"
           Scenario.no_options 7%N "asset" Scenario.uploaded_job eq_refl
           (or_intror (ex_intro _ _ eq_refl))).
Defined.



(* ------------------------------------------------------------------ *)
(** ** What the executors leave alone                                  *)
(* ------------------------------------------------------------------ *)

Lemma extends_refl {A : Type} (l : list A) : extends l l.
Proof. exists []. symmetry. apply app_nil_r. Qed.

Lemma extends_trans {A : Type} (l1 l2 l3 : list A) :
  extends l1 l2 -> extends l2 l3 -> extends l1 l3.
Proof.
  intros [m1 ->] [m2 ->]. exists (m1 ++ m2). symmetry. apply app_assoc.
Qed.

Lemma extends_snoc {A : Type} (l : list A) (x : A) : extends l (l ++ [x]).
Proof. exists [x]. reflexivity. Qed.

Create HintDb frame.

#[local] Hint Resolve extends_refl extends_snoc : frame.

Lemma asset_frame_refl (db : DB) : asset_import_frame db db.
Proof. constructor; auto with frame. Qed.

Lemma asset_frame_trans (db1 db2 db3 : DB) :
  asset_import_frame db1 db2 -> asset_import_frame db2 db3 ->
  asset_import_frame db1 db3.
Proof.
  intros [] []. constructor; try congruence; eapply extends_trans; eassumption.
Qed.

Lemma rows_frame_refl (db : DB) : rows_frame db db.
Proof. constructor; auto with frame. Qed.

Lemma rows_frame_trans (db1 db2 db3 : DB) :
  rows_frame db1 db2 -> rows_frame db2 db3 -> rows_frame db1 db3.
Proof.
  intros [] []. constructor; try congruence; eapply extends_trans; eassumption.
Qed.

Lemma rows_frame_weaken (db db' : DB) :
  rows_frame db db' -> asset_import_frame db db'.
Proof.
  intros []. constructor; try assumption;
    match goal with
    | H : ?x = ?y |- extends ?y ?x => rewrite H; apply extends_refl
    end.
Qed.

Lemma rows_frame_assign
      (rt : Runtime) (status_map : Dict.dict uuid) (target : option string)
      (k : label) (v : value) (val_str : string) (db : DB)
      (tm : Dict.dict uuid) (ad : Dict.dict field) :
  rows_frame
    db (fst (fst (AssetImport.assign rt status_map target k v val_str (db, tm, ad)))).
Proof.
  destruct (Executor.target_is target "asset_type_id") eqn:E.
  - apply target_is_eq in E. rewrite E, assign_asset_type.
    destruct (Dict.get tm (PyStr.lower val_str)); cbn [fst].
    + apply rows_frame_refl.
    + constructor; cbn; auto with frame.
  - rewrite (assign_other_target rt status_map target k v val_str db tm ad E).
    apply rows_frame_refl.
Qed.

Lemma rows_frame_column_step
      (rt : Runtime) (fm : Dict.dict (option string)) (status_map : Dict.dict uuid)
      (k : label) (v : value) (st : AssetImport.row_state) :
  rows_frame
    (fst (fst st))
    (fst (fst (fst (AssetImport.column_step rt fm status_map k v st)))).
Proof.
  unfold AssetImport.column_step.
  destruct (Executor._normalize_header k) as [k_norm|]; [|apply rows_frame_refl].
  destruct (Executor.cell_text v) as [val_str|]; [|apply rows_frame_refl].
  destruct (Executor.target_is _ ""); [apply rows_frame_refl|].
  destruct st as [[db tm] ad]. cbn [fst]. apply rows_frame_assign.
Qed.

Lemma rows_frame_columns_loop
      (rt : Runtime) (fm : Dict.dict (option string)) (status_map : Dict.dict uuid)
      (items : record) (st : AssetImport.row_state) :
  rows_frame
    (fst (fst st))
    (fst (fst (fst (AssetImport.columns_loop rt fm status_map items st)))).
Proof.
  revert st. induction items as [|[k v] items IH]; intros st; simpl.
  - apply rows_frame_refl.
  - pose proof (rows_frame_column_step rt fm status_map k v st) as Hstep.
    destruct (AssetImport.column_step rt fm status_map k v st) as [st' [u|e]].
    + eapply rows_frame_trans; [exact Hstep | apply IH].
    + exact Hstep.
Qed.

Lemma rows_frame_row
      (rt : Runtime) (fm : Dict.dict (option string)) (status_map : Dict.dict uuid)
      (asset_set_id : option uuid) (i : nat) (r : record)
      (st : DB * Dict.dict uuid) :
  rows_frame
    (fst st)
    (fst (fst (AssetImport.asset_row rt fm status_map asset_set_id i r st))).
Proof.
  unfold AssetImport.asset_row.
  destruct (AssetImport.resolve_name fm i r); [|apply rows_frame_refl].
  match goal with
  | |- context [AssetImport.columns_loop rt fm status_map r ?st0] =>
      pose proof (rows_frame_columns_loop rt fm status_map r st0) as Hloop;
      destruct (AssetImport.columns_loop rt fm status_map r st0)
        as [[[db tm] ad] [u|e]]
  end; cbn [fst] in *; [|exact Hloop].
  eapply rows_frame_trans; [exact Hloop|].
  constructor; cbn; auto with frame.
Qed.

(** The rows of an asset file, all together. *)
Lemma rows_frame_import_rows
      (rt : Runtime) (db : DB) (options : Executor.Options)
      (asset_set_id : option uuid) (records : list record) :
  rows_frame
    db (fst (fst (fst (AssetImport.import_rows rt db options asset_set_id records)))).
Proof.
  unfold AssetImport.import_rows.
  match goal with
  | |- context [Executor.row_loop ?St ?body 0 ?recs ?st0 0 []] =>
      exact (row_loop_invariant St body
               (fun st => rows_frame db (fst st))
               (fun i r st H =>
                  rows_frame_trans _ _ _ H (rows_frame_row _ _ _ _ i r st))
               recs 0%nat st0 0%nat [] (rows_frame_refl db))
  end.
Qed.

Lemma asset_frame_columns_loop
      (rt : Runtime) (fm : Dict.dict (option string)) (status_map : Dict.dict uuid)
      (items : record) (st : AssetImport.row_state) :
  asset_import_frame
    (fst (fst st))
    (fst (fst (fst (AssetImport.columns_loop rt fm status_map items st)))).
Proof. apply rows_frame_weaken, rows_frame_columns_loop. Qed.

Lemma asset_frame_add_custom_field (db : DB) (field_name : string)
      (asset_set_id : option uuid) :
  asset_import_frame db (AssetImport.add_custom_field db field_name asset_set_id).
Proof. constructor; cbn; auto with frame. Qed.

Lemma asset_frame_fold {A : Type} (f : DB -> A -> DB) (xs : list A) (db : DB) :
  (forall d x, asset_import_frame d (f d x)) ->
  asset_import_frame db (fold_left f xs db).
Proof.
  intros Hf. revert db. induction xs as [|x xs IH]; intros db; simpl.
  - apply asset_frame_refl.
  - eapply asset_frame_trans; [apply Hf | apply IH].
Qed.

Lemma asset_frame_setup
      (rt : Runtime) (db : DB) (strategy : string) (options : Executor.Options)
      (user_id : uuid) :
  asset_import_frame
    db (fst (AssetImport.strategy_setup rt db strategy options user_id)).
Proof.
  unfold AssetImport.strategy_setup.
  destruct (String.eqb strategy "NEW_SET").
  - cbn [fresh fst].
    eapply asset_frame_trans;
      [|apply asset_frame_fold; intros d x; apply asset_frame_add_custom_field].
    constructor; cbn; auto with frame.
  - destruct (String.eqb strategy "EXISTING_SET").
    + destruct (Executor.opt_asset_set_id options) as [s|]; [|apply asset_frame_refl].
      destruct (String.eqb s ""); [apply asset_frame_refl|].
      destruct (parse_uuid rt s); [|apply asset_frame_refl].
      destruct (find _ (db_asset_sets db)); apply asset_frame_refl.
    + destruct (String.eqb strategy "MERGE"); [|apply asset_frame_refl].
      destruct (Executor.opt_create_missing_fields options); [|apply asset_frame_refl].
      cbn [fst]. apply asset_frame_fold. intros d x.
      destruct (existsb _ (db_custom_fields d));
        [apply asset_frame_refl | apply asset_frame_add_custom_field].
Qed.

(** X8. Whatever the file, the strategy and the options, and whether it
    returns a report or raises, the asset executor leaves the jobs, the
    users, the statuses, the roles and the settings as they were, and the
    asset sets, field definitions, types and assets that were stored are
    still there, in the same order, before the rows it added. *)
Theorem asset_import_only_adds
        (UPLOAD_DIR : Paths.path) (pd : Pandas) (fs : Paths.FileSystem)
        (rt : Runtime) (db : DB) (job_id : uuid) (strategy : string)
        (options : Executor.Options) (user_id : uuid) :
  asset_import_frame
    db (fst (AssetImport.execute_import UPLOAD_DIR pd fs rt db job_id strategy
                                        options user_id)).
Proof.
  unfold AssetImport.execute_import.
  destruct (Executor.get_job rt db job_id) as [job|]; [|apply asset_frame_refl].
  destruct (pl_file_path (job_payload job)) as [file_path|]; [|apply asset_frame_refl].
  destruct (String.eqb file_path ""); [apply asset_frame_refl|].
  rewrite wrap_fatal_fst.
  destruct (Paths._read_file UPLOAD_DIR pd fs file_path) as [[p df]|];
    [|apply asset_frame_refl].
  pose proof (asset_frame_setup rt db strategy options user_id) as Hs.
  destruct (AssetImport.strategy_setup rt db strategy options user_id)
    as [db1 [sid|e]]; [|exact Hs].
  pose proof (rows_frame_import_rows rt db1 options sid (to_records df)) as Hrows.
  destruct (AssetImport.import_rows rt db1 options sid (to_records df))
    as [[st imp] errs].
  eapply asset_frame_trans; [exact Hs | apply rows_frame_weaken; exact Hrows].
Qed.

Lemma user_frame_refl (db : DB) : user_import_frame db db.
Proof. constructor; auto with frame. Qed.

Lemma user_frame_trans (db1 db2 db3 : DB) :
  user_import_frame db1 db2 -> user_import_frame db2 db3 ->
  user_import_frame db1 db3.
Proof.
  intros [] []. constructor; try congruence; eapply extends_trans; eassumption.
Qed.

Lemma map_id_replace (users : list User) (id : uuid) (updated : User) :
  u_id updated = id ->
  map u_id (map (fun u => if N.eqb (u_id u) id then updated else u) users)
  = map u_id users.
Proof.
  intros Hid. rewrite map_map. apply map_ext. intros u.
  destruct (N.eqb (u_id u) id) eqn:E; [|reflexivity].
  apply N.eqb_eq in E. congruence.
Qed.

Lemma user_frame_row
      (fm : Dict.dict (option string)) (asset_set_id : option set_ref)
      (i : nat) (r : record) (db : DB) :
  user_import_frame db (fst (UserImport.user_row fm asset_set_id i r db)).
Proof.
  unfold UserImport.user_row.
  destruct (UserImport.columns_loop fm r _) as [l|]; [|apply user_frame_refl].
  destruct (UserImport.email l); [|apply user_frame_refl].
  destruct (find _ (db_users db)) as [eu|].
  - constructor; cbn; auto with frame.
    rewrite map_id_replace by reflexivity. apply extends_refl.
  - constructor; cbn; auto with frame.
    rewrite map_app. eexists. reflexivity.
Qed.

Lemma user_frame_setup
      (rt : Runtime) (db : DB) (strategy : string) (options : Executor.Options)
      (user_id : uuid) :
  user_import_frame
    db (fst (UserImport.strategy_setup rt db strategy options user_id)).
Proof.
  unfold UserImport.strategy_setup.
  destruct (String.eqb strategy "NEW_SET").
  - constructor; cbn; auto with frame.
  - destruct (String.eqb strategy "EXISTING_SET"); [|apply user_frame_refl].
    destruct (Executor.opt_asset_set_id options) as [s|]; [|apply user_frame_refl].
    destruct (String.eqb s ""); apply user_frame_refl.
Qed.

(** X9. Whatever the file, the strategy and the options, and whether it
    returns a report or raises, the user executor leaves the jobs, the
    assets, the types, the statuses, the field definitions, the roles and
    the settings as they were; it removes no asset set and no user: the
    keys of the users that were stored are still there, in the same order,
    before the keys of the users it added. *)
Theorem user_import_only_touches_users_and_sets
        (UPLOAD_DIR : Paths.path) (pd : Pandas) (fs : Paths.FileSystem)
        (rt : Runtime) (db : DB) (job_id : uuid) (strategy : string)
        (options : Executor.Options) (user_id : uuid) :
  user_import_frame
    db (fst (UserImport.execute_user_import UPLOAD_DIR pd fs rt db job_id strategy
                                            options user_id)).
Proof.
  unfold UserImport.execute_user_import.
  destruct (Executor.get_job rt db job_id) as [job|]; [|apply user_frame_refl].
  destruct (pl_file_path (job_payload job)) as [file_path|]; [|apply user_frame_refl].
  destruct (String.eqb file_path ""); [apply user_frame_refl|].
  rewrite wrap_fatal_fst.
  destruct (Paths._read_file UPLOAD_DIR pd fs file_path) as [[p df]|];
    [|apply user_frame_refl].
  pose proof (user_frame_setup rt db strategy options user_id) as Hs.
  destruct (UserImport.strategy_setup rt db strategy options user_id)
    as [db1 [sid|e]]; [|exact Hs].
  unfold UserImport.import_rows.
  pose proof (row_loop_invariant DB
                (UserImport.user_row
                   (Executor.normalize_mapping (Executor.opt_mapping options)) sid)
                (fun d => user_import_frame db d)
                (fun i r st H =>
                   user_frame_trans _ _ _ H (user_frame_row _ _ i r st))
                (to_records df) 0%nat db1 0%nat [] Hs) as Hinv.
  destruct (Executor.row_loop _ _ _ _ _ _ _) as [[db2 imp] errs].
  exact Hinv.
Qed.

(* ------------------------------------------------------------------ *)
(** ** Accounts under the user executor                                *)
(* ------------------------------------------------------------------ *)

Lemma NoDup_snoc {A : Type} (l : list A) (x : A) :
  NoDup l -> ~ In x l -> NoDup (l ++ [x]).
Proof.
  induction l as [|a l IH]; intros Hl Hx; simpl.
  - constructor; [intros [] | constructor].
  - inversion Hl as [|a' l' Ha Hl']; subst. constructor.
    + intros Hin. apply in_app_or in Hin. destruct Hin as [Hin | [-> | []]].
      * exact (Ha Hin).
      * apply Hx. left. reflexivity.
    + apply IH; [exact Hl' | intros Hin; apply Hx; right; exact Hin].
Qed.

Lemma NoDup_map_inj {A B : Type} (f : A -> B) (l : list A) (a b : A) :
  NoDup (map f l) -> In a l -> In b l -> f a = f b -> a = b.
Proof.
  induction l as [|x l IH]; intros Hl Ha Hb Hf; [destruct Ha|].
  simpl in Hl. inversion Hl as [|y l' Hx Hl']; subst.
  destruct Ha as [-> | Ha], Hb as [-> | Hb].
  - reflexivity.
  - exfalso. apply Hx. rewrite Hf. apply in_map. exact Hb.
  - exfalso. apply Hx. rewrite <- Hf. apply in_map. exact Ha.
  - apply IH; assumption.
Qed.

Lemma ids_of_accounts (l : list User) :
  map u_id l = map (fun a => fst (fst a)) (map account l).
Proof. rewrite map_map. reflexivity. Qed.

Lemma emails_of_accounts (l : list User) :
  map u_email l = map (fun a => snd (fst a)) (map account l).
Proof. rewrite map_map. reflexivity. Qed.

(** Rewriting the user found by its address, under its own key, leaves
    every account as it was. *)
Lemma accounts_replace (users : list User) (eu updated : User) :
  NoDup (map u_id users) ->
  In eu users ->
  account updated = account eu ->
  map account (map (fun u => if N.eqb (u_id u) (u_id eu) then updated else u) users)
  = map account users.
Proof.
  intros Hnd Hin Hacc. rewrite map_map. apply map_ext_in. intros u Hu.
  destruct (N.eqb (u_id u) (u_id eu)) eqn:E; [|reflexivity].
  apply N.eqb_eq in E.
  rewrite (NoDup_map_inj u_id users u eu Hnd Hu Hin E). exact Hacc.
Qed.

Lemma users_keyed_same (d d' : DB) :
  map account (db_users d') = map account (db_users d) ->
  (db_next d <= db_next d')%N ->
  accounts_distinct d -> accounts_distinct d'.
Proof.
  intros Hacc Hnext [[Hnd Hlt] Hem]. unfold accounts_distinct, users_keyed.
  rewrite (ids_of_accounts (db_users d')), (emails_of_accounts (db_users d')), Hacc,
    <- ids_of_accounts, <- emails_of_accounts.
  split; [split|]; [exact Hnd | | exact Hem].
  eapply Forall_impl; [|exact Hlt]. cbn beta. intros id H. lia.
Qed.

(** One row of a user file keeps the accounts distinct and touches none
    of the accounts that it found. *)
Lemma user_row_accounts
      (fm : Dict.dict (option string)) (asset_set_id : option set_ref)
      (i : nat) (r : record) (db : DB) :
  accounts_distinct db ->
  accounts_distinct (fst (UserImport.user_row fm asset_set_id i r db))
  /\ extends (map account (db_users db))
             (map account (db_users (fst (UserImport.user_row fm asset_set_id i r db)))).
Proof.
  intros Hd. unfold UserImport.user_row.
  destruct (UserImport.columns_loop fm r _) as [l|];
    [|split; [exact Hd | apply extends_refl]].
  destruct (UserImport.email l) as [em|];
    [|split; [exact Hd | apply extends_refl]].
  destruct (find _ (db_users db)) as [eu|] eqn:Hfind; cbn [fst].
  - apply find_some in Hfind. destruct Hfind as [Hin _].
    match goal with
    | |- context [set_users db (map ?g (db_users db))] =>
        assert (Hacc : map account (db_users (set_users db (map g (db_users db))))
                       = map account (db_users db))
    end.
    { cbn [db_users set_users]. apply accounts_replace;
        [apply Hd | exact Hin | reflexivity]. }
    split.
    + apply users_keyed_same with db; [exact Hacc | cbn; lia | exact Hd].
    + rewrite Hacc. apply extends_refl.
  - destruct Hd as [[Hnd Hlt] Hem]. split.
    + unfold accounts_distinct, users_keyed. cbn. rewrite !map_app. cbn [map u_id u_email].
      split; [split|].
      * apply NoDup_snoc; [exact Hnd|]. intros Hin.
        rewrite Forall_forall in Hlt. specialize (Hlt _ Hin). lia.
      * apply Forall_app. split.
        -- eapply Forall_impl; [|exact Hlt]. cbn beta. intros id H. lia.
        -- constructor; [lia | constructor].
      * apply NoDup_snoc; [exact Hem|]. intros Hin.
        apply in_map_iff in Hin. destruct Hin as [u [Hu Hin]].
        pose proof (find_none _ _ Hfind u Hin) as Hneq. cbn beta in Hneq.
        rewrite Hu, String.eqb_refl in Hneq. discriminate.
    + cbn. rewrite map_app. eexists. reflexivity.
Qed.

Lemma user_setup_accounts
      (rt : Runtime) (db : DB) (strategy : string) (options : Executor.Options)
      (user_id : uuid) :
  db_users (fst (UserImport.strategy_setup rt db strategy options user_id))
  = db_users db
  /\ (db_next db
      <= db_next (fst (UserImport.strategy_setup rt db strategy options user_id)))%N.
Proof.
  unfold UserImport.strategy_setup.
  destruct (String.eqb strategy "NEW_SET"); [cbn; split; [reflexivity | lia]|].
  destruct (String.eqb strategy "EXISTING_SET"); [|cbn; split; [reflexivity | lia]].
  destruct (Executor.opt_asset_set_id options) as [s|];
    [|cbn; split; [reflexivity | lia]].
  destruct (String.eqb s ""); cbn; split; (reflexivity || lia).
Qed.

(** X10. When the stored users have pairwise distinct keys and pairwise
    distinct addresses, they still have after a run of the user
    executor, whether it returns a report or raises; and the run changes
    the key, the address and the roles of no user that was stored. *)
Theorem user_import_keeps_accounts_distinct
        (UPLOAD_DIR : Paths.path) (pd : Pandas) (fs : Paths.FileSystem)
        (rt : Runtime) (db : DB) (job_id : uuid) (strategy : string)
        (options : Executor.Options) (user_id : uuid) :
  accounts_distinct db ->
  let db' := fst (UserImport.execute_user_import UPLOAD_DIR pd fs rt db job_id
                                                 strategy options user_id) in
  accounts_distinct db'
  /\ extends (map account (db_users db)) (map account (db_users db')).
Proof.
  intros Hd. cbv zeta. unfold UserImport.execute_user_import.
  assert (Hstay : accounts_distinct db
                  /\ extends (map account (db_users db)) (map account (db_users db)))
    by (split; [exact Hd | apply extends_refl]).
  destruct (Executor.get_job rt db job_id) as [job|]; [|exact Hstay].
  destruct (pl_file_path (job_payload job)) as [file_path|]; [|exact Hstay].
  destruct (String.eqb file_path ""); [exact Hstay|].
  rewrite wrap_fatal_fst.
  destruct (Paths._read_file UPLOAD_DIR pd fs file_path) as [[p df]|];
    [|exact Hstay].
  destruct (user_setup_accounts rt db strategy options user_id) as [Hu Hn].
  assert (Hs : accounts_distinct
                 (fst (UserImport.strategy_setup rt db strategy options user_id))
               /\ extends (map account (db_users db))
                          (map account
                             (db_users (fst (UserImport.strategy_setup
                                               rt db strategy options user_id))))).
  { split.
    - apply users_keyed_same with db; [rewrite Hu; reflexivity | exact Hn | exact Hd].
    - rewrite Hu. apply extends_refl. }
  destruct (UserImport.strategy_setup rt db strategy options user_id)
    as [db1 [sid|e]]; cbn [fst] in Hs; [|exact Hs].
  unfold UserImport.import_rows.
  pose proof (row_loop_invariant DB
                (UserImport.user_row
                   (Executor.normalize_mapping (Executor.opt_mapping options)) sid)
                (fun d => accounts_distinct d
                          /\ extends (map account (db_users db))
                                     (map account (db_users d)))) as Hinv.
  cbn beta in Hinv.
  assert (Hstep : forall (i : nat) (r : record) (st : DB),
             accounts_distinct st
             /\ extends (map account (db_users db)) (map account (db_users st)) ->
             accounts_distinct
               (fst (UserImport.user_row
                       (Executor.normalize_mapping (Executor.opt_mapping options))
                       sid i r st))
             /\ extends (map account (db_users db))
                        (map account
                           (db_users
                              (fst (UserImport.user_row
                                      (Executor.normalize_mapping
                                         (Executor.opt_mapping options))
                                      sid i r st))))).
  { intros i r st [H1 H2].
    destruct (user_row_accounts
                (Executor.normalize_mapping (Executor.opt_mapping options))
                sid i r st H1) as [H3 H4].
    split; [exact H3 | eapply extends_trans; eassumption]. }
  specialize (Hinv Hstep (to_records df) 0%nat db1 0%nat [] Hs).
  destruct (Executor.row_loop _ _ _ _ _ _ _) as [[db2 imp] errs].
  exact Hinv.
Qed.

(** X10 (witness): the user file of three rows imported into the
    installation of one user. *)
Lemma user_import_keeps_accounts_distinct_witness :
  accounts_distinct
    (fst (UserImport.execute_user_import
            Scenario.UPLOAD_DIR (Scenario.csv_reader Scenario.people_table)
            Scenario.disk Scenario.rt Scenario.db0 1%N "GLOBAL"
            Scenario.no_options 7%N))
  /\ extends (map account (db_users Scenario.db0))
             (map account
                (db_users
                   (fst (UserImport.execute_user_import
                           Scenario.UPLOAD_DIR
                           (Scenario.csv_reader Scenario.people_table)
                           Scenario.disk Scenario.rt Scenario.db0 1%N "GLOBAL"
                           Scenario.no_options 7%N)))).
Proof.
  apply (user_import_keeps_accounts_distinct
           Scenario.UPLOAD_DIR (Scenario.csv_reader Scenario.people_table)
           Scenario.disk Scenario.rt Scenario.db0 1%N "GLOBAL"
           Scenario.no_options 7%N).
  split; [split|]; simpl.
  - constructor; [intros [] | constructor].
  - constructor; [reflexivity | constructor].
  - constructor; [intros [] | constructor].
Defined.

(* ------------------------------------------------------------------ *)
(** ** The assets that a run creates                                   *)
(* ------------------------------------------------------------------ *)

(** An invariant of the row loop that follows the count of imported
    rows. *)
Lemma row_loop_counted (St : Type) (body : nat -> record -> St -> St * result unit)
      (P : St -> nat -> Prop) :
  (forall i r st n,
      P st n ->
      match body i r st with
      | (st', Ok _) => P st' (S n)
      | (st', Raise _) => P st' n
      end) ->
  forall records i st n errors,
    P st n ->
    P (fst (fst (Executor.row_loop St body i records st n errors)))
      (snd (fst (Executor.row_loop St body i records st n errors))).
Proof.
  intros Hbody records.
  induction records as [|r rest IH]; intros i st n errors Hst; simpl.
  - exact Hst.
  - pose proof (Hbody i r st n Hst) as Hnext.
    destruct (body i r st) as [st' [u|e]]; apply IH; exact Hnext.
Qed.

Lemma str_of_Z_not_empty (z : Z) : PyStr.str_of_Z z <> "".
Proof.
  unfold PyStr.str_of_Z, NilZero.string_of_int.
  destruct (Z.to_int z) as [d|d].
  - unfold NilZero.string_of_uint. destruct d; discriminate.
  - discriminate.
Qed.

Lemma truthy_str_not_empty (v : value) : truthy v = true -> str_value v <> "".
Proof.
  destruct v as [|s|z]; simpl; intros H.
  - discriminate.
  - intros ->. discriminate.
  - apply str_of_Z_not_empty.
Qed.

(** The name that a row receives is never empty. *)
Lemma resolve_name_not_empty (fm : Dict.dict (option string)) (i : nat)
      (r : record) (name : string) :
  AssetImport.resolve_name fm i r = Ok name -> name <> "".
Proof.
  unfold AssetImport.resolve_name.
  destruct (AssetImport.mapped_name fm r) as [nv|]; [|discriminate].
  assert (Hlast : forall nv',
             Ok (str_value
                   (if truthy nv' then nv'
                    else
                      match record_get r (LStr "AssetID") with
                      | Some v =>
                          if truthy v then v
                          else VStr ("Imported Asset " ++ PyStr.str_of_nat i)
                      | None => VStr ("Imported Asset " ++ PyStr.str_of_nat i)
                      end)) = Ok name -> name <> "").
  { intros nv' H. injection H as <-.
    destruct (truthy nv') eqn:E; [apply truthy_str_not_empty; exact E|].
    destruct (record_get r (LStr "AssetID")) as [v|]; [|discriminate].
    destruct (truthy v) eqn:Ev; [apply truthy_str_not_empty; exact Ev | discriminate]. }
  destruct (truthy nv).
  - apply Hlast.
  - destruct (AssetImport.fallback_name r nv) as [nv'|]; [apply Hlast | discriminate].
Qed.

Lemma data_ok_set (db : DB) (sid : option uuid) (d : Dict.dict field)
      (key : string) (val : field) :
  data_ok db sid d ->
  String.eqb key "name" = false ->
  String.eqb key "asset_set_id" = false ->
  (String.eqb key "status_id" = true ->
   exists id, val = FUuid id /\ In id (map st_id (db_statuses db))) ->
  (String.eqb key "asset_type_id" = true ->
   exists id, val = FUuid id /\ In id (map ty_id (db_types db))) ->
  data_ok db sid (Dict.set d key val).
Proof.
  intros (Hn & Hf & Hs & Ht) Hname Hset Hstatus Htype.
  unfold data_ok, named, filed, refers.
  rewrite !(dict_get_set_other d _ key val) by assumption.
  split; [exact Hn|]. split; [exact Hf|]. split.
  - intros f. destruct (String.eqb key "status_id") eqn:E.
    + apply String.eqb_eq in E. subst key. rewrite dict_get_set_same.
      intros H. injection H as <-. apply Hstatus. reflexivity.
    + rewrite dict_get_set_other by exact E. apply Hs.
  - intros f. destruct (String.eqb key "asset_type_id") eqn:E.
    + apply String.eqb_eq in E. subst key. rewrite dict_get_set_same.
      intros H. injection H as <-. apply Htype. reflexivity.
    + rewrite dict_get_set_other by exact E. apply Ht.
Qed.

Lemma data_ok_frame (db db' : DB) (sid : option uuid) (d : Dict.dict field) :
  asset_import_frame db db' -> data_ok db sid d -> data_ok db' sid d.
Proof.
  intros Hfr (Hn & Hf & Hs & Ht). split; [exact Hn|]. split; [exact Hf|].
  destruct Hfr as [_ _ Hst _ _ _ _ [more Hty] _]. split.
  - rewrite Hst. exact Hs.
  - intros f Hget. destruct (Ht f Hget) as [id [-> Hin]].
    exists id. split; [reflexivity|]. rewrite Hty, map_app.
    apply in_or_app. left. exact Hin.
Qed.

Lemma map_refers_types_frame (db db' : DB) (tm : Dict.dict uuid) :
  asset_import_frame db db' ->
  map_refers (map ty_id (db_types db)) tm ->
  map_refers (map ty_id (db_types db')) tm.
Proof.
  intros [_ _ _ _ _ _ _ [more Hty] _] H k id Hget.
  rewrite Hty, map_app. apply in_or_app. left. exact (H k id Hget).
Qed.

Lemma resolve_status_refers (status_map : Dict.dict uuid) (val_str : string)
      (ids : list uuid) (id : uuid) :
  map_refers ids status_map ->
  AssetImport.resolve_status status_map val_str = Some id -> In id ids.
Proof.
  intros Hm. unfold AssetImport.resolve_status.
  repeat match goal with
         | |- context [if ?b then _ else _] => destruct b
         end; try discriminate; apply Hm.
Qed.

(** The dispatch on the target keeps the name and the set of the row, and
    assigns only stored statuses and types. *)
Lemma assign_row_inv
      (rt : Runtime) (status_map : Dict.dict uuid) (target : option string)
      (k : label) (v : value) (val_str : string) (sid : option uuid)
      (st : AssetImport.row_state) :
  row_inv sid status_map st ->
  row_inv sid status_map (AssetImport.assign rt status_map target k v val_str st).
Proof.
  destruct st as [[db tm] ad]. intros (Hsm & Htm & Hok). cbn [fst snd] in *.
  assert (Hset : forall key val,
             String.eqb key "name" = false ->
             String.eqb key "asset_set_id" = false ->
             (String.eqb key "status_id" = true ->
              exists id, val = FUuid id /\ In id (map st_id (db_statuses db))) ->
             (String.eqb key "asset_type_id" = true ->
              exists id, val = FUuid id /\ In id (map ty_id (db_types db))) ->
             row_inv sid status_map (db, tm, Dict.set ad key val)).
  { intros key val H1 H2 H3 H4. split; [exact Hsm|]. split; [exact Htm|].
    apply data_ok_set; assumption. }
  assert (Hstay : row_inv sid status_map (db, tm, ad))
    by (split; [exact Hsm | split; [exact Htm | exact Hok]]).
  destruct (Executor.target_is target "asset_type_id") eqn:E.
  - apply target_is_eq in E. rewrite E, assign_asset_type.
    destruct (Dict.get tm (PyStr.lower val_str)) as [id|] eqn:Hget.
    + apply Hset; try reflexivity; [discriminate|].
      intros _. exists id. split; [reflexivity | exact (Htm _ _ Hget)].
    + assert (Hfr : asset_import_frame
                      db (set_types (snd (fresh db))
                                    (db_types db ++ [mkAssetType (db_next db) val_str])))
        by (constructor; cbn; auto with frame).
      split; [|split]; cbn [fst snd].
      * exact Hsm.
      * intros k0 id0 Hget0. cbn [db_types set_types]. rewrite map_app.
        apply in_or_app.
        destruct (String.eqb (PyStr.lower val_str) k0) eqn:Ek.
        -- apply String.eqb_eq in Ek. subst k0.
           rewrite dict_get_set_same in Hget0. injection Hget0 as <-.
           right. left. reflexivity.
        -- rewrite dict_get_set_other in Hget0 by exact Ek.
           left. exact (Htm _ _ Hget0).
      * apply data_ok_set; try reflexivity.
        -- apply data_ok_frame with db; assumption.
        -- discriminate.
        -- intros _. exists (db_next db). split; [reflexivity|].
           cbn [db_types set_types]. rewrite map_app. apply in_or_app.
           right. left. reflexivity.
  - unfold AssetImport.assign. rewrite E.
    repeat match goal with
           | |- context [if ?b then _ else _] => destruct b
           | |- context [match ?x with Some _ => _ | None => _ end] =>
               destruct x eqn:?
           end;
      try exact Hstay;
      try (apply Hset; [reflexivity | reflexivity | discriminate | discriminate]).
    apply Hset; [reflexivity | reflexivity | | discriminate].
    intros _. eexists. split; [reflexivity|].
    eapply resolve_status_refers; eassumption.
Qed.

Lemma column_step_row_inv
      (rt : Runtime) (fm : Dict.dict (option string)) (status_map : Dict.dict uuid)
      (k : label) (v : value) (sid : option uuid) (st : AssetImport.row_state) :
  row_inv sid status_map st ->
  row_inv sid status_map (fst (AssetImport.column_step rt fm status_map k v st)).
Proof.
  intros H. unfold AssetImport.column_step.
  destruct (Executor._normalize_header k) as [k_norm|]; [|exact H].
  destruct (Executor.cell_text v) as [val_str|]; [|exact H].
  destruct (Executor.target_is _ ""); [exact H|].
  cbn [fst]. apply assign_row_inv. exact H.
Qed.

Lemma columns_loop_row_inv
      (rt : Runtime) (fm : Dict.dict (option string)) (status_map : Dict.dict uuid)
      (items : record) (sid : option uuid) (st : AssetImport.row_state) :
  row_inv sid status_map st ->
  row_inv sid status_map (fst (AssetImport.columns_loop rt fm status_map items st)).
Proof.
  revert st. induction items as [|[k v] items IH]; intros st H; simpl.
  - exact H.
  - pose proof (column_step_row_inv rt fm status_map k v sid st H) as Hstep.
    destruct (AssetImport.column_step rt fm status_map k v st) as [st' [u|e]].
    + apply IH. exact Hstep.
    + exact Hstep.
Qed.

Lemma assign_assets
      (rt : Runtime) (status_map : Dict.dict uuid) (target : option string)
      (k : label) (v : value) (val_str : string) (db : DB)
      (tm : Dict.dict uuid) (ad : Dict.dict field) :
  db_assets (fst (fst (AssetImport.assign rt status_map target k v val_str (db, tm, ad))))
  = db_assets db.
Proof.
  destruct (Executor.target_is target "asset_type_id") eqn:E.
  - apply target_is_eq in E. rewrite E, assign_asset_type.
    destruct (Dict.get tm (PyStr.lower val_str)); reflexivity.
  - rewrite (assign_other_target rt status_map target k v val_str db tm ad E).
    reflexivity.
Qed.

(** The columns of a row add no asset. *)
Lemma columns_loop_assets
      (rt : Runtime) (fm : Dict.dict (option string)) (status_map : Dict.dict uuid)
      (items : record) (st : AssetImport.row_state) :
  db_assets (fst (fst (fst (AssetImport.columns_loop rt fm status_map items st))))
  = db_assets (fst (fst st)).
Proof.
  revert st. induction items as [|[k v] items IH]; intros st; simpl.
  - reflexivity.
  - assert (Hstep : db_assets
                      (fst (fst (fst (AssetImport.column_step rt fm status_map k v st))))
                    = db_assets (fst (fst st))).
    { unfold AssetImport.column_step.
      destruct (Executor._normalize_header k) as [k_norm|]; [|reflexivity].
      destruct (Executor.cell_text v) as [val_str|]; [|reflexivity].
      destruct (Executor.target_is _ ""); [reflexivity|].
      destruct st as [[db tm] ad]. cbn [fst]. apply assign_assets. }
    destruct (AssetImport.column_step rt fm status_map k v st) as [st' [u|e]].
    + rewrite IH. exact Hstep.
    + exact Hstep.
Qed.

(** One row of an asset file: a row that raises adds no asset, a row that
    is imported adds one, named, filed under the set of the run and
    referring to stored statuses and types only. *)
Lemma asset_row_batch_inv
      (rt : Runtime) (fm : Dict.dict (option string)) (status_map : Dict.dict uuid)
      (db1 : DB) (sid : option uuid) (i : nat) (r : record)
      (st : DB * Dict.dict uuid) (n : nat) :
  batch_inv db1 sid status_map st n ->
  match AssetImport.asset_row rt fm status_map sid i r st with
  | (st', Ok _) => batch_inv db1 sid status_map st' (S n)
  | (st', Raise _) => batch_inv db1 sid status_map st' n
  end.
Proof.
  intros Hinv. unfold AssetImport.asset_row.
  destruct (AssetImport.resolve_name fm i r) as [name|] eqn:Hname; [|exact Hinv].
  destruct st as [db tm]. destruct Hinv as (Hfr & Hsm & Htm & new & Hnew & Hlen & Hall).
  cbn [fst snd] in *.
  match goal with
  | |- context [AssetImport.columns_loop rt fm status_map r ?st0] =>
      pose proof (columns_loop_row_inv rt fm status_map r sid st0) as Hrow;
      pose proof (columns_loop_assets rt fm status_map r st0) as Hassets;
      pose proof (asset_frame_columns_loop rt fm status_map r st0) as Hstep;
      destruct (AssetImport.columns_loop rt fm status_map r st0)
        as [[[db2 tm2] ad2] [u|e]]
  end; cbn [fst snd] in *;
    (destruct Hrow as (Hsm2 & Htm2 & Hok2);
     [ split; [exact Hsm | split; [exact Htm|]];
       split; [exists name; split; [reflexivity|];
               eapply resolve_name_not_empty; exact Hname|];
       split; [destruct sid; reflexivity|];
       split; intros f Hf; discriminate Hf |]).
  - cbn [fresh].
    match goal with
    | |- batch_inv _ _ _ (?d, _) _ => set (db3 := d)
    end.
    assert (Hfr3 : asset_import_frame db2 db3)
      by (constructor; cbn; auto with frame).
    assert (Ha3 : db_assets db3 = db_assets db2 ++ [mkAsset (db_next db2) ad2])
      by reflexivity.
    assert (Hfr' : asset_import_frame db db3)
      by (eapply asset_frame_trans; eassumption).
    split; [|split; [|split]]; cbn [fst snd].
    + eapply asset_frame_trans; eassumption.
    + exact Hsm2.
    + exact Htm2.
    + exists (new ++ [mkAsset (db_next db2) ad2]).
      rewrite Ha3, Hassets, Hnew, <- app_assoc, length_app. cbn [List.length].
      split; [reflexivity|]. split; [lia|].
      apply Forall_app. split.
      * eapply Forall_impl; [|exact Hall]. cbn beta. intros a Ha.
        apply data_ok_frame with db; assumption.
      * constructor; [|constructor]. cbn [a_fields].
        apply data_ok_frame with db2; assumption.
  - split; [|split; [|split]]; cbn [fst snd].
    + eapply asset_frame_trans; eassumption.
    + exact Hsm2.
    + exact Htm2.
    + exists new. rewrite Hassets.
      split; [exact Hnew|]. split; [exact Hlen|].
      eapply Forall_impl; [|exact Hall]. cbn beta. intros a Ha.
      apply data_ok_frame with db; assumption.
Qed.

Lemma comprehension_refers {A : Type} (key : A -> string) (val : A -> uuid)
      (xs : list A) :
  map_refers (map val xs) (Dict.comprehension key val xs).
Proof.
  intros k id H. unfold Dict.comprehension in H.
  apply dict_get_fold_set in H. destruct H as [[x [Hin [_ <-]]] | H].
  - apply in_map. exact Hin.
  - discriminate.
Qed.

Lemma fold_left_assets {A : Type} (f : DB -> A -> DB) (xs : list A) (db : DB) :
  (forall d x, db_assets (f d x) = db_assets d) ->
  db_assets (fold_left f xs db) = db_assets db.
Proof.
  intros Hf. revert db. induction xs as [|x xs IH]; intros db; simpl.
  - reflexivity.
  - rewrite IH. apply Hf.
Qed.

(** The strategy branches add no asset, and the set that they return is
    a stored one. *)
Lemma asset_setup_facts
      (rt : Runtime) (db db1 : DB) (strategy : string) (options : Executor.Options)
      (user_id : uuid) (sid : option uuid) :
  AssetImport.strategy_setup rt db strategy options user_id = (db1, Ok sid) ->
  db_assets db1 = db_assets db
  /\ forall u, sid = Some u -> In u (map set_id (db_asset_sets db1)).
Proof.
  unfold AssetImport.strategy_setup.
  destruct (String.eqb strategy "NEW_SET").
  - cbn [fresh]. intros H. injection H as <- <-. split.
    + rewrite fold_left_assets; [reflexivity|]. intros d x. reflexivity.
    + intros u Hu. injection Hu as <-.
      match goal with
      | |- context [fold_left ?f ?xs ?d0] =>
          pose proof (asset_frame_fold f xs d0
                        (fun d x => asset_frame_add_custom_field d x _)) as Hfr
      end.
      destruct Hfr as [_ _ _ _ _ [more Hsets] _ _ _].
      rewrite Hsets. cbn [db_asset_sets set_asset_sets]. rewrite !map_app.
      apply in_or_app. left. apply in_or_app. right. left. reflexivity.
  - destruct (String.eqb strategy "EXISTING_SET").
    + destruct (Executor.opt_asset_set_id options) as [s|]; [|discriminate].
      destruct (String.eqb s ""); [discriminate|].
      destruct (parse_uuid rt s) as [id|]; [|discriminate].
      destruct (find _ (db_asset_sets db)) as [a|] eqn:Hf; [|discriminate].
      intros H. injection H as <- <-. split; [reflexivity|].
      intros u Hu. injection Hu as <-.
      apply find_some in Hf. destruct Hf as [Hin Heq].
      apply N.eqb_eq in Heq. rewrite <- Heq. apply in_map. exact Hin.
    + destruct (String.eqb strategy "MERGE").
      * destruct (Executor.opt_create_missing_fields options).
        -- intros H. injection H as <- <-. split; [|discriminate].
           rewrite fold_left_assets; [reflexivity|]. intros d x.
           destruct (existsb _ (db_custom_fields d)); reflexivity.
        -- intros H. injection H as <- <-. split; [reflexivity | discriminate].
      * intros H. injection H as <- <-. split; [reflexivity | discriminate].
Qed.

(** What a report of the asset executor says about the session. *)
Lemma execute_import_batch
      (UPLOAD_DIR : Paths.path) (pd : Pandas) (fs : Paths.FileSystem)
      (rt : Runtime) (db db' : DB) (job_id : uuid) (strategy : string)
      (options : Executor.Options) (user_id : uuid) (report : Report) :
  AssetImport.execute_import UPLOAD_DIR pd fs rt db job_id strategy options user_id
  = (db', Ok report) ->
  exists sid new,
    rp_set_id report = option_map (str_uuid rt) sid
    /\ (forall u, sid = Some u -> In u (map set_id (db_asset_sets db')))
    /\ db_assets db' = db_assets db ++ new
    /\ List.length new = rp_imported report
    /\ Forall (fun a => data_ok db' sid (a_fields a)) new.
Proof.
  unfold AssetImport.execute_import.
  destruct (Executor.get_job rt db job_id) as [job|e]; [|discriminate].
  destruct (pl_file_path (job_payload job)) as [file_path|]; [|discriminate].
  destruct (String.eqb file_path ""); [discriminate|].
  intros H. apply wrap_fatal_ok in H.
  destruct (Paths._read_file UPLOAD_DIR pd fs file_path) as [[p df]|e];
    [|discriminate].
  destruct (AssetImport.strategy_setup rt db strategy options user_id)
    as [db1 [sid|e]] eqn:Hsetup; [|discriminate].
  apply asset_setup_facts in Hsetup. destruct Hsetup as [Hassets Hstored].
  unfold AssetImport.import_rows in H.
  match type of H with
  | context [Executor.row_loop ?St ?body 0 ?recs ?st0 0 []] =>
      pose proof (row_loop_counted St body (batch_inv db1 sid _)
                    (asset_row_batch_inv rt _ _ db1 sid)
                    recs 0%nat st0 0%nat []) as Hinv;
      destruct (Executor.row_loop St body 0 recs st0 0 []) as [[st imp] errs]
  end.
  injection H as <- <-. cbn [fst snd rp_set_id rp_imported] in *.
  destruct Hinv as (Hfr & _ & _ & new & Hnew & Hlen & Hall).
  { split; [apply asset_frame_refl|]. cbn [fst snd].
    split; [apply comprehension_refers|]. split; [apply comprehension_refers|].
    exists []. rewrite app_nil_r. repeat split. constructor. }
  exists sid, new. split; [reflexivity|]. split.
  - intros u Hu. destruct Hfr as [_ _ _ _ _ [more Hsets] _ _ _].
    rewrite Hsets, map_app. apply in_or_app. left. exact (Hstored u Hu).
  - rewrite Hnew, Hassets. auto.
Qed.

(** X11. When the asset executor returns a report, the assets that were
    stored are still there and are followed by the assets of the run,
    one for each row counted in [imported]. *)
Theorem imported_rows_are_the_new_assets
        (UPLOAD_DIR : Paths.path) (pd : Pandas) (fs : Paths.FileSystem)
        (rt : Runtime) (db db' : DB) (job_id : uuid) (strategy : string)
        (options : Executor.Options) (user_id : uuid) (report : Report) :
  AssetImport.execute_import UPLOAD_DIR pd fs rt db job_id strategy options user_id
  = (db', Ok report) ->
  exists new,
    db_assets db' = db_assets db ++ new
    /\ List.length new = rp_imported report.
Proof.
  intros H. apply execute_import_batch in H.
  destruct H as (sid & new & _ & _ & Hnew & Hlen & _).
  exists new. split; assumption.
Qed.

(** X11 (witness): the NEW_SET import of the four typed rows. *)
Lemma imported_rows_are_the_new_assets_witness :
  exists new,
    db_assets (fst Scenario.typed_run) = db_assets Scenario.db0 ++ new
    /\ List.length new = rp_imported Scenario.typed_report.
Proof.
  exact (imported_rows_are_the_new_assets
           Scenario.UPLOAD_DIR (Scenario.csv_reader Scenario.typed_table)
           Scenario.disk Scenario.rt Scenario.db0 (fst Scenario.typed_run) 1%N
           "NEW_SET" Scenario.no_options 7%N Scenario.typed_report
           ltac:(vm_compute; reflexivity)).
Defined.


(** X12. When the asset executor returns a report, every asset of the
    run carries a name that is not empty and is filed under the one set
    that the report names in [set_id] (under no set when [set_id] is
    null), and that set is stored. *)
Theorem new_assets_are_named_and_filed
        (UPLOAD_DIR : Paths.path) (pd : Pandas) (fs : Paths.FileSystem)
        (rt : Runtime) (db db' : DB) (job_id : uuid) (strategy : string)
        (options : Executor.Options) (user_id : uuid) (report : Report) :
  AssetImport.execute_import UPLOAD_DIR pd fs rt db job_id strategy options user_id
  = (db', Ok report) ->
  exists sid new,
    db_assets db' = db_assets db ++ new
    /\ rp_set_id report = option_map (str_uuid rt) sid
    /\ (forall u, sid = Some u -> In u (map set_id (db_asset_sets db')))
    /\ Forall (fun a => named (a_fields a) /\ filed sid (a_fields a)) new.
Proof.
  intros H. apply execute_import_batch in H.
  destruct H as (sid & new & Hset & Hstored & Hnew & _ & Hall).
  exists sid, new. repeat (split; [assumption|]).
  eapply Forall_impl; [|exact Hall]. cbn beta. intros a (Hn & Hf & _).
  split; assumption.
Qed.

(** X12 (witness): the NEW_SET import of the four typed rows. *)
Lemma new_assets_are_named_and_filed_witness :
  exists sid new,
    db_assets (fst Scenario.typed_run) = db_assets Scenario.db0 ++ new
    /\ rp_set_id Scenario.typed_report = option_map (str_uuid Scenario.rt) sid
    /\ (forall u, sid = Some u ->
                  In u (map set_id (db_asset_sets (fst Scenario.typed_run))))
    /\ Forall (fun a => named (a_fields a) /\ filed sid (a_fields a)) new.
Proof.
  exact (new_assets_are_named_and_filed
           Scenario.UPLOAD_DIR (Scenario.csv_reader Scenario.typed_table)
           Scenario.disk Scenario.rt Scenario.db0 (fst Scenario.typed_run) 1%N
           "NEW_SET" Scenario.no_options 7%N Scenario.typed_report
           ltac:(vm_compute; reflexivity)).
Defined.


(** X13. When the asset executor returns a report, a status or a type
    that an asset of the run names is a stored status or a stored type:
    the run hands out no key of its own making but those of the types it
    created. *)
Theorem new_assets_refer_to_stored_rows
        (UPLOAD_DIR : Paths.path) (pd : Pandas) (fs : Paths.FileSystem)
        (rt : Runtime) (db db' : DB) (job_id : uuid) (strategy : string)
        (options : Executor.Options) (user_id : uuid) (report : Report) :
  AssetImport.execute_import UPLOAD_DIR pd fs rt db job_id strategy options user_id
  = (db', Ok report) ->
  exists new,
    db_assets db' = db_assets db ++ new
    /\ Forall (fun a => refers db' (a_fields a)) new.
Proof.
  intros H. apply execute_import_batch in H.
  destruct H as (sid & new & _ & _ & Hnew & _ & Hall).
  exists new. split; [assumption|].
  eapply Forall_impl; [|exact Hall]. cbn beta. intros a (_ & _ & Hr). exact Hr.
Qed.

(** X13 (witness): the NEW_SET import of the four typed rows. *)
Lemma new_assets_refer_to_stored_rows_witness :
  exists new,
    db_assets (fst Scenario.typed_run) = db_assets Scenario.db0 ++ new
    /\ Forall (fun a => refers (fst Scenario.typed_run) (a_fields a)) new.
Proof.
  exact (new_assets_refer_to_stored_rows
           Scenario.UPLOAD_DIR (Scenario.csv_reader Scenario.typed_table)
           Scenario.disk Scenario.rt Scenario.db0 (fst Scenario.typed_run) 1%N
           "NEW_SET" Scenario.no_options 7%N Scenario.typed_report
           ltac:(vm_compute; reflexivity)).
Defined.


(* ------------------------------------------------------------------ *)
(** ** Runs that raise, and the other jobs                             *)
(* ------------------------------------------------------------------ *)






Lemma find_job_update_other (db : DB) (id other : uuid) (f : Job -> Job) :
  (forall j, job_id (f j) = job_id j) ->
  other <> id ->
  find_job (update_job db id f) other = find_job db other.
Proof.
  intros Hid Hne. unfold find_job, update_job. cbn [db_jobs set_jobs].
  induction (db_jobs db) as [|j jobs IH]; simpl; [reflexivity|].
  destruct (N.eqb (job_id j) id) eqn:E.
  - rewrite Hid. apply N.eqb_eq in E.
    destruct (N.eqb (job_id j) other) eqn:E'.
    + apply N.eqb_eq in E'. congruence.
    + exact IH.
  - destruct (N.eqb (job_id j) other); [reflexivity | exact IH].
Qed.

Lemma touch_job_other (db : DB) (id other : uuid) (f : Job -> Job) :
  (forall j, job_id (f j) = job_id j) ->
  other <> id ->
  find_job (Driver.touch_job db id f) other = find_job db other.
Proof.
  intros Hid Hne. unfold Driver.touch_job.
  destruct (find_job db id); [apply find_job_update_other; assumption | reflexivity].
Qed.

(** X15. The background wrapper changes no job but its own: whatever the
    outcome of the run, every job stored under another key reads as it
    did before. *)
Theorem driver_leaves_the_other_jobs
        (UPLOAD_DIR : Paths.path) (pd : Pandas) (fs : Paths.FileSystem)
        (rt : Runtime) (db : DB) (job_id : uuid) (strategy : string)
        (options : Executor.Options) (user_id : uuid) (type : string)
        (other : uuid) :
  other <> job_id ->
  find_job (Driver.execute_import_background_wrapper
              UPLOAD_DIR pd fs rt db job_id strategy options user_id type) other
  = find_job db other.
Proof.
  intros Hne. unfold Driver.execute_import_background_wrapper.
  pose proof (execute_logic_jobs UPLOAD_DIR pd fs rt
                (Driver.touch_job db job_id (Driver.set_status running))
                job_id strategy options user_id type) as Hjobs.
  destruct (Driver.execute_logic UPLOAD_DIR pd fs rt _ job_id strategy options
                                 user_id type) as [db2 [report|e]];
    cbn [fst] in Hjobs;
    (rewrite touch_job_other; [|reflexivity | exact Hne]);
    (transitivity (find_job (Driver.touch_job db job_id (Driver.set_status running))
                            other);
     [unfold find_job; rewrite Hjobs; reflexivity|]);
    apply touch_job_other; [reflexivity | exact Hne | reflexivity | exact Hne].
Qed.

(** X15 (witness): the job 100 is run, the job 1 is looked up. *)
Lemma driver_leaves_the_other_jobs_witness :
  find_job (Driver.execute_import_background_wrapper
              Scenario.UPLOAD_DIR (Scenario.csv_reader Scenario.people_table)
              Scenario.disk Scenario.rt Scenario.stored_db 100%N "GLOBAL"
              Scenario.no_options 7%N "user") 1%N
  = find_job Scenario.stored_db 1%N.
Proof.
  apply (driver_leaves_the_other_jobs
           Scenario.UPLOAD_DIR (Scenario.csv_reader Scenario.people_table)
           Scenario.disk Scenario.rt Scenario.stored_db 100%N "GLOBAL"
           Scenario.no_options 7%N "user" 1%N).
  discriminate.
Defined.


(* ------------------------------------------------------------------ *)
(** ** Sets and field definitions registered by the strategies         *)
(* ------------------------------------------------------------------ *)

(** A report of the asset executor, by the strategy branch and the rows
    that produced it. *)
Lemma execute_import_run
      (UPLOAD_DIR : Paths.path) (pd : Pandas) (fs : Paths.FileSystem)
      (rt : Runtime) (db db' : DB) (job_id : uuid) (strategy : string)
      (options : Executor.Options) (user_id : uuid) (report : Report) :
  AssetImport.execute_import UPLOAD_DIR pd fs rt db job_id strategy options user_id
  = (db', Ok report) ->
  exists df db1 sid,
    AssetImport.strategy_setup rt db strategy options user_id = (db1, Ok sid)
    /\ rp_set_id report = option_map (str_uuid rt) sid
    /\ db' = fst (fst (fst (AssetImport.import_rows rt db1 options sid
                                                    (to_records df)))).
Proof.
  unfold AssetImport.execute_import.
  destruct (Executor.get_job rt db job_id) as [job|e]; [|discriminate].
  destruct (pl_file_path (job_payload job)) as [file_path|]; [|discriminate].
  destruct (String.eqb file_path ""); [discriminate|].
  intros H. apply wrap_fatal_ok in H.
  destruct (Paths._read_file UPLOAD_DIR pd fs file_path) as [[p df]|e];
    [|discriminate].
  destruct (AssetImport.strategy_setup rt db strategy options user_id)
    as [db1 [sid|e]]; [|discriminate].
  exists df, db1, sid.
  destruct (AssetImport.import_rows rt db1 options sid (to_records df))
    as [[st imp] errs].
  injection H as <- <-. repeat split.
Qed.

(** The loop of MERGE over the requested fields. *)
Lemma merge_fold_keys (names : list string) (d : DB) :
  NoDup (field_keys d) ->
  let d' :=
    fold_left
      (fun d field_name =>
         if existsb (fun f => String.eqb (cf_key f) (AssetImport.field_key field_name))
                    (db_custom_fields d)
         then d else AssetImport.add_custom_field d field_name None)
      names d in
  NoDup (field_keys d')
  /\ (exists new,
         db_custom_fields d' = db_custom_fields d ++ new
         /\ Forall (fun f => exists name, In name names
                                          /\ definition_of f = requested None name) new)
  /\ forall name, In name names -> In (AssetImport.field_key name) (field_keys d').
Proof.
  revert d. induction names as [|name names IH]; intros d Hnd; cbn [fold_left].
  - split; [exact Hnd|]. split; [|intros name []].
    exists []. rewrite app_nil_r. split; [reflexivity | constructor].
  - set (d1 := if existsb _ (db_custom_fields d) then d
               else AssetImport.add_custom_field d name None).
    assert (H1 : NoDup (field_keys d1)
                 /\ (exists new,
                        db_custom_fields d1 = db_custom_fields d ++ new
                        /\ Forall (fun f => definition_of f = requested None name) new)
                 /\ In (AssetImport.field_key name) (field_keys d1)).
    { unfold d1.
      destruct (existsb _ (db_custom_fields d)) eqn:E.
      - split; [exact Hnd|]. split.
        + exists []. rewrite app_nil_r. split; [reflexivity | constructor].
        + apply existsb_exists in E. destruct E as [f [Hin Hk]].
          apply String.eqb_eq in Hk. rewrite <- Hk. apply in_map. exact Hin.
      - unfold field_keys. cbn. rewrite map_app. cbn [map cf_key]. split; [|split].
        + apply NoDup_snoc; [exact Hnd|]. intros Hin.
          apply in_map_iff in Hin. destruct Hin as [f [Hk Hin]].
          assert (Hex : existsb (fun f => String.eqb (cf_key f)
                                            (AssetImport.field_key name))
                                (db_custom_fields d) = true).
          { apply existsb_exists. exists f. split; [exact Hin|].
            rewrite Hk. apply String.eqb_refl. }
          congruence.
        + eexists. split; [reflexivity|]. constructor; [reflexivity | constructor].
        + apply in_or_app. right. left. reflexivity. }
    destruct H1 as (Hnd1 & (new1 & Hnew1 & Hall1) & Hin1).
    destruct (IH d1 Hnd1) as (Hnd2 & (new2 & Hnew2 & Hall2) & Hin2).
    split; [exact Hnd2|]. split.
    + exists (new1 ++ new2). rewrite Hnew2, Hnew1, app_assoc.
      split; [reflexivity|]. apply Forall_app. split.
      * eapply Forall_impl; [|exact Hall1]. cbn beta. intros f Hf.
        exists name. split; [left; reflexivity | exact Hf].
      * eapply Forall_impl; [|exact Hall2]. cbn beta. intros f [n [Hn Hf]].
        exists n. split; [right; exact Hn | exact Hf].
    + intros n [<- | Hn]; [|apply Hin2; exact Hn].
      unfold field_keys. rewrite Hnew2, map_app. apply in_or_app. left. exact Hin1.
Qed.

(** X16. Under MERGE, when no two stored field definitions share a key,
    none do after the run: a requested field is registered, as a global
    asset field labelled as requested, only when its key is not yet
    taken, also by an earlier field of the same request, and once the
    run returns, under create_missing_fields, the key of every requested
    field is a stored one. *)
Theorem merge_registers_each_key_once
        (UPLOAD_DIR : Paths.path) (pd : Pandas) (fs : Paths.FileSystem)
        (rt : Runtime) (db db' : DB) (job_id : uuid)
        (options : Executor.Options) (user_id : uuid) (report : Report) :
  NoDup (field_keys db) ->
  AssetImport.execute_import UPLOAD_DIR pd fs rt db job_id "MERGE" options user_id
  = (db', Ok report) ->
  NoDup (field_keys db')
  /\ (exists new,
         db_custom_fields db' = db_custom_fields db ++ new
         /\ Forall (fun f => exists name,
                        In name (Executor.opt_new_fields options)
                        /\ definition_of f = requested None name) new)
  /\ (Executor.opt_create_missing_fields options = true ->
      forall name, In name (Executor.opt_new_fields options) ->
                   In (AssetImport.field_key name) (field_keys db')).
Proof.
  intros Hnd H. apply execute_import_run in H.
  destruct H as (df & db1 & sid & Hsetup & _ & ->).
  pose proof (rows_frame_import_rows rt db1 options sid (to_records df)) as Hrows.
  destruct Hrows as [_ _ _ _ _ _ Hfields _ _].
  unfold field_keys. rewrite Hfields.
  unfold AssetImport.strategy_setup in Hsetup.
  cbn [String.eqb Ascii.eqb Bool.eqb] in Hsetup. cbv iota in Hsetup.
  destruct (Executor.opt_create_missing_fields options).
  - injection Hsetup as <- _.
    destruct (merge_fold_keys (Executor.opt_new_fields options) db Hnd)
      as (H1 & H2 & H3).
    split; [exact H1|]. split; [exact H2|]. intros _. exact H3.
  - injection Hsetup as <- _. split; [exact Hnd|]. split; [|discriminate].
    exists []. rewrite app_nil_r. split; [reflexivity | constructor].
Qed.

(** X16 (witness): a MERGE run that asks twice for the field Rack Unit,
    in two spellings. *)
Lemma merge_registers_each_key_once_witness :
  NoDup (field_keys (fst Scenario.merge_run))
  /\ (exists new,
         db_custom_fields (fst Scenario.merge_run)
         = db_custom_fields Scenario.db0 ++ new
         /\ Forall (fun f => exists name,
                        In name (Executor.opt_new_fields Scenario.rack_fields)
                        /\ definition_of f = requested None name) new)
  /\ (Executor.opt_create_missing_fields Scenario.rack_fields = true ->
      forall name, In name (Executor.opt_new_fields Scenario.rack_fields) ->
                   In (AssetImport.field_key name)
                      (field_keys (fst Scenario.merge_run))).
Proof.
  exact (merge_registers_each_key_once
           Scenario.UPLOAD_DIR (Scenario.csv_reader Scenario.named_table)
           Scenario.disk Scenario.rt Scenario.db0 (fst Scenario.merge_run) 1%N
           Scenario.rack_fields 7%N (mkReport true 1 [] None)
           (NoDup_nil string) ltac:(vm_compute; reflexivity)).
Defined.


(** The loop of NEW_SET over the requested fields. *)
Lemma new_set_fold_fields (names : list string) (d : DB) (scope : option uuid) :
  db_asset_sets
    (fold_left (fun d field_name => AssetImport.add_custom_field d field_name scope)
               names d)
  = db_asset_sets d
  /\ exists new,
      db_custom_fields
        (fold_left (fun d field_name =>
                      AssetImport.add_custom_field d field_name scope) names d)
      = db_custom_fields d ++ new
      /\ map definition_of new = map (requested scope) names.
Proof.
  revert d. induction names as [|name names IH]; intros d; cbn [fold_left].
  - split; [reflexivity|]. exists []. rewrite app_nil_r. split; reflexivity.
  - destruct (IH (AssetImport.add_custom_field d name scope)) as (Hs & new & Hn & Hd).
    split; [rewrite Hs; reflexivity|].
    eexists (_ :: new). rewrite Hn. cbn [AssetImport.add_custom_field fresh
                                          db_custom_fields set_custom_fields].
    rewrite <- app_assoc. split; [reflexivity|].
    cbn [map]. rewrite Hd. reflexivity.
Qed.

(** The NEW_SET branch of the asset executor. *)
Lemma new_set_setup
      (rt : Runtime) (db db1 : DB) (options : Executor.Options) (user_id : uuid)
      (sid : option uuid) :
  AssetImport.strategy_setup rt db "NEW_SET" options user_id = (db1, Ok sid) ->
  exists id new,
    sid = Some id
    /\ db_asset_sets db1
       = db_asset_sets db
         ++ [mkAssetSet id
                        match Executor.opt_new_set_name options with
                        | Some n => n
                        | None => "Imported Set " ++ hex8 rt (db_next db)
                        end
                        None (Some user_id)]
    /\ db_custom_fields db1 = db_custom_fields db ++ new
    /\ map definition_of new
       = map (requested (Some id)) (Executor.opt_new_fields options).
Proof.
  unfold AssetImport.strategy_setup.
  change (String.eqb "NEW_SET" "NEW_SET") with true. cbv iota. cbn [fresh].
  intros H. injection H as <- <-.
  match goal with
  | |- context [fold_left _ ?names ?d0] =>
      destruct (new_set_fold_fields names d0 (Some (N.succ (db_next db))))
        as (Hs & new & Hn & Hd)
  end.
  exists (N.succ (db_next db)), new.
  split; [reflexivity|]. split; [exact Hs|]. split; [exact Hn | exact Hd].
Qed.

(** X17. When a NEW_SET run of the asset executor returns, exactly one
    asset set was added, created by the importing user and named as the
    options ask (or "Imported Set" followed by eight hexadecimal digits);
    the report names it; and one asset field definition was added for
    each requested field, in order, scoped to that set, whether or not
    its key was already taken. *)
Theorem new_set_registers_one_set_and_its_fields
        (UPLOAD_DIR : Paths.path) (pd : Pandas) (fs : Paths.FileSystem)
        (rt : Runtime) (db db' : DB) (job_id : uuid)
        (options : Executor.Options) (user_id : uuid) (report : Report) :
  AssetImport.execute_import UPLOAD_DIR pd fs rt db job_id "NEW_SET" options user_id
  = (db', Ok report) ->
  exists id new,
    rp_set_id report = Some (str_uuid rt id)
    /\ db_asset_sets db'
       = db_asset_sets db
         ++ [mkAssetSet id
                        match Executor.opt_new_set_name options with
                        | Some n => n
                        | None => "Imported Set " ++ hex8 rt (db_next db)
                        end
                        None (Some user_id)]
    /\ db_custom_fields db' = db_custom_fields db ++ new
    /\ map definition_of new
       = map (requested (Some id)) (Executor.opt_new_fields options).
Proof.
  intros H. apply execute_import_run in H.
  destruct H as (df & db1 & sid & Hsetup & Hset & ->).
  pose proof (rows_frame_import_rows rt db1 options sid (to_records df)) as Hrows.
  destruct Hrows as [_ _ _ _ _ Hsets Hfields _ _].
  rewrite Hsets, Hfields.
  apply new_set_setup in Hsetup.
  destruct Hsetup as (id & new & -> & H1 & H2 & H3).
  exists id, new. auto.
Qed.

(** X17 (witness): the NEW_SET import of the four typed rows, which asks
    for no field. *)
Lemma new_set_registers_one_set_and_its_fields_witness :
  exists id new,
    rp_set_id Scenario.typed_report = Some (str_uuid Scenario.rt id)
    /\ db_asset_sets (fst Scenario.typed_run)
       = db_asset_sets Scenario.db0
         ++ [mkAssetSet id ("Imported Set " ++ hex8 Scenario.rt 100%N)
                        None (Some 7%N)]
    /\ db_custom_fields (fst Scenario.typed_run)
       = db_custom_fields Scenario.db0 ++ new
    /\ map definition_of new = [].
Proof.
  exact (new_set_registers_one_set_and_its_fields
           Scenario.UPLOAD_DIR (Scenario.csv_reader Scenario.typed_table)
           Scenario.disk Scenario.rt Scenario.db0 (fst Scenario.typed_run) 1%N
           Scenario.no_options 7%N Scenario.typed_report
           ltac:(vm_compute; reflexivity)).
Defined.


(* ------------------------------------------------------------------ *)
(** ** Paths below the upload directory                                *)
(* ------------------------------------------------------------------ *)

Lemma component_facts (c : string) :
  component c = true ->
  String.eqb c "" = false /\ String.eqb c "." = false
  /\ String.eqb c ".." = false /\ without "/" c = true.
Proof.
  unfold component. intros H.
  repeat (apply andb_prop in H; destruct H as [H ?]).
  repeat match goal with
         | H : negb _ = true |- _ => apply negb_true_iff in H
         end.
  auto.
Qed.

Lemma split_without (x : string) :
  without "/" x = true -> PyStr.split "/" x = [x].
Proof.
  induction x as [|a x IH]; cbn [without PyStr.split]; intros H; [reflexivity|].
  apply andb_prop in H. destruct H as [Ha Hx].
  apply negb_true_iff in Ha. rewrite Ha, (IH Hx). reflexivity.
Qed.

Lemma split_app_sep (x r : string) :
  without "/" x = true ->
  PyStr.split "/" (x ++ String "/" r) = x :: PyStr.split "/" r.
Proof.
  induction x as [|a x IH]; cbn [without PyStr.split append]; intros H.
  - reflexivity.
  - apply andb_prop in H. destruct H as [Ha Hx].
    apply negb_true_iff in Ha. rewrite Ha, (IH Hx). reflexivity.
Qed.

Lemma join_cons (x y : string) (l : list string) :
  PyStr.join "/" (x :: y :: l) = (x ++ String "/" (PyStr.join "/" (y :: l)))%string.
Proof. reflexivity. Qed.

Lemma split_join (p : Paths.path) :
  forallb component p = true -> p <> [] ->
  PyStr.split "/" (PyStr.join "/" p) = p.
Proof.
  induction p as [|x [|y l] IH]; intros H Hne.
  - contradiction.
  - cbn [forallb] in H. apply andb_prop in H. destruct H as [Hx _].
    apply component_facts in Hx. apply split_without. apply Hx.
  - cbn [forallb] in H. apply andb_prop in H. destruct H as [Hx Hrest].
    apply component_facts in Hx.
    rewrite join_cons, split_app_sep by apply Hx.
    rewrite IH; [reflexivity | exact Hrest | discriminate].
Qed.

Lemma resolve_steps (p acc : list string) :
  forallb component p = true ->
  fold_left Paths.resolve_step p acc = rev p ++ acc.
Proof.
  revert acc. induction p as [|c p IH]; intros acc H; cbn [fold_left rev].
  - reflexivity.
  - cbn [forallb] in H. apply andb_prop in H. destruct H as [Hc Hp].
    apply component_facts in Hc. destruct Hc as (H1 & H2 & H3 & _).
    unfold Paths.resolve_step at 2. rewrite H1, H2, H3, (IH _ Hp), <- app_assoc.
    reflexivity.
Qed.

(** The text of a resolved path resolves to that path, from any working
    directory. *)
Lemma resolve_str_path (cwd p : Paths.path) :
  forallb component p = true ->
  Paths.resolve cwd (Paths.str_path p) = p.
Proof.
  intros H. unfold Paths.resolve, Paths.str_path.
  change (PyStr.startswith "/" (String "/" (PyStr.join "/" p))) with
    (PyStr.startswith "" (PyStr.join "/" p)).
  assert (Hpre : PyStr.startswith "" (PyStr.join "/" p) = true)
    by (unfold PyStr.startswith; destruct (PyStr.join "/" p); reflexivity).
  rewrite Hpre.
  change (PyStr.split "/" (String "/" (PyStr.join "/" p)))
    with ("" :: PyStr.split "/" (PyStr.join "/" p)).
  destruct p as [|c p'].
  - reflexivity.
  - rewrite split_join by (exact H || discriminate).
    change (fold_left Paths.resolve_step ("" :: c :: p') [])
      with (fold_left Paths.resolve_step (c :: p') []).
    rewrite resolve_steps by exact H. rewrite app_nil_r. apply rev_involutive.
Qed.

Lemma separated_no_url (b : bool) (s : string) :
  separated b s = true -> PyStr.contains "://" s = false.
Proof.
  revert b. induction s as [|a s IH]; intros b H.
  - reflexivity.
  - cbn [PyStr.contains]. cbn [separated] in H.
    assert (Hrest : PyStr.contains "://" s = false).
    { destruct (Ascii.eqb a "/").
      - apply andb_prop in H. destruct H as [_ H]. exact (IH _ H).
      - exact (IH _ H). }
    rewrite Hrest, orb_false_r.
    unfold String.prefix. destruct (ascii_dec ":" a) as [<-|]; [|reflexivity].
    cbn [Ascii.eqb Bool.eqb] in H. cbv iota in H.
    destruct s as [|c1 s1]; [reflexivity|].
    destruct (ascii_dec "/" c1) as [<-|]; [|reflexivity].
    destruct s1 as [|c2 s2]; [reflexivity|].
    destruct (ascii_dec "/" c2) as [<-|]; [|reflexivity].
    cbn in H. discriminate H.
Qed.

Lemma separated_without (b : bool) (x r : string) :
  without "/" x = true -> String.eqb x "" = false ->
  separated b (x ++ r) = separated false r.
Proof.
  revert b. induction x as [|a x IH]; intros b H Hne; [discriminate|].
  cbn [without] in H. apply andb_prop in H. destruct H as [Ha Hx].
  apply negb_true_iff in Ha. cbn [append separated]. rewrite Ha.
  destruct x as [|a' x'].
  - reflexivity.
  - apply IH; [exact Hx | reflexivity].
Qed.

Lemma separated_join (p : Paths.path) :
  forallb component p = true -> separated true (PyStr.join "/" p) = true.
Proof.
  induction p as [|x [|y l] IH]; intros H.
  - reflexivity.
  - cbn [forallb] in H. apply andb_prop in H. destruct H as [Hx _].
    apply component_facts in Hx. destruct Hx as (Hne & _ & _ & Hx).
    change (PyStr.join "/" [x]) with x.
    rewrite <- (append_nil_r x), separated_without by assumption. reflexivity.
  - cbn [forallb] in H. apply andb_prop in H. destruct H as [Hx Hrest].
    apply component_facts in Hx. destruct Hx as (Hne & _ & _ & Hx).
    rewrite join_cons, separated_without by assumption.
    cbn [separated Ascii.eqb Bool.eqb negb andb]. cbv iota.
    apply IH. exact Hrest.
Qed.

(** The text of a resolved path holds no URL scheme marker. *)
Lemma str_path_no_url (p : Paths.path) :
  forallb component p = true -> PyStr.contains "://" (Paths.str_path p) = false.
Proof.
  intros H. apply separated_no_url with false. unfold Paths.str_path.
  cbn [separated Ascii.eqb Bool.eqb negb andb]. cbv iota.
  apply separated_join. exact H.
Qed.

Lemma is_parent_app (d p : Paths.path) :
  Paths.is_parent d p = true -> exists r, r <> [] /\ p = d ++ r.
Proof.
  revert p. induction d as [|x d IH]; intros p H.
  - destruct p as [|y p]; [discriminate|]. exists (y :: p). split; [discriminate | reflexivity].
  - destruct p as [|y p]; [discriminate|]. cbn [Paths.is_parent] in H.
    apply andb_prop in H. destruct H as [Hxy Hd].
    apply String.eqb_eq in Hxy. subst y.
    destruct (IH p Hd) as [r [Hr ->]]. exists r. split; [exact Hr | reflexivity].
Qed.

Lemma app_is_parent (d r : Paths.path) :
  r <> [] -> Paths.is_parent d (d ++ r) = true.
Proof.
  intros Hr. induction d as [|x d IH]; cbn [app Paths.is_parent].
  - destruct r; [contradiction | reflexivity].
  - rewrite String.eqb_refl. exact IH.
Qed.

Lemma join_app (d r : Paths.path) :
  d <> [] -> r <> [] ->
  PyStr.join "/" (d ++ r)
  = (PyStr.join "/" d ++ String "/" (PyStr.join "/" r))%string.
Proof.
  intros Hd Hr. induction d as [|x [|y l] IH]; [contradiction | |].
  - destruct r as [|z r]; [contradiction|]. reflexivity.
  - change ((x :: y :: l) ++ r) with (x :: y :: (l ++ r)).
    rewrite !join_cons. change (y :: l ++ r) with ((y :: l) ++ r).
    rewrite IH by discriminate. rewrite append_assoc. reflexivity.
Qed.

(** The text of a path below [d] starts with the text of [d]. *)
Lemma str_path_prefix (d r : Paths.path) :
  r <> [] ->
  PyStr.startswith (Paths.str_path d) (Paths.str_path (d ++ r)) = true.
Proof.
  intros Hr. unfold Paths.str_path. destruct d as [|x d].
  - cbn [app]. unfold PyStr.startswith, PyStr.join. cbn [String.concat String.prefix].
    destruct (ascii_dec "/" "/"); [|congruence].
    destruct (String.concat "/" r); reflexivity.
  - rewrite join_app by (assumption || discriminate).
    exact (prefix_append (String "/" (PyStr.join "/" (x :: d)))
                         (String "/" (PyStr.join "/" r))).
Qed.

(** X18. The validator accepts the text of every resolved path that
    names a file below the upload directory, and returns that path. *)
Theorem files_below_the_upload_directory_are_accepted
        (UPLOAD_DIR : Paths.path) (fs : Paths.FileSystem) (p : Paths.path) :
  forallb component p = true ->
  Paths.is_parent UPLOAD_DIR p = true ->
  Paths.is_file fs p = true ->
  Paths._validate_safe_path UPLOAD_DIR fs (Paths.str_path p) = Ok p.
Proof.
  intros Hp Hpar Hfile. unfold Paths._validate_safe_path. cbv zeta.
  change (String.eqb (Paths.str_path p) "") with false. cbv iota.
  rewrite str_path_no_url, resolve_str_path by exact Hp.
  destruct (is_parent_app _ _ Hpar) as [r [Hr Heq]].
  rewrite Heq at 1. rewrite str_path_prefix by exact Hr.
  rewrite Hfile. reflexivity.
Qed.

(** X18 (witness): the uploaded file of the worked installation. *)
Lemma files_below_the_upload_directory_are_accepted_witness :
  Paths._validate_safe_path Scenario.UPLOAD_DIR Scenario.disk
                            (Paths.str_path ["srv"; "uploads"; "rows.csv"])
  = Ok ["srv"; "uploads"; "rows.csv"].
Proof.
  exact (files_below_the_upload_directory_are_accepted
           Scenario.UPLOAD_DIR Scenario.disk ["srv"; "uploads"; "rows.csv"]
           eq_refl eq_refl eq_refl).
Defined.


(* ------------------------------------------------------------------ *)
(** ** From the upload to the reader                                   *)
(* ------------------------------------------------------------------ *)

Lemma stream_loop_ok (max_bytes : N) (chunks : list string) (size n : N)
      (written w : string) :
  Upload.stream_loop max_bytes chunks size written = (w, Ok n) ->
  w = (written ++ String.concat "" chunks)%string.
Proof.
  revert size written. induction chunks as [|c chunks IH]; intros size written H.
  - cbn in H. injection H as <- _. symmetry. apply append_nil_r.
  - cbn [Upload.stream_loop] in H.
    destruct (N.ltb max_bytes (size + Upload.len c)); [discriminate|].
    rewrite (IH _ _ H), append_assoc. f_equal.
    destruct chunks; simpl; [now rewrite append_nil_r | reflexivity].
Qed.

(** What a job returned by [create_import_job] says about the disk. *)
Lemma create_import_job_stored
      (UPLOAD_DIR : Paths.path) (rt : Runtime) (db db' : DB)
      (fs fs' : Paths.FileSystem) (file : Upload.UploadFile) (user : User)
      (file_id : string) (job : Job) :
  Upload.create_import_job UPLOAD_DIR rt db fs file user file_id = (fs', db', Ok job) ->
  exists ext,
    Upload._validate_ext (Upload.up_filename file) = Ok ext
    /\ In ext Upload.ALLOWED_EXTS
    /\ pl_file_path (job_payload job)
       = Some (Paths.str_path (Upload.dest_path UPLOAD_DIR file_id ext))
    /\ Paths.fs_lookup (Paths.fs_files fs') (Upload.dest_path UPLOAD_DIR file_id ext)
       = Some (Upload.up_content file).
Proof.
  unfold Upload.create_import_job.
  destruct (Upload._validate_ext (Upload.up_filename file)) as [ext|] eqn:Hext;
    [|discriminate].
  destruct (Upload.stream_loop _ _ _ _) as [w [size|e]] eqn:Hloop; cbn [fresh];
    intros H; [|discriminate].
  injection H as <- _ <-. exists ext. split; [reflexivity|]. split.
  - unfold Upload._validate_ext in Hext.
    destruct (PyStr.mem _ Upload.ALLOWED_EXTS) eqn:Hmem; cbn [negb] in Hext;
      [|discriminate].
    injection Hext as <-. apply mem_In. exact Hmem.
  - split; [reflexivity|].
    apply stream_loop_ok in Hloop. subst w.
    rewrite read_chunks_concat by (unfold Upload.chunk_size; discriminate).
    cbn [Upload.fs_write Paths.fs_files Paths.fs_lookup append].
    rewrite path_eqb_refl. reflexivity.
Qed.

Lemma without_app (c : ascii) (a b : string) :
  without c (a ++ b) = without c a && without c b.
Proof.
  induction a as [|x a IH]; cbn [append without]; [reflexivity|].
  rewrite IH, andb_assoc. reflexivity.
Qed.

Lemma last_dot_ext_app (seen : bool) (fid ext : string) :
  without "." fid = true -> String.eqb fid "" = false ->
  Paths.last_dot_ext seen (fid ++ ext) = Paths.last_dot_ext true ext.
Proof.
  revert seen. induction fid as [|a fid IH]; intros seen H Hne; [discriminate|].
  cbn [without] in H. apply andb_prop in H. destruct H as [Ha Hf].
  apply negb_true_iff in Ha. cbn [append Paths.last_dot_ext]. rewrite Ha.
  destruct fid as [|a' fid'].
  - reflexivity.
  - apply IH; [exact Hf | reflexivity].
Qed.

Lemma split_str_path (p : Paths.path) :
  forallb component p = true -> p <> [] ->
  PyStr.split "/" (Paths.str_path p) = "" :: p.
Proof.
  intros H Hne. unfold Paths.str_path.
  change (PyStr.split "/" (String "/" (PyStr.join "/" p)))
    with ("" :: PyStr.split "/" (PyStr.join "/" p)).
  rewrite split_join by assumption. reflexivity.
Qed.

(** The name under which an upload is stored is a path component. *)
Lemma stored_name_component (file_id ext : string) :
  String.eqb file_id "" = false ->
  without "/" file_id = true -> without "." file_id = true ->
  In ext Upload.ALLOWED_EXTS ->
  component (file_id ++ ext) = true.
Proof.
  intros Hne Hs Hd Hext. unfold component.
  assert (Hw : without "/" (file_id ++ ext) = true).
  { rewrite without_app, Hs.
    destruct Hext as [<- | [<- | [<- | [<- | []]]]]; reflexivity. }
  rewrite Hw, andb_true_r.
  destruct file_id as [|a fid]; [discriminate|].
  cbn [without] in Hd. apply andb_prop in Hd. destruct Hd as [Ha Hd].
  apply negb_true_iff in Ha.
  cbn [append String.eqb]. rewrite Ha. reflexivity.
Qed.

(** A file stored under a name of the upload is read back. *)
Lemma read_stored_file
      (UPLOAD_DIR : Paths.path) (fs : Paths.FileSystem) (file_id ext bytes : string) :
  forallb component UPLOAD_DIR = true ->
  String.eqb file_id "" = false ->
  without "/" file_id = true ->
  without "." file_id = true ->
  In ext Upload.ALLOWED_EXTS ->
  Paths.fs_lookup (Paths.fs_files fs) (Upload.dest_path UPLOAD_DIR file_id ext)
  = Some bytes ->
  Paths._validate_safe_path UPLOAD_DIR fs
                            (Paths.str_path (Upload.dest_path UPLOAD_DIR file_id ext))
  = Ok (Upload.dest_path UPLOAD_DIR file_id ext)
  /\ forall pd df,
      reader_of pd ext bytes = PdFrame df ->
      Paths._read_file UPLOAD_DIR pd fs
                       (Paths.str_path (Upload.dest_path UPLOAD_DIR file_id ext))
      = Ok (Upload.dest_path UPLOAD_DIR file_id ext, df).
Proof.
  intros Hdir Hne Hs Hd Hin Hbytes.
  pose proof (stored_name_component file_id ext Hne Hs Hd Hin) as Hname.
  assert (Hdest : forallb component (Upload.dest_path UPLOAD_DIR file_id ext) = true).
  { unfold Upload.dest_path. rewrite forallb_app, Hdir. cbn [forallb].
    rewrite Hname. reflexivity. }
  assert (Hvalid : Paths._validate_safe_path
                     UPLOAD_DIR fs
                     (Paths.str_path (Upload.dest_path UPLOAD_DIR file_id ext))
                   = Ok (Upload.dest_path UPLOAD_DIR file_id ext)).
  { unfold Paths._validate_safe_path. cbv zeta.
    change (String.eqb (Paths.str_path (Upload.dest_path UPLOAD_DIR file_id ext)) "")
      with false. cbv iota.
    rewrite str_path_no_url, resolve_str_path by exact Hdest.
    unfold Upload.dest_path at 1. rewrite str_path_prefix by discriminate.
    unfold Paths.is_file. rewrite Hbytes. reflexivity. }
  split; [exact Hvalid|].
  intros pd df Hread. unfold Paths._read_file. rewrite Hvalid, Hbytes.
  assert (Hsplit : Paths.splitext_ext
                     (Paths.str_path (Upload.dest_path UPLOAD_DIR file_id ext))
                   = ext).
  { unfold Paths.splitext_ext.
    rewrite split_str_path
      by (exact Hdest || (unfold Upload.dest_path; destruct UPLOAD_DIR; discriminate)).
    unfold Upload.dest_path.
    change ("" :: UPLOAD_DIR ++ [(file_id ++ ext)%string])
      with (("" :: UPLOAD_DIR) ++ [(file_id ++ ext)%string]).
    rewrite last_last, last_dot_ext_app by assumption.
    destruct Hin as [<- | [<- | [<- | [<- | []]]]]; reflexivity. }
  rewrite Hsplit. unfold reader_of in Hread.
  destruct Hin as [<- | [<- | [<- | [<- | []]]]];
    cbn in Hread |- *; rewrite Hread; reflexivity.
Qed.

(** X19. An upload that [create_import_job] accepted can be read back
    through the path of its job: when the upload directory is a resolved
    path and the random name is not empty and holds no separator and no
    dot, the validator accepts the stored path, which names the
    destination file, below the upload directory; and [_read_file] hands
    the uploaded bytes to the pandas reader of the extension that
    [_validate_ext] returned. *)
Theorem an_upload_can_be_read_back
        (UPLOAD_DIR : Paths.path) (rt : Runtime) (db db' : DB)
        (fs fs' : Paths.FileSystem) (file : Upload.UploadFile) (user : User)
        (file_id : string) (job : Job) :
  forallb component UPLOAD_DIR = true ->
  String.eqb file_id "" = false ->
  without "/" file_id = true ->
  without "." file_id = true ->
  Upload.create_import_job UPLOAD_DIR rt db fs file user file_id = (fs', db', Ok job) ->
  exists file_path ext,
    pl_file_path (job_payload job) = Some file_path
    /\ Upload._validate_ext (Upload.up_filename file) = Ok ext
    /\ Paths._validate_safe_path UPLOAD_DIR fs' file_path
       = Ok (Upload.dest_path UPLOAD_DIR file_id ext)
    /\ Paths.within UPLOAD_DIR (Upload.dest_path UPLOAD_DIR file_id ext) = true
    /\ forall pd df,
        reader_of pd ext (Upload.up_content file) = PdFrame df ->
        Paths._read_file UPLOAD_DIR pd fs' file_path
        = Ok (Upload.dest_path UPLOAD_DIR file_id ext, df).
Proof.
  intros Hdir Hne Hs Hd Hjob.
  apply create_import_job_stored in Hjob.
  destruct Hjob as (ext & Hext & Hin & Hpath & Hbytes).
  destruct (read_stored_file UPLOAD_DIR fs' file_id ext _ Hdir Hne Hs Hd Hin Hbytes)
    as [Hvalid Hread].
  exists (Paths.str_path (Upload.dest_path UPLOAD_DIR file_id ext)), ext.
  split; [exact Hpath|]. split; [exact Hext|]. split; [exact Hvalid|].
  split; [|exact Hread].
  unfold Paths.within, Upload.dest_path.
  rewrite app_is_parent by discriminate. reflexivity.
Qed.

(** X19 (witness): the upload of inventory.csv under the random name
    f00d. *)
Lemma an_upload_can_be_read_back_witness :
  exists file_path ext,
    pl_file_path (job_payload Scenario.stored_job) = Some file_path
    /\ Upload._validate_ext (Upload.up_filename Scenario.upload) = Ok ext
    /\ Paths._validate_safe_path Scenario.UPLOAD_DIR Scenario.stored_disk file_path
       = Ok (Upload.dest_path Scenario.UPLOAD_DIR "f00d" ext)
    /\ Paths.within Scenario.UPLOAD_DIR
                    (Upload.dest_path Scenario.UPLOAD_DIR "f00d" ext) = true
    /\ forall pd df,
        reader_of pd ext (Upload.up_content Scenario.upload) = PdFrame df ->
        Paths._read_file Scenario.UPLOAD_DIR pd Scenario.stored_disk file_path
        = Ok (Upload.dest_path Scenario.UPLOAD_DIR "f00d" ext, df).
Proof.
  exact (an_upload_can_be_read_back
           Scenario.UPLOAD_DIR Scenario.rt Scenario.db0 Scenario.stored_db
           Scenario.disk Scenario.stored_disk Scenario.upload Scenario.it_user
           "f00d" Scenario.stored_job eq_refl eq_refl eq_refl eq_refl
           ltac:(vm_compute; reflexivity)).
Defined.


(* ------------------------------------------------------------------ *)
(** ** Asset sets are created under NEW_SET only                       *)
(* ------------------------------------------------------------------ *)

Lemma fold_left_asset_sets {A : Type} (f : DB -> A -> DB) (xs : list A) (db : DB) :
  (forall d x, db_asset_sets (f d x) = db_asset_sets d) ->
  db_asset_sets (fold_left f xs db) = db_asset_sets db.
Proof.
  intros Hf. revert db. induction xs as [|x xs IH]; intros db; simpl.
  - reflexivity.
  - rewrite IH. apply Hf.
Qed.

Lemma asset_setup_sets
      (rt : Runtime) (db : DB) (strategy : string) (options : Executor.Options)
      (user_id : uuid) :
  String.eqb strategy "NEW_SET" = false ->
  db_asset_sets (fst (AssetImport.strategy_setup rt db strategy options user_id))
  = db_asset_sets db.
Proof.
  intros Hs. unfold AssetImport.strategy_setup. rewrite Hs.
  destruct (String.eqb strategy "EXISTING_SET").
  - destruct (Executor.opt_asset_set_id options) as [s|]; [|reflexivity].
    destruct (String.eqb s ""); [reflexivity|].
    destruct (parse_uuid rt s); [|reflexivity].
    destruct (find _ (db_asset_sets db)); reflexivity.
  - destruct (String.eqb strategy "MERGE"); [|reflexivity].
    destruct (Executor.opt_create_missing_fields options); [|reflexivity].
    cbn [fst]. apply fold_left_asset_sets. intros d x.
    destruct (existsb _ (db_custom_fields d)); reflexivity.
Qed.

Lemma user_setup_sets
      (rt : Runtime) (db : DB) (strategy : string) (options : Executor.Options)
      (user_id : uuid) :
  String.eqb strategy "NEW_SET" = false ->
  db_asset_sets (fst (UserImport.strategy_setup rt db strategy options user_id))
  = db_asset_sets db.
Proof.
  intros Hs. unfold UserImport.strategy_setup. rewrite Hs.
  destruct (String.eqb strategy "EXISTING_SET"); [|reflexivity].
  destruct (Executor.opt_asset_set_id options) as [s|]; [|reflexivity].
  destruct (String.eqb s ""); reflexivity.
Qed.

Lemma user_row_sets
      (fm : Dict.dict (option string)) (asset_set_id : option set_ref)
      (i : nat) (r : record) (db : DB) :
  db_asset_sets (fst (UserImport.user_row fm asset_set_id i r db)) = db_asset_sets db.
Proof.
  unfold UserImport.user_row.
  destruct (UserImport.columns_loop fm r _) as [l|]; [|reflexivity].
  destruct (UserImport.email l); [|reflexivity].
  destruct (find _ (db_users db)); reflexivity.
Qed.

(** X20. Under every strategy but NEW_SET, neither executor adds,
    removes or changes an asset set, whatever the file and the options
    and whether the run returns or raises. *)
Theorem only_new_set_adds_a_set
        (UPLOAD_DIR : Paths.path) (pd : Pandas) (fs : Paths.FileSystem)
        (rt : Runtime) (db : DB) (job_id : uuid) (strategy : string)
        (options : Executor.Options) (user_id : uuid) (type : string) :
  strategy <> "NEW_SET" ->
  db_asset_sets (fst (Driver.execute_logic UPLOAD_DIR pd fs rt db job_id strategy
                                           options user_id type))
  = db_asset_sets db.
Proof.
  intros Hne. apply String.eqb_neq in Hne.
  unfold Driver.execute_logic. destruct (String.eqb type "user").
  - unfold UserImport.execute_user_import.
    destruct (Executor.get_job rt db job_id) as [job|]; [|reflexivity].
    destruct (pl_file_path (job_payload job)) as [file_path|]; [|reflexivity].
    destruct (String.eqb file_path ""); [reflexivity|].
    rewrite wrap_fatal_fst.
    destruct (Paths._read_file UPLOAD_DIR pd fs file_path) as [[p df]|];
      [|reflexivity].
    pose proof (user_setup_sets rt db strategy options user_id Hne) as Hs.
    destruct (UserImport.strategy_setup rt db strategy options user_id)
      as [db1 [sid|e]]; [|exact Hs].
    unfold UserImport.import_rows.
    pose proof (row_loop_invariant DB
                  (UserImport.user_row
                     (Executor.normalize_mapping (Executor.opt_mapping options)) sid)
                  (fun d => db_asset_sets d = db_asset_sets db)
                  (fun i r st H => eq_trans (user_row_sets _ _ i r st) H)
                  (to_records df) 0%nat db1 0%nat [] Hs) as Hinv.
    destruct (Executor.row_loop _ _ _ _ _ _ _) as [[db2 imp] errs].
    exact Hinv.
  - unfold AssetImport.execute_import.
    destruct (Executor.get_job rt db job_id) as [job|]; [|reflexivity].
    destruct (pl_file_path (job_payload job)) as [file_path|]; [|reflexivity].
    destruct (String.eqb file_path ""); [reflexivity|].
    rewrite wrap_fatal_fst.
    destruct (Paths._read_file UPLOAD_DIR pd fs file_path) as [[p df]|];
      [|reflexivity].
    pose proof (asset_setup_sets rt db strategy options user_id Hne) as Hs.
    destruct (AssetImport.strategy_setup rt db strategy options user_id)
      as [db1 [sid|e]]; [|exact Hs].
    pose proof (rows_frame_import_rows rt db1 options sid (to_records df)) as Hrows.
    destruct (AssetImport.import_rows rt db1 options sid (to_records df))
      as [[st imp] errs].
    destruct Hrows as [_ _ _ _ _ Hsets _ _ _]. cbn [fst] in *. congruence.
Qed.

(** X20 (witness): the MERGE run of the worked installation. *)
Lemma only_new_set_adds_a_set_witness :
  db_asset_sets
    (fst (Driver.execute_logic
            Scenario.UPLOAD_DIR (Scenario.csv_reader Scenario.named_table)
            Scenario.disk Scenario.rt Scenario.db0 1%N "MERGE"
            Scenario.rack_fields 7%N "asset"))
  = db_asset_sets Scenario.db0.
Proof.
  apply (only_new_set_adds_a_set
           Scenario.UPLOAD_DIR (Scenario.csv_reader Scenario.named_table)
           Scenario.disk Scenario.rt Scenario.db0 1%N "MERGE"
           Scenario.rack_fields 7%N "asset").
  discriminate.
Defined.


(* ------------------------------------------------------------------ *)
(** ** The people of a user file                                       *)
(* ------------------------------------------------------------------ *)

(** An invariant of the row loop that follows the rows processed so
    far. *)
Lemma row_loop_prefix (St : Type) (body : nat -> record -> St -> St * result unit)
      (P : list record -> St -> Prop) :
  (forall done i r st, P done st -> P (done ++ [r]) (fst (body i r st))) ->
  forall records done i st n errors,
    P done st ->
    P (done ++ records)
      (fst (fst (Executor.row_loop St body i records st n errors))).
Proof.
  intros Hbody records.
  induction records as [|r rest IH]; intros done i st n errors Hst; simpl.
  - rewrite app_nil_r. exact Hst.
  - pose proof (Hbody done i r st Hst) as Hnext.
    change (r :: rest) with ([r] ++ rest). rewrite app_assoc.
    destruct (body i r st) as [st' [u|e]]; apply IH; exact Hnext.
Qed.

(** A row that yields an address leaves a user of that address, grouped
    as the run groups. *)
Lemma user_row_stores
      (fm : Dict.dict (option string)) (sid : option set_ref)
      (i : nat) (r : record) (db : DB) (em : string) :
  row_email fm r = Some em ->
  person_stored (fst (UserImport.user_row fm sid i r db)) sid em.
Proof.
  unfold row_email, UserImport.user_row.
  destruct (UserImport.columns_loop fm r _) as [l|]; [|discriminate].
  intros ->.
  destruct (find _ (db_users db)) as [eu|] eqn:Hfind; cbn [fst].
  - apply find_some in Hfind. destruct Hfind as [Hin Heq].
    apply String.eqb_eq in Heq.
    eexists. split; [|split].
    + cbn [db_users set_users].
      apply in_map with (f := fun u => if N.eqb (u_id u) (u_id eu) then _ else u).
      exact Hin.
    + cbn beta. rewrite N.eqb_refl. exact Heq.
    + cbn beta. rewrite N.eqb_refl. reflexivity.
  - eexists. split; [|split].
    + cbn. apply in_or_app. right. left. reflexivity.
    + reflexivity.
    + reflexivity.
Qed.

(** A later row does not undo it. *)
Lemma user_row_keeps
      (fm : Dict.dict (option string)) (sid : option set_ref)
      (i : nat) (r : record) (db : DB) (em : string) :
  accounts_distinct db ->
  person_stored db sid em ->
  person_stored (fst (UserImport.user_row fm sid i r db)) sid em.
Proof.
  intros [[Hnd _] _] (u & Hu & Hem & Hset). unfold UserImport.user_row.
  destruct (UserImport.columns_loop fm r _) as [l|]; [|exists u; auto].
  destruct (UserImport.email l) as [em'|]; [|exists u; auto].
  destruct (find _ (db_users db)) as [eu|] eqn:Hfind; cbn [fst].
  - apply find_some in Hfind. destruct Hfind as [Hin _].
    eexists. split; [|split].
    + cbn [db_users set_users].
      apply in_map with (f := fun u => if N.eqb (u_id u) (u_id eu) then _ else u).
      exact Hu.
    + cbn beta. destruct (N.eqb (u_id u) (u_id eu)) eqn:E; [|exact Hem].
      apply N.eqb_eq in E.
      rewrite <- (NoDup_map_inj u_id (db_users db) u eu Hnd Hu Hin E). exact Hem.
    + cbn beta. destruct (N.eqb (u_id u) (u_id eu)); [reflexivity | exact Hset].
  - exists u. split; [|auto]. cbn. apply in_or_app. left. exact Hu.
Qed.

(** The rows of a user file, all together: every row that yields an
    address leaves its user. *)
Lemma import_rows_stores
      (db1 : DB) (options : Executor.Options) (sid : option set_ref)
      (records : list record) :
  accounts_distinct db1 ->
  accounts_distinct (fst (fst (UserImport.import_rows db1 options sid records)))
  /\ forall r em,
      In r records ->
      row_email (Executor.normalize_mapping (Executor.opt_mapping options)) r
      = Some em ->
      person_stored (fst (fst (UserImport.import_rows db1 options sid records)))
                    sid em.
Proof.
  intros Hd1. unfold UserImport.import_rows.
  set (fm := Executor.normalize_mapping (Executor.opt_mapping options)).
  pose proof (row_loop_prefix DB (UserImport.user_row fm sid)
                (fun done d =>
                   accounts_distinct d
                   /\ forall r em, In r done -> row_email fm r = Some em ->
                                   person_stored d sid em)) as Hinv.
  cbn beta in Hinv.
  assert (Hstep : forall (done : list record) (i : nat) (r : record) (st : DB),
             accounts_distinct st
             /\ (forall r0 em, In r0 done -> row_email fm r0 = Some em ->
                               person_stored st sid em) ->
             accounts_distinct (fst (UserImport.user_row fm sid i r st))
             /\ (forall r0 em, In r0 (done ++ [r]) -> row_email fm r0 = Some em ->
                               person_stored (fst (UserImport.user_row fm sid i r st))
                                             sid em)).
  { intros done i r st [Hacc Hold]. split.
    - apply user_row_accounts. exact Hacc.
    - intros r0 em Hin Hem. apply in_app_or in Hin.
      destruct Hin as [Hin | [<- | []]].
      + apply user_row_keeps; [exact Hacc | exact (Hold r0 em Hin Hem)].
      + apply user_row_stores. exact Hem. }
  apply (Hinv Hstep records [] 0%nat db1 0%nat []).
  split; [exact Hd1 | intros r em []].
Qed.

(** X21. When the stored users have pairwise distinct keys and addresses
    and the user executor returns a report, every row of the file whose
    columns yield an address has its user afterwards: a stored user of
    that address, grouped under the set that the report names. *)
Theorem every_imported_person_is_stored
        (UPLOAD_DIR : Paths.path) (pd : Pandas) (fs : Paths.FileSystem)
        (rt : Runtime) (db db' : DB) (job_id : uuid) (strategy : string)
        (options : Executor.Options) (user_id : uuid) (report : Report) :
  accounts_distinct db ->
  UserImport.execute_user_import UPLOAD_DIR pd fs rt db job_id strategy options
                                 user_id = (db', Ok report) ->
  exists job file_path p df sid,
    find_job db job_id = Some job
    /\ pl_file_path (job_payload job) = Some file_path
    /\ Paths._read_file UPLOAD_DIR pd fs file_path = Ok (p, df)
    /\ rp_set_id report = option_map (UserImport.str_set_ref rt) sid
    /\ forall r em,
        In r (to_records df) ->
        row_email (Executor.normalize_mapping (Executor.opt_mapping options)) r
        = Some em ->
        person_stored db' sid em.
Proof.
  intros Hd. unfold UserImport.execute_user_import.
  destruct (Executor.get_job rt db job_id) as [job|e] eqn:Hjob; [|discriminate].
  apply get_job_ok in Hjob.
  destruct (pl_file_path (job_payload job)) as [file_path|] eqn:Hpath;
    [|discriminate].
  destruct (String.eqb file_path ""); [discriminate|].
  intros H. apply wrap_fatal_ok in H.
  destruct (Paths._read_file UPLOAD_DIR pd fs file_path) as [[p df]|e] eqn:Hread;
    [|discriminate].
  destruct (user_setup_accounts rt db strategy options user_id) as [Hu Hn].
  destruct (UserImport.strategy_setup rt db strategy options user_id)
    as [db1 [sid|e]]; [|discriminate].
  cbn [fst] in Hu, Hn.
  assert (Hd1 : accounts_distinct db1)
    by (apply users_keyed_same with db; [rewrite Hu; reflexivity | exact Hn | exact Hd]).
  destruct (import_rows_stores db1 options sid (to_records df) Hd1) as [_ Hstored].
  destruct (UserImport.import_rows db1 options sid (to_records df))
    as [[db2 imp] errs].
  injection H as <- <-. cbn [fst] in Hstored.
  exists job, file_path, p, df, sid.
  repeat (split; [reflexivity || assumption|]). exact Hstored.
Qed.

(** X21 (witness): the user file of three rows, two of them with an
    address. *)
Lemma every_imported_person_is_stored_witness :
  exists job file_path p df sid,
    find_job Scenario.db0 1%N = Some job
    /\ pl_file_path (job_payload job) = Some file_path
    /\ Paths._read_file Scenario.UPLOAD_DIR
                        (Scenario.csv_reader Scenario.people_table)
                        Scenario.disk file_path = Ok (p, df)
    /\ rp_set_id (mkReport true 2 ["Row 1: Email is required"] None)
       = option_map (UserImport.str_set_ref Scenario.rt) sid
    /\ forall r em,
        In r (to_records df) ->
        row_email (Executor.normalize_mapping
                     (Executor.opt_mapping Scenario.no_options)) r = Some em ->
        person_stored (fst Scenario.people_run) sid em.
Proof.
  refine (every_imported_person_is_stored
            Scenario.UPLOAD_DIR (Scenario.csv_reader Scenario.people_table)
            Scenario.disk Scenario.rt Scenario.db0 (fst Scenario.people_run) 1%N
            "GLOBAL" Scenario.no_options 7%N
            (mkReport true 2 ["Row 1: Email is required"] None) _ _).
  - split; [split|]; simpl.
    + constructor; [intros [] | constructor].
    + constructor; [reflexivity | constructor].
    + constructor; [intros [] | constructor].
  - vm_compute. reflexivity.
Defined.


(* ------------------------------------------------------------------ *)
(** ** The people that the analysis proposes                           *)
(* ------------------------------------------------------------------ *)

Lemma unique_from_In (seen vs : list value) (v : value) :
  In v (Analyzer.unique_from seen vs) -> In v vs.
Proof.
  revert seen. induction vs as [|x vs IH]; intros seen; cbn [Analyzer.unique_from].
  - intros [].
  - destruct (existsb (Analyzer.value_eqb x) seen).
    + intros H. right. exact (IH _ H).
    + intros [<- | H]; [left; reflexivity | right; exact (IH _ H)].
Qed.

Lemma match_user_refers (user_map : Dict.dict uuid) (val_str : string)
      (ids : list uuid) (id : uuid) :
  map_refers ids user_map ->
  Analyzer.match_user user_map val_str = Some id -> In id ids.
Proof.
  intros Hm. unfold Analyzer.match_user.
  destruct (Dict.has user_map (PyStr.lower val_str)); [apply Hm|].
  destruct (Difflib.get_close_matches_1 _ _ _) as [|m ms]; [discriminate | apply Hm].
Qed.

(** The loop of step 3 records, for values of the column only, keys of
    stored users only. *)
Lemma user_matches_fold
      (rt : Runtime) (user_map : Dict.dict uuid) (ids : list uuid)
      (vals : list value) (acc : Dict.dict string)
      (P : string -> string -> Prop) :
  map_refers ids user_map ->
  (forall val id, In val vals -> In id ids ->
                  P (PyStr.strip (str_value val)) (str_uuid rt id)) ->
  (forall k v, Dict.get acc k = Some v -> P k v) ->
  forall k v,
    Dict.get
      (fold_left
         (fun user_matches val =>
            match Analyzer.match_user user_map (PyStr.strip (str_value val)) with
            | Some id =>
                Dict.set user_matches (PyStr.strip (str_value val)) (str_uuid rt id)
            | None => user_matches
            end) vals acc) k = Some v ->
    P k v.
Proof.
  intros Hm. revert acc. induction vals as [|val vals IH]; intros acc Hvals Hacc;
    cbn [fold_left].
  - exact Hacc.
  - apply IH.
    + intros val' id Hin Hid. apply Hvals; [right; exact Hin | exact Hid].
    + destruct (Analyzer.match_user user_map (PyStr.strip (str_value val)))
        as [id|] eqn:Hmatch; [|exact Hacc].
      intros k v.
      destruct (String.eqb (PyStr.strip (str_value val)) k) eqn:E.
      * apply String.eqb_eq in E. subst k. rewrite dict_get_set_same.
        intros H. injection H as <-.
        apply Hvals; [left; reflexivity|].
        eapply match_user_refers; eassumption.
      * rewrite dict_get_set_other by exact E. apply Hacc.
Qed.

(** X22. In a report of [analyze_file], every entry of [user_matches]
    pairs a value of the file with a stored user: its key is the trimmed
    text of a cell, not missing, of the first person column, and its
    value is the key of a user of the database. *)
Theorem analysis_proposes_stored_users
        (UPLOAD_DIR : Paths.path) (pd : Pandas) (fs : Paths.FileSystem)
        (rt : Runtime) (db : DB) (file_path : string) (report : Analyzer.Analysis) :
  Analyzer.analyze_file UPLOAD_DIR pd fs rt db file_path = Ok report ->
  exists p df,
    Paths._read_file UPLOAD_DIR pd fs file_path = Ok (p, df)
    /\ forall k v,
        Dict.get (Analyzer.an_user_matches report) k = Some v ->
        exists col rest val u,
          Analyzer.potential_user_cols (df_columns df) = Ok (col :: rest)
          /\ In val (Analyzer.column df col) /\ val <> VNone
          /\ k = PyStr.strip (str_value val)
          /\ In u (db_users db) /\ v = str_uuid rt (u_id u).
Proof.
  intros H. apply analyze_file_ok in H.
  destruct H as (p & df & matches & Hread & _ & Hmatch & ->).
  exists p, df. split; [exact Hread|]. cbn [Analyzer.an_user_matches].
  unfold Analyzer.user_matching in Hmatch.
  destruct (Analyzer.potential_user_cols (df_columns df)) as [[|col rest]|e];
    [| |discriminate]; injection Hmatch as <-.
  - intros k v Hget. discriminate Hget.
  - apply (user_matches_fold rt _ (map u_id (db_users db))).
    + apply comprehension_refers.
    + intros val id Hval Hid. apply in_map_iff in Hid. destruct Hid as [u [<- Hu]].
      exists col, rest, val, u.
      apply unique_from_In in Hval. apply filter_In in Hval.
      destruct Hval as [Hcol Hnn].
      repeat split; auto. intros ->. discriminate.
    + intros k v Hget. discriminate Hget.
Qed.

(** X22 (witness): the owners table analysed among the two colleagues. *)
Lemma analysis_proposes_stored_users_witness :
  exists p df,
    Paths._read_file Scenario.UPLOAD_DIR
                     (Scenario.csv_reader Scenario.owners_table)
                     Scenario.disk "/srv/uploads/rows.csv" = Ok (p, df)
    /\ forall k v,
        Dict.get (Analyzer.an_user_matches Scenario.owners_report) k = Some v ->
        exists col rest val u,
          Analyzer.potential_user_cols (df_columns df) = Ok (col :: rest)
          /\ In val (Analyzer.column df col) /\ val <> VNone
          /\ k = PyStr.strip (str_value val)
          /\ In u (db_users Scenario.db_bobs)
          /\ v = str_uuid Scenario.rt (u_id u).
Proof.
  exact (analysis_proposes_stored_users
           Scenario.UPLOAD_DIR (Scenario.csv_reader Scenario.owners_table)
           Scenario.disk Scenario.rt Scenario.db_bobs "/srv/uploads/rows.csv"
           Scenario.owners_report ltac:(vm_compute; reflexivity)).
Defined.


(* ------------------------------------------------------------------ *)
(** ** The preview                                                     *)
(* ------------------------------------------------------------------ *)

(** X23. The preview of a file that the reader accepts shows its first
    rows, five at most, and reports the headers and the row count that
    both analyzers report for that file; for a file that the reader
    refuses, the preview is the error entry with the reader's message,
    and both analyzers raise that validation failure. *)
Theorem preview_agrees_with_the_analyzers
        (UPLOAD_DIR : Paths.path) (pd : Pandas) (fs : Paths.FileSystem)
        (rt : Runtime) (db : DB) (file_path : string) :
  match UserAnalyzer.parse_file_preview UPLOAD_DIR pd fs file_path with
  | UserAnalyzer.Preview headers rows total_rows =>
      List.length rows = Nat.min 5 total_rows
      /\ (exists more, exists p df,
            Paths._read_file UPLOAD_DIR pd fs file_path = Ok (p, df)
            /\ to_records df = rows ++ more)
      /\ (forall a, Analyzer.analyze_file UPLOAD_DIR pd fs rt db file_path = Ok a ->
                    Analyzer.an_headers a = headers
                    /\ Analyzer.an_total_rows a = total_rows)
      /\ (forall a, UserAnalyzer.analyze_user_file UPLOAD_DIR pd fs file_path = Ok a ->
                    UserAnalyzer.an_headers a = headers
                    /\ UserAnalyzer.an_total_rows a = total_rows)
  | UserAnalyzer.PreviewError message =>
      exists e,
        exn_cls e = ValidationException /\ message = str_exn e
        /\ Analyzer.analyze_file UPLOAD_DIR pd fs rt db file_path = Raise e
        /\ UserAnalyzer.analyze_user_file UPLOAD_DIR pd fs file_path = Raise e
  end.
Proof.
  unfold UserAnalyzer.parse_file_preview, Analyzer.analyze_file,
    UserAnalyzer.analyze_user_file.
  destruct (Paths._read_file UPLOAD_DIR pd fs file_path) as [[p df]|e] eqn:Hread.
  - split; [|split; [|split]].
    + rewrite length_firstn, to_records_length. reflexivity.
    + exists (skipn 5 (to_records df)), p, df.
      split; [reflexivity | symmetry; apply firstn_skipn].
    + intros a.
      destruct (Analyzer.classify _ (df_columns df) [] []) as [[mapped new]|e1].
      * destruct (Analyzer.user_matching rt db df) as [m|e2].
        -- intros H. injection H as <-. split; reflexivity.
        -- destruct (is_validation e2); discriminate.
      * destruct (is_validation e1); discriminate.
    + intros a.
      destruct (UserAnalyzer.classify (df_columns df) [] []) as [[mapped new]|e1].
      * intros H. injection H as <-. split; reflexivity.
      * destruct (is_validation e1); discriminate.
  - exists e. split; [|repeat split].
    exact (read_file_raises UPLOAD_DIR pd fs file_path e Hread).
Qed.

(* ------------------------------------------------------------------ *)
(** ** Normalized headers                                              *)
(* ------------------------------------------------------------------ *)

Lemma alnum_char_facts (c : ascii) :
  PyStr.is_lower_alnum c = true ->
  Ascii.eqb c "_" = false /\ PyStr.is_upper c = false /\ PyStr.is_space c = false.
Proof.
  destruct c as [[] [] [] [] [] [] [] []]; vm_compute; intros H;
    first [discriminate H | repeat split].
Qed.

Lemma sub_non_alnum_loose (in_run : bool) (s : string) :
  loose in_run (PyStr.sub_non_alnum in_run s) = true.
Proof.
  revert in_run. induction s as [|c s IH]; intros in_run; cbn [PyStr.sub_non_alnum].
  - reflexivity.
  - destruct (PyStr.is_lower_alnum c) eqn:E.
    + cbn [loose]. destruct (alnum_char_facts c E) as [-> _]. rewrite E. apply IH.
    + destruct in_run; [apply IH|]. cbn [loose Ascii.eqb Bool.eqb negb andb].
      apply IH.
Qed.

Lemma sub_underscores_loose (b : bool) (t : string) :
  loose b t = true -> PyStr.sub_underscores b t = t.
Proof.
  revert b. induction t as [|c t IH]; intros b H; cbn [PyStr.sub_underscores].
  - reflexivity.
  - cbn [loose] in H. destruct (Ascii.eqb c "_") eqn:E.
    + apply andb_prop in H. destruct H as [Hb Ht].
      apply negb_true_iff in Hb. subst b.
      apply Ascii.eqb_eq in E. subst c. rewrite (IH _ Ht). reflexivity.
    + apply andb_prop in H. destruct H as [_ Ht]. rewrite (IH _ Ht). reflexivity.
Qed.

Lemma lstrip_loose (b : bool) (t : string) :
  loose b t = true -> loose true (PyStr.lstrip_by (Ascii.eqb "_") t) = true.
Proof.
  destruct t as [|c t]; intros H; [reflexivity|].
  cbn [loose] in H. cbn [PyStr.lstrip_by]. rewrite (Ascii.eqb_sym "_" c).
  destruct (Ascii.eqb c "_") eqn:E.
  - apply andb_prop in H. destruct H as [_ Ht].
    destruct t as [|c' t']; [reflexivity|].
    cbn [PyStr.lstrip_by]. rewrite (Ascii.eqb_sym "_" c').
    cbn [loose] in Ht. destruct (Ascii.eqb c' "_") eqn:E'; [discriminate Ht|].
    cbn [loose]. rewrite E'. exact Ht.
  - cbn [loose]. rewrite E. exact H.
Qed.

Lemma rstrip_loose (b : bool) (u : string) :
  loose b u = true ->
  PyStr.rstrip_by (Ascii.eqb "_") u = "" \/
  groups b (PyStr.rstrip_by (Ascii.eqb "_") u) = true.
Proof.
  revert b. induction u as [|c u IH]; intros b H; [left; reflexivity|].
  cbn [loose] in H. cbn [PyStr.rstrip_by]. rewrite (Ascii.eqb_sym "_" c).
  destruct (Ascii.eqb c "_") eqn:E.
  - apply andb_prop in H. destruct H as [Hb Hu].
    destruct (IH _ Hu) as [-> | Hg]; [left; reflexivity|].
    destruct (PyStr.rstrip_by (Ascii.eqb "_") u) as [|c' r] eqn:Er;
      [discriminate Hg|].
    right. cbn [groups]. rewrite E, Hb. exact Hg.
  - apply andb_prop in H. destruct H as [Hc Hu]. right.
    destruct (IH _ Hu) as [-> | Hg].
    + cbn [groups]. rewrite E, Hc. reflexivity.
    + destruct (PyStr.rstrip_by (Ascii.eqb "_") u) as [|c' r] eqn:Er.
      * cbn [groups]. rewrite E, Hc. reflexivity.
      * cbn [groups]. rewrite E, Hc. exact Hg.
Qed.

(** What [_normalize_header] returns has the shape of a normalized
    header. *)
Lemma normalize_str_normalized (s : string) :
  normalized (Executor.normalize_str s) = true.
Proof.
  unfold Executor.normalize_str, PyStr.strip_by.
  set (t1 := PyStr.sub_non_alnum false (PyStr.strip (PyStr.lower s))).
  pose proof (sub_non_alnum_loose false (PyStr.strip (PyStr.lower s))) as H1.
  fold t1 in H1. rewrite (sub_underscores_loose false t1 H1).
  apply lstrip_loose in H1. apply rstrip_loose in H1.
  unfold normalized. destruct H1 as [-> | ->]; [reflexivity | apply orb_true_r].
Qed.

Lemma groups_weaken (t : string) : groups true t = true -> groups false t = true.
Proof.
  destruct t as [|c t]; [discriminate|]. cbn [groups].
  destruct (Ascii.eqb c "_"); [discriminate | auto].
Qed.

Lemma groups_loose (b : bool) (t : string) : groups b t = true -> loose b t = true.
Proof.
  revert b. induction t as [|c t IH]; intros b H; [reflexivity|].
  cbn [groups] in H. cbn [loose].
  destruct (Ascii.eqb c "_"); apply andb_prop in H; destruct H as [H1 H2];
    rewrite H1, (IH _ H2); reflexivity.
Qed.

Lemma groups_lower (b : bool) (t : string) : groups b t = true -> PyStr.lower t = t.
Proof.
  revert b. induction t as [|c t IH]; intros b H; [reflexivity|].
  cbn [groups] in H. cbn [PyStr.lower].
  destruct (Ascii.eqb c "_") eqn:E; apply andb_prop in H; destruct H as [H1 H2];
    rewrite (IH _ H2); f_equal.
  - apply Ascii.eqb_eq in E. subst c. reflexivity.
  - unfold PyStr.lower_char. destruct (alnum_char_facts c H1) as (_ & -> & _).
    reflexivity.
Qed.

Lemma groups_no_space (b : bool) (t : string) :
  groups b t = true ->
  PyStr.lstrip_by PyStr.is_space t = t /\ PyStr.rstrip_by PyStr.is_space t = t.
Proof.
  revert b. induction t as [|c t IH]; intros b H; [split; reflexivity|].
  cbn [groups] in H.
  assert (Hc : PyStr.is_space c = false /\ exists b', groups b' t = true).
  { destruct (Ascii.eqb c "_") eqn:E; apply andb_prop in H; destruct H as [H1 H2].
    - apply Ascii.eqb_eq in E. subst c. split; [reflexivity | eauto].
    - destruct (alnum_char_facts c H1) as (_ & _ & Hs). split; [exact Hs | eauto]. }
  destruct Hc as [Hs [b' Ht]]. destruct (IH _ Ht) as [_ Hr].
  cbn [PyStr.lstrip_by PyStr.rstrip_by]. rewrite Hs, Hr.
  split; [reflexivity|]. destruct t; reflexivity.
Qed.

Lemma groups_sub_non_alnum (b : bool) (t : string) :
  groups b t = true -> PyStr.sub_non_alnum b t = t.
Proof.
  revert b. induction t as [|c t IH]; intros b H; [reflexivity|].
  cbn [groups] in H. cbn [PyStr.sub_non_alnum].
  destruct (Ascii.eqb c "_") eqn:E; apply andb_prop in H; destruct H as [H1 H2].
  - apply Ascii.eqb_eq in E. subst c. apply negb_true_iff in H1. subst b.
    change (PyStr.is_lower_alnum "_") with false. cbv iota.
    rewrite (IH _ H2). reflexivity.
  - rewrite H1, (IH _ H2). reflexivity.
Qed.

Lemma groups_rstrip_us (b : bool) (t : string) :
  groups b t = true -> PyStr.rstrip_by (Ascii.eqb "_") t = t.
Proof.
  revert b. induction t as [|c t IH]; intros b H; [reflexivity|].
  cbn [groups] in H. cbn [PyStr.rstrip_by]. rewrite (Ascii.eqb_sym "_" c).
  destruct (Ascii.eqb c "_") eqn:E; apply andb_prop in H; destruct H as [H1 H2];
    rewrite (IH _ H2).
  - destruct t; [discriminate H2 | reflexivity].
  - destruct t; reflexivity.
Qed.

Lemma groups_strip_us (t : string) :
  groups true t = true -> PyStr.strip_by (Ascii.eqb "_") t = t.
Proof.
  intros H. unfold PyStr.strip_by.
  assert (Hl : PyStr.lstrip_by (Ascii.eqb "_") t = t).
  { destruct t as [|c t]; [reflexivity|]. cbn [groups] in H.
    cbn [PyStr.lstrip_by]. rewrite (Ascii.eqb_sym "_" c).
    destruct (Ascii.eqb c "_"); [discriminate H | reflexivity]. }
  rewrite Hl. exact (groups_rstrip_us _ _ H).
Qed.

(** A string of that shape is its own normal form. *)
Lemma normalized_fixed (t : string) :
  normalized t = true -> Executor.normalize_str t = t.
Proof.
  unfold normalized. destruct t as [|c t']; [reflexivity|].
  cbn [String.eqb orb]. set (t := String c t'). intros H.
  unfold Executor.normalize_str, PyStr.strip.
  rewrite (groups_lower _ _ H). unfold PyStr.strip_by.
  destruct (groups_no_space _ _ H) as [-> ->].
  rewrite (groups_sub_non_alnum _ _ (groups_weaken _ H)).
  rewrite (sub_underscores_loose _ _ (groups_loose _ _ (groups_weaken _ H))).
  apply (groups_strip_us _ H).
Qed.

(** X24. [_normalize_header] returns the empty string or groups of
    lowercase letters and digits joined by single underscores, and it
    leaves such a string as it is: normalizing twice is normalizing
    once, so that a mapping keyed by normalized headers is found again
    under the same keys. *)
Theorem normalize_header_is_idempotent (s : string) :
  normalized (Executor.normalize_str s) = true
  /\ Executor.normalize_str (Executor.normalize_str s) = Executor.normalize_str s.
Proof.
  split; [apply normalize_str_normalized|].
  apply normalized_fixed, normalize_str_normalized.
Qed.

(* ------------------------------------------------------------------ *)
(** ** From the upload to the completed job                            *)
(* ------------------------------------------------------------------ *)

(** What a job returned by [create_import_job] says about the session. *)
Lemma create_import_job_session
      (UPLOAD_DIR : Paths.path) (rt : Runtime) (db db' : DB)
      (fs fs' : Paths.FileSystem) (file : Upload.UploadFile) (user : User)
      (file_id : string) (job : Job) :
  Upload.create_import_job UPLOAD_DIR rt db fs file user file_id = (fs', db', Ok job) ->
  db' = set_jobs (snd (fresh db)) (db_jobs db ++ [job])
  /\ job_id job = db_next db
  /\ job_error job = None.
Proof.
  unfold Upload.create_import_job.
  destruct (Upload._validate_ext (Upload.up_filename file)) as [ext|]; [|discriminate].
  destruct (Upload.stream_loop _ _ _ _) as [w [size|e]]; cbn [fresh];
    intros H; [|discriminate].
  injection H as _ <- <-. repeat split.
Qed.

Lemma find_snoc {A : Type} (f : A -> bool) (l : list A) (x : A) :
  find f l = None -> f x = true -> find f (l ++ [x]) = Some x.
Proof.
  intros Hl Hx. induction l as [|a l IH]; cbn [app find].
  - rewrite Hx. reflexivity.
  - cbn [find] in Hl. destruct (f a); [discriminate | exact (IH Hl)].
Qed.





(* ------------------------------------------------------------------ *)
(** ** From the upload to the analysis                                 *)
(* ------------------------------------------------------------------ *)

Lemma classify_total
      (custom_fields : Dict.dict CustomFieldDefinition) (headers : list label)
      (m0 : list Analyzer.MappedField) (n0 : list label) :
  forallb is_text headers = true ->
  exists r, Analyzer.classify custom_fields headers m0 n0 = Ok r.
Proof.
  revert m0 n0. induction headers as [|h rest IH]; intros m0 n0 H;
    cbn [Analyzer.classify].
  - eauto.
  - cbn [forallb] in H. apply andb_prop in H. destruct H as [Hh Hrest].
    destruct h as [s|z]; [|discriminate].
    cbn [Analyzer.header_key Analyzer.label_lower].
    destruct (PyStr.mem _ Analyzer.static_fields); [apply IH; exact Hrest|].
    destruct (Dict.has custom_fields _); apply IH; exact Hrest.
Qed.

Lemma user_classify_total
      (headers : list label) (m0 : list UserAnalyzer.MappedField) (n0 : list label) :
  forallb is_text headers = true ->
  exists r, UserAnalyzer.classify headers m0 n0 = Ok r.
Proof.
  revert m0 n0. induction headers as [|h rest IH]; intros m0 n0 H;
    cbn [UserAnalyzer.classify].
  - eauto.
  - cbn [forallb] in H. apply andb_prop in H. destruct H as [Hh Hrest].
    destruct h as [s|z]; [|discriminate].
    cbn [Analyzer.header_key Analyzer.label_lower].
    destruct (PyStr.mem _ UserAnalyzer.standard_fields); [apply IH; exact Hrest|].
    destruct (String.eqb _ "name"); apply IH; exact Hrest.
Qed.

Lemma potential_user_cols_total (headers : list label) :
  forallb is_text headers = true ->
  exists cols, Analyzer.potential_user_cols headers = Ok cols.
Proof.
  induction headers as [|h rest IH]; intros H; cbn [Analyzer.potential_user_cols].
  - eauto.
  - cbn [forallb] in H. apply andb_prop in H. destruct H as [Hh Hrest].
    destruct h as [s|z]; [|discriminate]. cbn [Analyzer.label_lower].
    destruct (IH Hrest) as [cols ->].
    destruct (_ || _); eauto.
Qed.

(** X26. From the upload to the analysis.  Let [create_import_job]
    accept an upload (the upload directory being a resolved path, the
    random name free of separators and dots, the key of the new job not
    yet taken), let the pandas reader of its extension find a table in
    the uploaded bytes, and let every column label of that table be
    text.  Then the analyze route, called for that job, returns a report,
    of the asset analyzer or of the user analyzer as [type] asks, whose
    headers are the column labels of the table and whose total_rows is
    its number of rows. *)
Theorem accepted_upload_is_analysed
        (UPLOAD_DIR : Paths.path) (rt : Runtime) (db db' : DB)
        (fs fs' : Paths.FileSystem) (file : Upload.UploadFile) (user : User)
        (file_id : string) (job : Job) (pd : Pandas) (df : DataFrame)
        (type : string) :
  forallb component UPLOAD_DIR = true ->
  String.eqb file_id "" = false ->
  without "/" file_id = true ->
  without "." file_id = true ->
  find_job db (db_next db) = None ->
  Upload.create_import_job UPLOAD_DIR rt db fs file user file_id = (fs', db', Ok job) ->
  (forall ext, Upload._validate_ext (Upload.up_filename file) = Ok ext ->
               reader_of pd ext (Upload.up_content file) = PdFrame df) ->
  forallb is_text (df_columns df) = true ->
  exists a,
    Router.analyze_import UPLOAD_DIR pd fs' rt db' (job_id job) type = Ok a
    /\ (match a with
        | Router.UserAnalysis _ => type = "user"
        | Router.AssetAnalysis _ => type <> "user"
        end)
    /\ analysis_headers a = df_columns df
    /\ analysis_total_rows a = List.length (df_rows df).
Proof.
  intros Hdir Hne Hsl Hdot Hfresh Hcreate Hreader Htext.
  destruct (create_import_job_session _ _ _ _ _ _ _ _ _ _ Hcreate)
    as (Hdb & Hid & _).
  destruct (create_import_job_stored _ _ _ _ _ _ _ _ _ _ Hcreate)
    as (ext & Hext & Hin & Hpath & Hbytes).
  specialize (Hreader ext Hext).
  destruct (read_stored_file UPLOAD_DIR fs' file_id ext _ Hdir Hne Hsl Hdot Hin Hbytes)
    as [_ Hread].
  specialize (Hread pd df Hreader).
  assert (Hfind : find_job db' (job_id job) = Some job).
  { rewrite Hdb. unfold find_job. cbn [db_jobs set_jobs].
    apply find_snoc; [rewrite Hid; exact Hfresh | apply N.eqb_refl]. }
  unfold Router.analyze_import, Executor.get_job. rewrite Hfind, Hpath. cbv zeta.
  destruct (String.eqb type "user") eqn:Htype.
  - unfold UserAnalyzer.analyze_user_file. rewrite Hread.
    destruct (user_classify_total (df_columns df) [] [] Htext) as [[mapped new] ->].
    eexists. split; [reflexivity|].
    split; [apply String.eqb_eq; exact Htype|]. split; reflexivity.
  - unfold Analyzer.analyze_file. rewrite Hread. cbv zeta.
    match goal with
    | |- context [Analyzer.classify ?cf (df_columns df) [] []] =>
        destruct (classify_total cf (df_columns df) [] [] Htext) as [[mapped new] ->]
    end.
    unfold Analyzer.user_matching.
    destruct (potential_user_cols_total (df_columns df) Htext) as [cols ->].
    destruct cols as [|col rest];
      (eexists; split; [reflexivity|];
       split; [apply String.eqb_neq; exact Htype|]; split; reflexivity).
Qed.

(** X26 (witness): the upload of inventory.csv under the random name
    f00d, read as the table of one row and analysed as an asset file. *)
Lemma accepted_upload_is_analysed_witness :
  exists a,
    Router.analyze_import Scenario.UPLOAD_DIR
                          (Scenario.csv_reader Scenario.named_table)
                          Scenario.stored_disk Scenario.rt Scenario.stored_db
                          100%N "asset" = Ok a
    /\ (match a with
        | Router.UserAnalysis _ => "asset" = "user"
        | Router.AssetAnalysis _ => "asset" <> "user"
        end)
    /\ analysis_headers a = [LStr "Name"; LStr "Serial"]
    /\ analysis_total_rows a = 1%nat.
Proof.
  refine (accepted_upload_is_analysed
            Scenario.UPLOAD_DIR Scenario.rt Scenario.db0 Scenario.stored_db
            Scenario.disk Scenario.stored_disk Scenario.upload Scenario.it_user
            "f00d" Scenario.stored_job (Scenario.csv_reader Scenario.named_table)
            Scenario.named_table "asset"
            eq_refl eq_refl eq_refl eq_refl eq_refl _ _ eq_refl).
  - vm_compute. reflexivity.
  - intros ext H. vm_compute in H. injection H as <-. reflexivity.
Defined.

(* ------------------------------------------------------------------ *)
(** ** Importing a user file again                                     *)
(* ------------------------------------------------------------------ *)

(** A row whose address is already stored adds no user and changes no
    key, address or role. *)
Lemma user_row_known
      (fm : Dict.dict (option string)) (sid : option set_ref)
      (i : nat) (r : record) (db : DB) :
  accounts_distinct db ->
  (forall em, row_email fm r = Some em -> In em (map u_email (db_users db))) ->
  map account (db_users (fst (UserImport.user_row fm sid i r db)))
  = map account (db_users db).
Proof.
  intros [[Hnd _] _] Hknown. unfold row_email in Hknown. unfold UserImport.user_row.
  destruct (UserImport.columns_loop fm r _) as [l|]; [|reflexivity].
  destruct (UserImport.email l) as [em|]; [|reflexivity].
  specialize (Hknown em eq_refl).
  destruct (find _ (db_users db)) as [eu|] eqn:Hfind; cbn [fst].
  - apply find_some in Hfind. destruct Hfind as [Hin _].
    cbn [db_users set_users]. apply accounts_replace; [exact Hnd | exact Hin | reflexivity].
  - exfalso. apply in_map_iff in Hknown. destruct Hknown as [u [Hu Hin]].
    pose proof (find_none _ _ Hfind u Hin) as Hneq. cbn beta in Hneq.
    rewrite Hu, String.eqb_refl in Hneq. discriminate.
Qed.

Lemma person_stored_email (db : DB) (sid : option set_ref) (em : string) :
  person_stored db sid em -> In em (map u_email (db_users db)).
Proof.
  intros (u & Hin & <- & _). apply in_map. exact Hin.
Qed.

(** X27. Importing a user file a second time adds no user.  When the
    stored users have pairwise distinct keys and addresses and the user
    executor has returned a report, running it again for the same job,
    strategy and options leaves every user with the key, the address and
    the roles it had, in the same order, and adds none, whether the
    second run returns or raises. *)
Theorem importing_people_again_adds_no_user
        (UPLOAD_DIR : Paths.path) (pd : Pandas) (fs : Paths.FileSystem)
        (rt : Runtime) (db db1 : DB) (job_id : uuid) (strategy : string)
        (options : Executor.Options) (user_id : uuid) (report : Report) :
  accounts_distinct db ->
  UserImport.execute_user_import UPLOAD_DIR pd fs rt db job_id strategy options
                                 user_id = (db1, Ok report) ->
  map account
      (db_users (fst (UserImport.execute_user_import
                        UPLOAD_DIR pd fs rt db1 job_id strategy options user_id)))
  = map account (db_users db1).
Proof.
  intros Hd Hrun.
  pose proof (execute_logic_jobs UPLOAD_DIR pd fs rt db job_id strategy options
                                 user_id "user") as Hjobs.
  change (Driver.execute_logic UPLOAD_DIR pd fs rt db job_id strategy options
                               user_id "user")
    with (UserImport.execute_user_import UPLOAD_DIR pd fs rt db job_id strategy
                                         options user_id) in Hjobs.
  rewrite Hrun in Hjobs. cbn [fst] in Hjobs.
  apply execute_user_import_report in Hrun.
  destruct Hrun as (job & file_path & p & df & d0 & sid & Hjob & Hpath & Hread
                    & Hsetup & _ & _ & Hdb1).
  destruct (user_setup_accounts rt db strategy options user_id) as [Hu Hn].
  rewrite Hsetup in Hu, Hn. cbn [fst] in Hu, Hn.
  assert (Hd0 : accounts_distinct d0)
    by (apply users_keyed_same with db; [rewrite Hu; reflexivity | exact Hn | exact Hd]).
  destruct (import_rows_stores d0 options sid (to_records df) Hd0) as [Hacc1 Hstored].
  rewrite <- Hdb1 in Hacc1, Hstored.
  unfold UserImport.execute_user_import, Executor.get_job, find_job.
  rewrite Hjobs. fold (find_job db job_id). rewrite Hjob, Hpath.
  destruct (String.eqb file_path ""); [reflexivity|].
  rewrite wrap_fatal_fst, Hread.
  destruct (user_setup_accounts rt db1 strategy options user_id) as [Hu2 Hn2].
  destruct (UserImport.strategy_setup rt db1 strategy options user_id)
    as [d2 [sid2|e]]; cbn [fst] in Hu2, Hn2 |- *; [|rewrite Hu2; reflexivity].
  assert (Hd2 : accounts_distinct d2)
    by (apply users_keyed_same with db1; [rewrite Hu2; reflexivity | exact Hn2
                                         | exact Hacc1]).
  unfold UserImport.import_rows.
  set (fm := Executor.normalize_mapping (Executor.opt_mapping options)) in *.
  assert (Hall : forall (records : list record) (i : nat) (st : DB)
                        (n : nat) (errors : list string),
             (forall r, In r records -> In r (to_records df)) ->
             accounts_distinct st
             /\ map account (db_users st) = map account (db_users db1) ->
             map account
                 (db_users
                    (fst (fst (Executor.row_loop DB (UserImport.user_row fm sid2)
                                                 i records st n errors))))
             = map account (db_users db1)).
  { intros records.
    induction records as [|r rest IH]; intros i st n errors Hsub [Hacc Hsame];
      cbn [Executor.row_loop fst].
    - exact Hsame.
    - assert (Hnext : accounts_distinct (fst (UserImport.user_row fm sid2 i r st))
                      /\ map account
                             (db_users (fst (UserImport.user_row fm sid2 i r st)))
                         = map account (db_users db1)).
      { split; [apply user_row_accounts; exact Hacc|].
        rewrite <- Hsame. apply user_row_known; [exact Hacc|].
        intros em Hem.
        rewrite (emails_of_accounts (db_users st)), Hsame, <- emails_of_accounts.
        apply person_stored_email with sid.
        apply (Hstored r em); [apply Hsub; left; reflexivity | exact Hem]. }
      destruct (UserImport.user_row fm sid2 i r st) as [st' [u|e]];
        (apply IH; [intros r0 H0; apply Hsub; right; exact H0 | exact Hnext]). }
  pose proof (Hall (to_records df) 0%nat d2 0%nat [] (fun r H => H)
                   (conj Hd2 (f_equal (map account) Hu2))) as Hend.
  destruct (Executor.row_loop _ _ _ _ _ _ _) as [[db3 imp] errs].
  exact Hend.
Qed.

(** X27 (witness): the user file of three rows, imported twice. *)
Lemma importing_people_again_adds_no_user_witness :
  map account
      (db_users (fst (UserImport.execute_user_import
                        Scenario.UPLOAD_DIR
                        (Scenario.csv_reader Scenario.people_table)
                        Scenario.disk Scenario.rt (fst Scenario.people_run) 1%N
                        "GLOBAL" Scenario.no_options 7%N)))
  = map account (db_users (fst Scenario.people_run)).
Proof.
  refine (importing_people_again_adds_no_user
            Scenario.UPLOAD_DIR (Scenario.csv_reader Scenario.people_table)
            Scenario.disk Scenario.rt Scenario.db0 (fst Scenario.people_run) 1%N
            "GLOBAL" Scenario.no_options 7%N
            (mkReport true 2 ["Row 1: Email is required"] None) _ _).
  - split; [split|]; simpl.
    + constructor; [intros [] | constructor].
    + constructor; [reflexivity | constructor].
    + constructor; [intros [] | constructor].
  - vm_compute. reflexivity.
Defined.
